(** * The generate action of genkit (py/packages/genkit/src/genkit/blocks/generate.py)

    A shallow embedding of the turn controller [generate_action] and of the
    helpers it is built from: [apply_format], [resolve_instructions],
    [resolve_parameters], [action_to_generate_request], [to_tool_definition],
    [resolve_tool_requests], the chunk bookkeeping closure [make_chunk] and
    the middleware chain [dispatch].

    Python objects are records, [None]-able attributes are [option]s, raised
    exceptions are the [Err] outcome of a small state-and-error monad, and the
    list object holding the middleware lives in an explicit store so that
    in-place [append] is visible to the caller. *)

From Stdlib Require Import ZArith Ascii String List Lia.
From stdpp Require Import base option list strings gmap pretty.

Local Open Scope string_scope.
Local Open Scope list_scope.
Local Open Scope Z_scope.

(** ** Data model (genkit.core.typing, as used by generate.py) *)

#[local] Unset Elimination Schemes.
Inductive Json :=
| JNull
| JBool (b : bool)
| JNum (z : Z)
| JStr (s : string)
| JArr (items : list Json)
| JObj (fields : list (string * Json)).
#[local] Set Elimination Schemes.

Inductive Role := RoleUser | RoleModel | RoleTool | RoleSystem.

#[global] Instance Role_eq_dec : EqDecision Role.
Proof. solve_decision. Defined.

Record ToolRequest := {
  treq_name : string;
  treq_ref : option string;
  treq_input : option Json }.

Record ToolResponse := {
  tresp_name : string;
  tresp_ref : option string;
  tresp_output : Json }.

(** [Part] is a root model over the part variants; exactly one is populated. *)
Inductive Part :=
| TextPart (text : string)
| MediaPart (url : string)
| ToolRequestPart (tool_request : ToolRequest)
| ToolResponsePart (tool_response : ToolResponse)
| CustomPart (data : Json).

(** [x.root.tool_request]: set on a tool-request part, [None] on the others. *)
Definition root_tool_request (x : Part) : option ToolRequest :=
  match x with
  | ToolRequestPart tr => Some tr
  | _ => None
  end.

Record Message := {
  msg_role : Role;
  msg_content : list Part }.

Record DocumentData := { doc_content : list Part }.

(** [output.instructions] is typed [bool | str | None]. *)
Inductive InstructionsOpt :=
| InstrNone
| InstrBool (b : bool)
| InstrStr (s : string).

Record GenerateActionOutputConfig := {
  out_format : option string;
  out_content_type : option string;
  out_instructions : InstructionsOpt;
  out_json_schema : option Json;
  out_constrained : option bool }.

Record GenerateActionOptions := {
  opt_model : option string;
  opt_messages : list Message;
  opt_tools : option (list string);
  opt_tool_choice : option string;
  opt_config : option Json;
  opt_output : option GenerateActionOutputConfig;
  opt_docs : option (list DocumentData);
  opt_return_tool_requests : option bool;
  opt_max_turns : option Z }.

Record ToolDefinition := {
  td_name : string;
  td_description : option string;
  td_inputSchema : option Json;
  td_outputSchema : option Json;
  td_metadata : option (gmap string string) }.

Record OutputConfig := {
  oc_content_type : option string;
  oc_format : option string;
  oc_schema_ : option Json;
  oc_constrained : option bool }.

Record GenerateRequest := {
  req_messages : list Message;
  req_config : Json;
  req_docs : option (list DocumentData);
  req_tools : list ToolDefinition;
  req_tool_choice : option string;
  req_output : OutputConfig }.

Record GenerateResponse := {
  resp_message : Message;
  resp_finish_reason : option string;
  resp_finish_message : option string }.

Record GenerateResponseChunk := {
  ch_role : option Role;
  ch_content : list Part }.

(** ** Formats (genkit.blocks.formats) *)

Record Formatter := {
  fmt_instructions : option string;
  parse_message : Message -> Json;
  parse_chunk : GenerateResponseChunk -> Json }.

Record FormatterConfig := {
  cfg_format : option string;
  cfg_content_type : option string;
  cfg_constrained : option bool;
  cfg_default_instructions : option bool }.

(** A [FormatDef] is called with the request's JSON schema, if any, and
    gives the [Formatter]. *)
Record FormatDef := {
  fd_name : string;
  fd_config : FormatterConfig;
  fd_call : option Json -> Formatter }.

(** ** Wrappers (genkit.blocks.model) *)

Record GenerateResponseChunkWrapper := {
  cw_chunk : GenerateResponseChunk;
  cw_index : Z;
  cw_previous_chunks : list GenerateResponseChunk;
  cw_chunk_parser : option Formatter }.

Record GenerateResponseWrapper := {
  rw_message : Message;
  rw_finish_reason : option string;
  rw_finish_message : option string;
  rw_request : GenerateRequest;
  rw_message_parser : option Formatter }.

(** [GenerateResponseWrapper(response, request, message_parser=...)] *)
Definition wrap_response (r : GenerateResponse) (request : GenerateRequest)
    (parser : option Formatter) : GenerateResponseWrapper :=
  {| rw_message := resp_message r;
     rw_finish_reason := resp_finish_reason r;
     rw_finish_message := resp_finish_message r;
     rw_request := request;
     rw_message_parser := parser |}.

(** ** Exceptions *)

Inductive Error :=
| Exception (message : string)
| ValueError (message : string)
| RuntimeError (message : string)
| TypeError (message : string)
| AttributeError (message : string)
| GenerationResponseError (response : GenerateResponseWrapper)
    (message : string) (status : string) (details_request : GenerateRequest)
| ExternalError (origin : string).

Inductive Result (A : Type) :=
| Ok (a : A)
| Err (e : Error).
Arguments Ok {A} a.
Arguments Err {A} e.

(** What a collaborator outside generate.py (a model backend, a tool, a
    validation method of a wrapper) ends in: a value, or an exception of its
    own, which generate.py lets through as it is. *)
Inductive Outcome (A : Type) :=
| Done (a : A)
| Failed (origin : string).
Arguments Done {A} a.
Arguments Failed {A} origin.

Definition of_outcome {A} (o : Outcome A) : Result A :=
  match o with
  | Done a => Ok a
  | Failed origin => Err (ExternalError origin)
  end.

(** ** Python truthiness of the values the code tests *)

Definition truthy_str (s : option string) : bool :=
  match s with
  | Some (String _ _) => true
  | _ => false
  end.

Definition truthy_list {A} (l : option (list A)) : bool :=
  match l with
  | Some (_ :: _) => true
  | _ => false
  end.

Definition truthy_bool (b : option bool) : bool :=
  match b with
  | Some true => true
  | _ => false
  end.

Definition truthy_int (z : option Z) : bool :=
  match z with
  | Some n => negb (n =? 0)
  | None => false
  end.

Definition truthy_instructions (i : InstructionsOpt) : bool :=
  match i with
  | InstrBool true => true
  | InstrStr (String _ _) => true
  | _ => false
  end.

(** ** String helpers: [c in s], [s.rfind(c)] and [s[k:]] *)

Fixpoint str_contains (c : ascii) (s : string) : bool :=
  match s with
  | EmptyString => false
  | String a s' => if Ascii.eqb a c then true else str_contains c s'
  end.

(** [rfind_from c s i last]: scan [s], whose first character has index [i],
    remembering in [last] the highest index seen so far that holds [c]. *)
Fixpoint rfind_from (c : ascii) (s : string) (i last : Z) : Z :=
  match s with
  | EmptyString => last
  | String a s' => rfind_from c s' (i + 1) (if Ascii.eqb a c then i else last)
  end.

(** [s.rfind(c)]: the highest index of [c] in [s], or [-1]. *)
Definition rfind (c : ascii) (s : string) : Z := rfind_from c s 0 (-1).

Fixpoint str_drop (n : nat) (s : string) : string :=
  match n, s with
  | O, _ => s
  | S n', String _ s' => str_drop n' s'
  | S _, EmptyString => EmptyString
  end.

(** [s[k:]] for a non-negative [k]. *)
Definition slice_from (s : string) (k : Z) : string := str_drop (Z.to_nat k) s.

Definition slash : ascii := "/"%char.

(** ** Actions and the registry (genkit.core.registry, genkit.core.action) *)

Inductive ActionKind := MODEL | TOOL.

(** The part of an action's metadata that [generate_action] reads:
    [metadata['model']['supports']['context']]. *)
Record Supports := { sup_context : option bool }.
Record ModelInfo := { mi_supports : option Supports }.
Record ActionMetadata := { md_model : option ModelInfo }.

(** What a model backend does on one [arun]: the chunks it hands to
    [on_chunk], in order, and then the response it returns or the exception
    it raises. *)
Record ModelReply := {
  reply_chunks : list GenerateResponseChunk;
  reply_response : Outcome GenerateResponse }.

(** An action. [act_arun] is [arun(input, context, on_chunk)] of a model
    action; a backend may answer differently from one call to the next, so it
    is also given the number of model calls made before this one.
    [act_arun_raw] is [arun_raw(raw_input)] of a tool action. *)
Record Action := {
  act_name : string;
  act_description : option string;
  act_input_schema : option Json;
  act_output_schema : option Json;
  act_metadata : option ActionMetadata;
  act_arun : nat -> GenerateRequest -> option Json -> ModelReply;
  act_arun_raw : option Json -> Outcome Json }.

Record Registry := {
  default_model : option string;
  lookup_action : ActionKind -> string -> option Action;
  lookup_value : string -> string -> option FormatDef }.

(** ** Middleware (genkit.blocks.model.ModelMiddleware)

    The run context a middleware receives. [arc_on_chunk] is [None] when the
    call does not stream, [WrapChunks] when it is the closure [wrap_chunks]
    of the running [generate_action], and [Foreign] when a middleware has put
    a callback of its own in its place. *)

Inductive ChunkSink := WrapChunks | Foreign.

Record ActionRunContext := {
  arc_on_chunk : option ChunkSink;
  arc_context : option Json }.

(** A middleware is [(req, ctx, next) -> response]. What it does is a tree:
    it returns or raises ([MwReturn]), or it calls [next(modified_req,
    modified_ctx)] and goes on from what [next] returned or raised
    ([MwNext]); it may call [next] never, once or several times. *)
Inductive MiddlewareRun :=
| MwReturn (r : Result GenerateResponse)
| MwNext (modified_req : option GenerateRequest)
    (modified_ctx : option ActionRunContext)
    (k : Result GenerateResponse -> MiddlewareRun).

Definition ModelMiddleware : Type :=
  GenerateRequest -> ActionRunContext -> MiddlewareRun.

(** ** The world [generate_action] runs in *)

Record ModelCall := {
  mc_model : string;
  mc_input : GenerateRequest;
  mc_context : option Json;
  mc_streams : bool }.

Record ToolCall := {
  tc_tool : string;
  tc_request : ToolRequest }.

(** One entry per [dispatch(0, request, ActionRunContext(...))], with the
    middleware list in force at that moment. *)
Record Dispatch := {
  dp_middleware : list ModelMiddleware;
  dp_request : GenerateRequest;
  dp_context : option Json }.

(** The variables [make_chunk] closes over. *)
Record Frame := {
  prev_chunks : list GenerateResponseChunk;
  chunk_role : Role;
  message_index : Z }.

(** [w_store] holds the Python list objects that carry middleware; a
    reference to one is its position. [w_frame] is the frame of the running
    [generate_action] call. The other fields record, in order, the calls made
    to the model backend, to tools and to the caller's [on_chunk]. *)
Record World := {
  w_model_calls : list ModelCall;
  w_tool_calls : list ToolCall;
  w_emitted : list GenerateResponseChunkWrapper;
  w_dispatched : list Dispatch;
  w_store : list (list ModelMiddleware);
  w_frame : Frame }.

Abbreviation ref := nat.

Definition set_frame (f : Frame) (w : World) : World :=
  {| w_model_calls := w_model_calls w; w_tool_calls := w_tool_calls w;
     w_emitted := w_emitted w; w_dispatched := w_dispatched w;
     w_store := w_store w; w_frame := f |}.

Definition set_store (st : list (list ModelMiddleware)) (w : World) : World :=
  {| w_model_calls := w_model_calls w; w_tool_calls := w_tool_calls w;
     w_emitted := w_emitted w; w_dispatched := w_dispatched w;
     w_store := st; w_frame := w_frame w |}.

Definition log_model_call (c : ModelCall) (w : World) : World :=
  {| w_model_calls := w_model_calls w ++ [c]; w_tool_calls := w_tool_calls w;
     w_emitted := w_emitted w; w_dispatched := w_dispatched w;
     w_store := w_store w; w_frame := w_frame w |}.

Definition log_tool_call (c : ToolCall) (w : World) : World :=
  {| w_model_calls := w_model_calls w; w_tool_calls := w_tool_calls w ++ [c];
     w_emitted := w_emitted w; w_dispatched := w_dispatched w;
     w_store := w_store w; w_frame := w_frame w |}.

Definition log_emitted (c : GenerateResponseChunkWrapper) (w : World) : World :=
  {| w_model_calls := w_model_calls w; w_tool_calls := w_tool_calls w;
     w_emitted := w_emitted w ++ [c]; w_dispatched := w_dispatched w;
     w_store := w_store w; w_frame := w_frame w |}.

Definition log_dispatch (d : Dispatch) (w : World) : World :=
  {| w_model_calls := w_model_calls w; w_tool_calls := w_tool_calls w;
     w_emitted := w_emitted w; w_dispatched := w_dispatched w ++ [d];
     w_store := w_store w; w_frame := w_frame w |}.

(** The list a reference points to. *)
Definition deref (st : list (list ModelMiddleware)) (r : ref)
    : list ModelMiddleware :=
  default [] (st !! r).

(** A world in which nothing has happened yet, with the given list objects. *)
Definition initial_world (st : list (list ModelMiddleware)) : World :=
  {| w_model_calls := []; w_tool_calls := []; w_emitted := [];
     w_dispatched := []; w_store := st;
     w_frame := {| prev_chunks := []; chunk_role := RoleModel;
                   message_index := 0 |} |}.

(** ** The state-and-exception monad *)

Definition M (A : Type) : Type := World -> Result A * World.

Definition ret {A} (a : A) : M A := fun w => (Ok a, w).
Definition raise {A} (e : Error) : M A := fun w => (Err e, w).
Definition lift {A} (r : Result A) : M A := fun w => (r, w).
Definition bind {A B} (m : M A) (f : A -> M B) : M B :=
  fun w => match m w with
           | (Ok a, w') => f a w'
           | (Err e, w') => (Err e, w')
           end.
Definition modify (f : World -> World) : M unit := fun w => (Ok tt, f w).
Definition gets {A} (f : World -> A) : M A := fun w => (Ok (f w), w).

Notation "'let*' x ':=' m 'in' k" := (bind m (fun x => k))
  (at level 10, x binder, m at level 100, k at level 200).

Fixpoint for_each {A} (f : A -> M unit) (l : list A) : M unit :=
  match l with
  | [] => ret tt
  | x :: l' => let* _ := f x in for_each f l'
  end.

(** ** The helpers of generate.py that need no state *)

Definition DEFAULT_MAX_TURNS : Z := 5.

(** [to_tool_definition] (lines 464-490). *)
Definition to_tool_definition (tool : Action) : ToolDefinition :=
  let original_name := act_name tool in
  let name :=
    if str_contains slash original_name
    then slice_from original_name (rfind slash original_name + 1)
    else original_name in
  let metadata : option (gmap string string) :=
    if decide (original_name ≠ name)
    then Some {[ "originalName" := original_name ]}
    else None in
  {| td_name := name;
     td_description := act_description tool;
     td_inputSchema := act_input_schema tool;
     td_outputSchema := act_output_schema tool;
     td_metadata := metadata |}.

(** [resolve_tool] (lines 535-548). *)
Definition resolve_tool (registry : Registry) (tool_name : string)
    : option Action :=
  lookup_action registry TOOL tool_name.

(** The loop of [resolve_parameters] over [request.tools] (lines 409-413). *)
Fixpoint resolve_tools (registry : Registry) (names : list string)
    (tools : list Action) : Result (list Action) :=
  match names with
  | [] => Ok tools
  | tool_name :: rest =>
      match lookup_action registry TOOL tool_name with
      | None => Err (Exception ("Unable to resolve tool " +:+ tool_name))
      | Some tool_action => resolve_tools registry rest (tools ++ [tool_action])
      end
  end.

(** [resolve_parameters] (lines 384-423). *)
Definition resolve_parameters (registry : Registry)
    (request : GenerateActionOptions)
    : Result (Action * list Action * option FormatDef) :=
  let model :=
    match opt_model request with
    | Some m => Some m
    | None => default_model registry
    end in
  match model with
  | None | Some EmptyString => Err (Exception "No model configured.")
  | Some model =>
      match lookup_action registry MODEL model with
      | None => Err (Exception ("Failed to to resolve model " +:+ model))
      | Some model_action =>
          match
            (if truthy_list (opt_tools request)
             then resolve_tools registry (default [] (opt_tools request)) []
             else Ok [])
          with
          | Err e => Err e
          | Ok tools =>
              match opt_output request with
              | Some output =>
                  if truthy_str (out_format output)
                  then
                    let format := default "" (out_format output) in
                    match lookup_value registry "format" format with
                    | None =>
                        Err (ValueError ("Unable to resolve format " +:+ format))
                    | Some format_def => Ok (model_action, tools, Some format_def)
                    end
                  else Ok (model_action, tools, None)
              | None => Ok (model_action, tools, None)
              end
          end
      end
  end.

(** [resolve_instructions] (lines 329-350). *)
Definition resolve_instructions (formatter : option Formatter)
    (instructions_opt : InstructionsOpt) : option string :=
  match instructions_opt with
  | InstrStr s => Some s
  | InstrBool false => None
  | _ =>
      match formatter with
      | None => None
      | Some f => fmt_instructions f
      end
  end.

(** [apply_transfer_preamble] (lines 353-368): not implemented upstream. *)
Definition apply_transfer_preamble (next_request : GenerateActionOptions)
    (preamble : option GenerateActionOptions) : GenerateActionOptions :=
  next_request.

(** [assert_valid_tool_names] (lines 371-381): not implemented upstream. *)
Definition assert_valid_tool_names (tools : list Action) : unit := tt.

(** [action_to_generate_request] (lines 426-461). *)
Definition action_to_generate_request (options : GenerateActionOptions)
    (resolved_tools : list Action) (model : Action) : GenerateRequest :=
  let tool_defs :=
    match resolved_tools with
    | [] => []
    | _ => map to_tool_definition resolved_tools
    end in
  {| req_messages := opt_messages options;
     req_config := default (JObj []) (opt_config options);
     req_docs := opt_docs options;
     req_tools := tool_defs;
     req_tool_choice := opt_tool_choice options;
     req_output :=
       {| oc_content_type := opt_output options ≫= out_content_type;
          oc_format := opt_output options ≫= out_format;
          oc_schema_ := opt_output options ≫= out_json_schema;
          oc_constrained := opt_output options ≫= out_constrained |} |}.

Definition with_messages (r : GenerateActionOptions) (ms : list Message)
    : GenerateActionOptions :=
  {| opt_model := opt_model r; opt_messages := ms; opt_tools := opt_tools r;
     opt_tool_choice := opt_tool_choice r; opt_config := opt_config r;
     opt_output := opt_output r; opt_docs := opt_docs r;
     opt_return_tool_requests := opt_return_tool_requests r;
     opt_max_turns := opt_max_turns r |}.

Definition with_output (r : GenerateActionOptions)
    (o : option GenerateActionOutputConfig) : GenerateActionOptions :=
  {| opt_model := opt_model r; opt_messages := opt_messages r;
     opt_tools := opt_tools r; opt_tool_choice := opt_tool_choice r;
     opt_config := opt_config r; opt_output := o; opt_docs := opt_docs r;
     opt_return_tool_requests := opt_return_tool_requests r;
     opt_max_turns := opt_max_turns r |}.

(** [supports_context] as computed at lines 146-151, by its truth value. *)
Definition supports_context (model : Action) : bool :=
  match act_metadata model with
  | Some md =>
      match md_model md with
      | Some info =>
          match mi_supports info with
          | Some s => truthy_bool (sup_context s)
          | None => false
          end
      | None => false
      end
  | None => false
  end.

(** ** The chunk bookkeeping of [make_chunk] (lines 93-128), on the frame *)

Definition make_chunk_frame (formatter : option Formatter) (role : Role)
    (chunk : GenerateResponseChunk) (f : Frame)
    : GenerateResponseChunkWrapper * Frame :=
  let message_index' :=
    if bool_decide (role ≠ chunk_role f)
       && bool_decide (0 < length (prev_chunks f))%nat
    then message_index f + 1
    else message_index f in
  let prev_to_send := prev_chunks f in
  ({| cw_chunk := chunk;
      cw_index := message_index';
      cw_previous_chunks := prev_to_send;
      cw_chunk_parser := formatter |},
   {| prev_chunks := prev_chunks f ++ [chunk];
      chunk_role := role;
      message_index := message_index' |}).

Definition make_chunk (formatter : option Formatter) (role : Role)
    (chunk : GenerateResponseChunk) : M GenerateResponseChunkWrapper :=
  fun w =>
    let '(c, f) := make_chunk_frame formatter role chunk (w_frame w) in
    (Ok c, set_frame f w).

(** The caller's [on_chunk]: [true] when a callback was given; calling it
    records the chunk in [w_emitted]. *)
Definition call_on_chunk (on_chunk : bool) (c : GenerateResponseChunkWrapper)
    : M unit :=
  if on_chunk then modify (log_emitted c)
  else raise (TypeError "'NoneType' object is not callable").

(** [wrap_chunks] (lines 130-141). *)
Definition wrap_chunks (on_chunk : bool) (formatter : option Formatter)
    (chunk : GenerateResponseChunk) : M unit :=
  let* c := make_chunk formatter RoleModel chunk in
  call_on_chunk on_chunk c.

(** The end of the middleware chain (lines 169-177): [model.arun(input=req,
    context=ctx.context, on_chunk=ctx.send_chunk if ctx.is_streaming else
    None)]. *)
Definition call_model (model : Action) (on_chunk : bool)
    (formatter : option Formatter) (req : GenerateRequest)
    (ctx : ActionRunContext) : M GenerateResponse :=
  let* n := gets (fun w => length (w_model_calls w)) in
  let reply := act_arun model n req (arc_context ctx) in
  let* _ := modify (log_model_call
    {| mc_model := act_name model; mc_input := req;
       mc_context := arc_context ctx;
       mc_streams := bool_decide (is_Some (arc_on_chunk ctx)) |}) in
  let* _ :=
    match arc_on_chunk ctx with
    | Some WrapChunks =>
        for_each (wrap_chunks on_chunk formatter) (reply_chunks reply)
    | _ => ret tt
    end in
  lift (of_outcome (reply_response reply)).

(** One middleware at work: [next_fn] (lines 181-186) is [next] here, given
    [modified_req if modified_req else req] and likewise the context. *)
Fixpoint run_middleware
    (next : GenerateRequest -> ActionRunContext -> M GenerateResponse)
    (req : GenerateRequest) (ctx : ActionRunContext) (t : MiddlewareRun)
    : M GenerateResponse :=
  match t with
  | MwReturn r => lift r
  | MwNext modified_req modified_ctx k =>
      fun w =>
        let '(r, w') := next (default req modified_req)
                             (default ctx modified_ctx) w in
        run_middleware next req ctx (k r) w'
  end.

(** [dispatch] (lines 156-188), on the part of the middleware list that is
    still to run: [dispatch(index, req, ctx)] is
    [dispatch_from (drop index middleware) req ctx]. *)
Fixpoint dispatch_from (model : Action) (on_chunk : bool)
    (formatter : option Formatter) (rest : list ModelMiddleware)
    (req : GenerateRequest) (ctx : ActionRunContext) : M GenerateResponse :=
  match rest with
  | [] => call_model model on_chunk formatter req ctx
  | current_middleware :: rest' =>
      run_middleware (dispatch_from model on_chunk formatter rest')
        req ctx (current_middleware req ctx)
  end.

Definition dispatch (model : Action) (on_chunk : bool)
    (formatter : option Formatter) (middleware : list ModelMiddleware)
    (index : nat) (req : GenerateRequest) (ctx : ActionRunContext)
    : M GenerateResponse :=
  dispatch_from model on_chunk formatter (drop index middleware) req ctx.

(** [if not middleware: middleware = []] (lines 143-144): the caller's list
    object is kept when it is given and not empty; otherwise a new list
    object is made. *)
Definition middleware_or_new (middleware : option ref) : M ref :=
  fun w =>
    match middleware with
    | Some r =>
        match deref (w_store w) r with
        | _ :: _ => (Ok r, w)
        | [] => (Ok (length (w_store w)), set_store (w_store w ++ [[]]) w)
        end
    | None => (Ok (length (w_store w)), set_store (w_store w ++ [[]]) w)
    end.

(** [middleware.append(m)]: in place, on the list object. *)
Definition list_append (r : ref) (m : ModelMiddleware) : M unit :=
  modify (fun w => set_store (<[r := deref (w_store w) r ++ [m]]> (w_store w)) w).

(** What one pass through the body of [generate_action] ends in: a [return]
    (lines 224 and 257) or the recursive call of lines 278-285, given by the
    arguments it passes. *)
Inductive TurnResult :=
| Return (response : GenerateResponseWrapper)
| Recurse (next_request : GenerateActionOptions) (message_index : Z)
    (current_turn : Z).

Section Generate.

(** Code of other modules that generate.py calls:
    [genkit.blocks.messages.inject_instructions], the middleware that
    [genkit.blocks.middleware.augment_with_context()] returns,
    [GenerateResponseWrapper.assert_valid] and [.assert_valid_schema], and
    [genkit.codec.dump_dict]. *)
Variable inject_instructions : list Message -> option string -> list Message.
Variable augment_with_context : ModelMiddleware.
Variable assert_valid : GenerateResponseWrapper -> Outcome unit.
Variable assert_valid_schema : GenerateResponseWrapper -> Outcome unit.
Variable dump_dict : Json -> Json.

(** [apply_format] (lines 288-326). *)
Definition apply_format (raw_request : GenerateActionOptions)
    (format_def : option FormatDef)
    : Result (GenerateActionOptions * option Formatter) :=
  match format_def with
  | None => Ok (raw_request, None)
  | Some format_def =>
      let config := fd_config format_def in
      let formatter :=
        fd_call format_def (opt_output raw_request ≫= out_json_schema) in
      let instructions :=
        resolve_instructions (Some formatter)
          (match opt_output raw_request with
           | Some o => out_instructions o
           | None => InstrNone
           end) in
      let inject :=
        match opt_output raw_request with
        | Some o =>
            negb (bool_decide (cfg_default_instructions config = Some false))
            || truthy_instructions (out_instructions o)
        | None => false
        end in
      let out_messages :=
        if inject
        then inject_instructions (opt_messages raw_request) instructions
        else opt_messages raw_request in
      match opt_output raw_request with
      | None =>
          Err (AttributeError
                 "'NoneType' object has no attribute 'constrained'")
      | Some o =>
          let constrained :=
            match cfg_constrained config with
            | Some c => Some c
            | None => out_constrained o
            end in
          let constrained :=
            match out_constrained o with
            | Some c => Some c
            | None => constrained
            end in
          let content_type :=
            match cfg_content_type config with
            | Some c => Some c
            | None => out_content_type o
            end in
          let format :=
            match cfg_format config with
            | Some f => Some f
            | None => out_format o
            end in
          Ok (with_output (with_messages raw_request out_messages)
                (Some {| out_format := format;
                         out_content_type := content_type;
                         out_instructions := out_instructions o;
                         out_json_schema := out_json_schema o;
                         out_constrained := constrained |}),
              Some formatter)
      end
  end.

(** The loop of [resolve_tool_requests] over the tool requests
    (lines 516-530). *)
Fixpoint run_tool_requests (tool_dict : gmap string (option Action))
    (tool_requests : list ToolRequest) (response_parts : list Part)
    : M (list Part) :=
  match tool_requests with
  | [] => ret response_parts
  | tool_request :: rest =>
      match tool_dict !! treq_name tool_request with
      | None =>
          raise (RuntimeError
                   ("failed " +:+ treq_name tool_request +:+ " not found"))
      | Some None =>
          raise (AttributeError
                   "'NoneType' object has no attribute 'arun_raw'")
      | Some (Some tool) =>
          let* _ := modify (log_tool_call
            {| tc_tool := act_name tool;
               tc_request := tool_request |}) in
          let* tool_response :=
            lift (of_outcome (act_arun_raw tool (treq_input tool_request))) in
          run_tool_requests tool_dict rest
            (response_parts ++
             [ToolResponsePart
                {| tresp_name := treq_name tool_request;
                   tresp_ref := treq_ref tool_request;
                   tresp_output := dump_dict tool_response |}])
      end
  end.

(** [tool_dict] as built at lines 512-514. *)
Definition make_tool_dict (registry : Registry) (names : list string)
    : gmap string (option Action) :=
  foldl (fun d tool_name => <[tool_name := resolve_tool registry tool_name]> d)
        ∅ names.

(** [resolve_tool_requests] (lines 493-532). *)
Definition resolve_tool_requests (registry : Registry)
    (request : GenerateActionOptions) (message : Message)
    : M (option Message * Message * option GenerateActionOptions) :=
  let tool_requests := omap root_tool_request (msg_content message) in
  match opt_tools request with
  | None => raise (TypeError "'NoneType' object is not iterable")
  | Some names =>
      let tool_dict := make_tool_dict registry names in
      let* response_parts := run_tool_requests tool_dict tool_requests [] in
      ret (None, {| msg_role := RoleTool; msg_content := response_parts |},
           None)
  end.

(** Lines 89-154 of [generate_action]: the fresh [prev_chunks] and
    [chunk_role], the middleware list ([if not middleware: middleware = []])
    and the context middleware appended to it when the request has docs and
    the model does not support context. Gives the reference of the list that
    [dispatch] will walk. *)
Definition begin_turn (model : Action) (raw_request : GenerateActionOptions)
    (message_index0 : Z) (middleware : option ref) : M ref :=
  let* _ := modify (set_frame {| prev_chunks := []; chunk_role := RoleModel;
                                 message_index := message_index0 |}) in
  let* middleware := middleware_or_new middleware in
  let* _ :=
    if truthy_list (opt_docs raw_request) && negb (supports_context model)
    then list_append middleware augment_with_context
    else ret tt in
  ret middleware.

(** Lines 199-285 of [generate_action]: what is done with the response that
    [dispatch] returned. *)
Definition end_turn (registry : Registry) (raw_request : GenerateActionOptions)
    (formatter : option Formatter) (request : GenerateRequest)
    (on_chunk : bool) (current_turn : Z) (model_response : GenerateResponse)
    : M TurnResult :=
  let response := wrap_response model_response request formatter in
  let* _ := lift (of_outcome (assert_valid response)) in
  let generated_msg := rw_message response in
  let tool_requests :=
    filter (fun x => is_Some (root_tool_request x))
           (msg_content (rw_message response)) in
  if truthy_bool (opt_return_tool_requests raw_request)
     || (length tool_requests =? 0)%nat
  then
    let* _ :=
      if (length tool_requests =? 0)%nat
      then lift (of_outcome (assert_valid_schema response))
      else ret tt in
    ret (Return response)
  else
    let max_iters :=
      if truthy_int (opt_max_turns raw_request)
      then default 0 (opt_max_turns raw_request)
      else DEFAULT_MAX_TURNS in
    if current_turn + 1 >? max_iters
    then
      raise (GenerationResponseError response
               ("Exceeded maximum tool call iterations ("
                +:+ pretty max_iters +:+ ")")
               "ABORTED" request)
    else
      let* '(revised_model_msg, tool_msg, transfer_preamble) :=
        resolve_tool_requests registry raw_request generated_msg in
      match revised_model_msg with
      | Some revised =>
          ret (Return
                 {| rw_message := revised;
                    rw_finish_reason := Some "interrupted";
                    rw_finish_message :=
                      Some "One or more tool calls resulted in interrupts.";
                    rw_request := request;
                    rw_message_parser := formatter |})
      | None =>
          let* _ :=
            if on_chunk
            then
              let* c := make_chunk formatter RoleTool
                          {| ch_role := Some (msg_role tool_msg);
                             ch_content := msg_content tool_msg |} in
              call_on_chunk on_chunk c
            else ret tt in
          let next_messages :=
            opt_messages raw_request ++ [generated_msg; tool_msg] in
          let next_request :=
            apply_transfer_preamble
              (with_messages raw_request next_messages) transfer_preamble in
          let* message_index := gets (fun w => message_index (w_frame w)) in
          ret (Recurse next_request (message_index + 1) (current_turn + 1))
      end.

(** The body of [generate_action] (lines 79-285) up to its [return] or its
    recursive call. *)
Definition generate_action_turn (registry : Registry)
    (raw_request : GenerateActionOptions) (on_chunk : bool)
    (message_index0 : Z) (current_turn : Z) (middleware : option ref)
    (context : option Json) : M TurnResult :=
  let* '(model, tools, format_def) :=
    lift (resolve_parameters registry raw_request) in
  let* '(raw_request, formatter) := lift (apply_format raw_request format_def) in
  let _ := assert_valid_tool_names tools in
  let request := action_to_generate_request raw_request tools model in
  let* middleware := begin_turn model raw_request message_index0 middleware in
  let* chain := gets (fun w => deref (w_store w) middleware) in
  let ctx := {| arc_on_chunk := if on_chunk then Some WrapChunks else None;
                arc_context := context |} in
  let* _ := modify (log_dispatch {| dp_middleware := chain;
                                    dp_request := request;
                                    dp_context := context |}) in
  let* model_response := dispatch model on_chunk formatter chain 0 request ctx in
  end_turn registry raw_request formatter request on_chunk current_turn
    model_response.

(** [generate_action] (lines 56-285). The recursive call passes neither
    [middleware] nor [context], which take their default [None]. [fuel]
    bounds the depth of the recursion; [None] is a run cut short by it. *)
Fixpoint generate_action (fuel : nat) (registry : Registry)
    (raw_request : GenerateActionOptions) (on_chunk : bool)
    (message_index : Z) (current_turn : Z) (middleware : option ref)
    (context : option Json) (w : World)
    : option (Result GenerateResponseWrapper * World) :=
  match fuel with
  | O => None
  | S fuel' =>
      match generate_action_turn registry raw_request on_chunk message_index
              current_turn middleware context w with
      | (Err e, w') => Some (Err e, w')
      | (Ok (Return response), w') => Some (Ok response, w')
      | (Ok (Recurse next_request message_index' current_turn'), w') =>
          generate_action fuel' registry next_request on_chunk
            message_index' current_turn' None None w'
      end
  end.

(** The run of [generate_action], turn after turn. *)
Inductive Run (registry : Registry) (on_chunk : bool)
  : GenerateActionOptions -> Z -> Z -> option ref -> option Json -> World ->
    Result GenerateResponseWrapper -> World -> Prop :=
| Run_return raw_request mi ct mw ctx w response w' :
    generate_action_turn registry raw_request on_chunk mi ct mw ctx w
      = (Ok (Return response), w') ->
    Run registry on_chunk raw_request mi ct mw ctx w (Ok response) w'
| Run_raise raw_request mi ct mw ctx w e w' :
    generate_action_turn registry raw_request on_chunk mi ct mw ctx w
      = (Err e, w') ->
    Run registry on_chunk raw_request mi ct mw ctx w (Err e) w'
| Run_recurse raw_request mi ct mw ctx w next_request mi' ct' w1 res w' :
    generate_action_turn registry raw_request on_chunk mi ct mw ctx w
      = (Ok (Recurse next_request mi' ct'), w1) ->
    Run registry on_chunk next_request mi' ct' None None w1 res w' ->
    Run registry on_chunk raw_request mi ct mw ctx w res w'.

End Generate.

(** ** Vocabulary of the statements below *)

(** The bound on tool-call iterations that [generate_action] reads from the
    request (lines 226-228). *)
Definition effective_max_turns (raw_request : GenerateActionOptions) : Z :=
  if truthy_int (opt_max_turns raw_request)
  then default 0 (opt_max_turns raw_request)
  else DEFAULT_MAX_TURNS.

(** A middleware that calls [next] once, possibly with another request or
    context but with the chunk callback it was given, and returns what [next]
    returned or raised. *)
Definition transparent (m : ModelMiddleware) : Prop :=
  forall req ctx, exists modified_req modified_ctx,
    m req ctx = MwNext modified_req modified_ctx MwReturn /\
    arc_on_chunk (default ctx modified_ctx) = arc_on_chunk ctx.

(** The middleware the caller passed: the content of its list object. *)
Definition caller_chain (st : list (list ModelMiddleware))
    (middleware : option ref) : list ModelMiddleware :=
  match middleware with
  | Some r => deref st r
  | None => []
  end.

(** The test of line 153: the request has docs and the model does not
    support context. *)
Definition injects_context (model : Action) (raw_request : GenerateActionOptions)
    : bool :=
  truthy_list (opt_docs raw_request) && negb (supports_context model).

(** The error of line 231, as against every other exception. *)
Definition is_abort (e : Error) : Prop :=
  match e with
  | GenerationResponseError _ _ _ _ => True
  | _ => False
  end.

(** Two worlds with the same list objects, dispatches and tool calls. *)
Definition same_lists (w w' : World) : Prop :=
  w_store w' = w_store w /\ w_dispatched w' = w_dispatched w /\
  w_tool_calls w' = w_tool_calls w.

(** The wrappers [wrap_chunks] hands to the callback for the chunks [cs] of
    one turn, when [seen] were streamed before them in that turn and the
    message index of the turn is [mi]. *)
Fixpoint wrap_all (formatter : option Formatter) (mi : Z)
    (seen cs : list GenerateResponseChunk) : list GenerateResponseChunkWrapper :=
  match cs with
  | [] => []
  | c :: cs' =>
      {| cw_chunk := c; cw_index := mi; cw_previous_chunks := seen;
         cw_chunk_parser := formatter |}
      :: wrap_all formatter mi (seen ++ [c]) cs'
  end.

(** What holds of a world all through the dispatch of a turn that streams to
    a callback: the last role is [model], the message index is the one the
    turn started with, and the callback has received [emitted0] and then the
    chunks streamed in this turn, wrapped. *)
Definition streaming (formatter : option Formatter) (mi : Z) (emitted0 : list GenerateResponseChunkWrapper)
    (w : World) : Prop :=
  chunk_role (w_frame w) = RoleModel /\
  message_index (w_frame w) = mi /\
  w_emitted w = emitted0 ++ wrap_all formatter mi [] (prev_chunks (w_frame w)).


(** The middleware chain with any last step in the place of the model call. *)
Fixpoint dispatch_to
    (final : GenerateRequest -> ActionRunContext -> M GenerateResponse)
    (rest : list ModelMiddleware) (req : GenerateRequest)
    (ctx : ActionRunContext) : M GenerateResponse :=
  match rest with
  | [] => final req ctx
  | current_middleware :: rest' =>
      run_middleware (dispatch_to final rest') req ctx
        (current_middleware req ctx)
  end.

(** The context middleware, when line 153 asks for it. *)
Definition context_middleware (augment_with_context : ModelMiddleware)
    (model : Action) (raw_request : GenerateActionOptions)
    : list ModelMiddleware :=
  if injects_context model raw_request then [augment_with_context] else [].

(** The response checked as lines 216 and 223 check it. *)
Definition validated
    (assert_valid assert_valid_schema : GenerateResponseWrapper -> Outcome unit)
    (response : GenerateResponseWrapper)
    : Result GenerateResponseWrapper :=
  match assert_valid response with
  | Failed origin => Err (ExternalError origin)
  | Done _ =>
      match assert_valid_schema response with
      | Failed origin => Err (ExternalError origin)
      | Done _ => Ok response
      end
  end.

(** What one turn hands to the callback: the chunks streamed by the model,
    wrapped, and then, when the loop goes on, the chunk made of the tool
    message. *)
Record Segment := {
  seg_start : Z;
  seg_parser : option Formatter;
  seg_model : list GenerateResponseChunk;
  seg_tool : option GenerateResponseChunk }.

(** The index [make_chunk] gives the tool chunk of a turn: the index of the
    turn, plus one if the turn has streamed a chunk before it. *)
Definition tool_index (seg : Segment) : Z :=
  match seg_model seg with
  | [] => seg_start seg
  | _ :: _ => seg_start seg + 1
  end.

Definition segment_emitted (seg : Segment) : list GenerateResponseChunkWrapper :=
  wrap_all (seg_parser seg) (seg_start seg) [] (seg_model seg)
  ++ match seg_tool seg with
     | Some t => [{| cw_chunk := t; cw_index := tool_index seg;
                     cw_previous_chunks := seg_model seg;
                     cw_chunk_parser := seg_parser seg |}]
     | None => []
     end.

(** The message index the recursive call is given (line 283). *)
Definition next_start (seg : Segment) : Z := tool_index seg + 1.

(** Turns in a row: each starts at the index the turn before it passed on,
    and every turn but the last ended with a tool chunk, of role [tool]. *)
Fixpoint chained (start : Z) (segs : list Segment) : Prop :=
  match segs with
  | [] => True
  | seg :: rest =>
      seg_start seg = start /\
      (forall t, seg_tool seg = Some t -> ch_role t = Some RoleTool) /\
      (rest <> [] -> is_Some (seg_tool seg)) /\
      chained (next_start seg) rest
  end.

(** ** Concrete collaborators, for running the code on examples *)

Module Scenario.

Definition text_message (r : Role) (s : string) : Message :=
  {| msg_role := r; msg_content := [TextPart s] |}.

Definition tool_call (name : string) : ToolRequest :=
  {| treq_name := name; treq_ref := Some "ref-1"; treq_input := None |}.

(** A model message asking for the tools named. *)
Definition calling (names : list string) : Message :=
  {| msg_role := RoleModel;
     msg_content := map (fun n => ToolRequestPart (tool_call n)) names |}.

Definition model_chunk (s : string) : GenerateResponseChunk :=
  {| ch_role := Some RoleModel; ch_content := [TextPart s] |}.

Definition reply (chunks : list GenerateResponseChunk) (m : Message)
    : ModelReply :=
  {| reply_chunks := chunks;
     reply_response := Done {| resp_message := m;
                               resp_finish_reason := Some "stop";
                               resp_finish_message := None |} |}.

(** A model backend that gives the replies of [script] one call after the
    other, and [otherwise] once the script is used up. *)
Definition scripted (name : string) (metadata : option ActionMetadata)
    (script : list ModelReply) (otherwise : ModelReply) : Action :=
  {| act_name := name; act_description := None;
     act_input_schema := None; act_output_schema := None;
     act_metadata := metadata;
     act_arun := fun n _ _ => default otherwise (script !! n);
     act_arun_raw := fun _ => Failed "not a tool" |}.

Definition tool_returning (name : string) (out : Outcome Json) : Action :=
  {| act_name := name; act_description := None;
     act_input_schema := None; act_output_schema := None;
     act_metadata := None;
     act_arun := fun _ _ _ => {| reply_chunks := [];
                                 reply_response := Failed "not a model" |};
     act_arun_raw := fun _ => out |}.

Definition registry_of (m : Action) (tools : list Action)
    (formats : list FormatDef) : Registry :=
  {| default_model := Some (act_name m);
     lookup_action := fun kind name =>
       match kind with
       | MODEL => if String.eqb name (act_name m) then Some m else None
       | TOOL => find (fun t => String.eqb name (act_name t)) tools
       end;
     lookup_value := fun category name =>
       if String.eqb category "format"
       then find (fun f => String.eqb name (fd_name f)) formats
       else None |}.

Definition request_with (tools : option (list string))
    (docs : option (list DocumentData)) (max_turns : option Z)
    : GenerateActionOptions :=
  {| opt_model := None;
     opt_messages := [text_message RoleUser "What is the weather?"];
     opt_tools := tools; opt_tool_choice := None; opt_config := None;
     opt_output := None; opt_docs := docs;
     opt_return_tool_requests := None; opt_max_turns := max_turns |}.

Definition a_document : DocumentData :=
  {| doc_content := [TextPart "Forecast archive"] |}.

Definition keep_messages (ms : list Message) (_ : option string)
    : list Message := ms.

(** A middleware that hands the request on and returns what comes back. *)
Definition pass_on : ModelMiddleware :=
  fun _ _ => MwNext None None MwReturn.

(** A middleware that adds a first system message and hands the request on. *)
Definition with_note (note : string) : ModelMiddleware :=
  fun req _ =>
    MwNext (Some {| req_messages :=
                      text_message RoleSystem note :: req_messages req;
                    req_config := req_config req; req_docs := req_docs req;
                    req_tools := req_tools req;
                    req_tool_choice := req_tool_choice req;
                    req_output := req_output req |})
           None MwReturn.

(** A middleware that calls [next] twice and returns the second result. *)
Definition asking_twice : ModelMiddleware :=
  fun _ _ => MwNext None None (fun _ => MwNext None None MwReturn).

(** A middleware that calls [next] once and puts the message [m] in the
    place of the message of the reply. *)
Definition rewriting (m : Message) : ModelMiddleware :=
  fun _ _ =>
    MwNext None None
      (fun r => MwReturn
                  match r with
                  | Ok response =>
                      Ok {| resp_message := m;
                            resp_finish_reason := resp_finish_reason response;
                            resp_finish_message :=
                              resp_finish_message response |}
                  | Err e => Err e
                  end).

Definition always_valid (_ : GenerateResponseWrapper) : Outcome unit :=
  Done tt.

Definition same_json (j : Json) : Json := j.

(** [generate_action] with these collaborators; the context middleware is
    [with_note "context"]. *)
Definition run := generate_action keep_messages (with_note "context")
                    always_valid always_valid same_json.

Definition weather_tool : Action :=
  tool_returning "getWeather" (Done (JObj [("tempC", JNum 20)])).

(** A model that asks for [getWeather] on every call, streaming one chunk
    each time. *)
Definition insisting_model : Action :=
  scripted "m" None [] (reply [model_chunk "..."] (calling ["getWeather"])).

(** A model that streams two chunks and asks for [getWeather], then streams
    one chunk and answers. *)
Definition weather_model : Action :=
  scripted "m" None
    [reply [model_chunk "Let me "; model_chunk "check."]
           (calling ["getWeather"])]
    (reply [model_chunk "It's 20C."] (text_message RoleModel "It's 20C.")).

(** A model that answers at once, without streaming. *)
Definition answering_model : Action :=
  scripted "m" None [] (reply [] (text_message RoleModel "It's 20C.")).

(** A model that asks for [getWeather] twice, streaming on the first call
    only, and then answers. *)
Definition quiet_model : Action :=
  scripted "m" None
    [reply [model_chunk "Checking."] (calling ["getWeather"]);
     reply [] (calling ["getWeather"])]
    (reply [] (text_message RoleModel "It's 20C.")).

Definition add_tool : Action :=
  tool_returning "mathPlugin/add" (Done (JNum 3)).

(** A format registered as [jsonl] whose wire-format hint is [json]. *)
Definition jsonl_format : FormatDef :=
  {| fd_name := "jsonl";
     fd_config := {| cfg_format := Some "json";
                     cfg_content_type := Some "application/jsonl";
                     cfg_constrained := Some true;
                     cfg_default_instructions := None |};
     fd_call := fun _ => {| fmt_instructions := Some "One JSON value per line.";
                            parse_message := fun _ => JNull;
                            parse_chunk := fun _ => JNull |} |}.

(** A request for [jsonl] output that sets the content type and turns
    constrained output off. *)
Definition plain_text_output : GenerateActionOutputConfig :=
  {| out_format := Some "jsonl"; out_content_type := Some "text/plain";
     out_instructions := InstrNone; out_json_schema := None;
     out_constrained := Some false |}.

End Scenario.

(** ** The Google GenAI plugin
    (py/plugins/google-genai/src/genkit/plugins/google_genai/google.py) *)

Definition PLUGIN_NAME : string := "google_genai".

(** [google_genai_name] (lines 31-40): [f'{PLUGIN_NAME}/{name}']. *)
Definition google_genai_name (name : string) : string :=
  PLUGIN_NAME +:+ "/" +:+ name.

(** The keyword arguments [GoogleGenai.__init__] gives to
    [genai.client.Client] (lines 65-73). The credentials, the debug
    configuration and the HTTP options are objects of other libraries, handed
    on as they are. *)
Record ClientArgs (Credentials DebugConfig HttpOptions : Type) := {
  ca_vertexai : option bool;
  ca_api_key : option string;
  ca_credentials : option Credentials;
  ca_project : option string;
  ca_location : option string;
  ca_debug_config : option DebugConfig;
  ca_http_options : option HttpOptions }.
Arguments ca_vertexai {_ _ _} _.
Arguments ca_api_key {_ _ _} _.
Arguments ca_credentials {_ _ _} _.
Arguments ca_project {_ _ _} _.
Arguments ca_location {_ _ _} _.
Arguments ca_debug_config {_ _ _} _.
Arguments ca_http_options {_ _ _} _.

(** [GoogleGenai.__init__] (lines 48-73); the value is [self._client].
    [getenv] is [os.getenv('GEMINI_API_KEY')]. [Client_new] is the
    constructor [genai.client.Client], of another library: it gives a client
    or raises, and what it raises goes through [__init__] as it is. *)
Definition GoogleGenai_init {Credentials DebugConfig HttpOptions Client : Type}
    (Client_new : ClientArgs Credentials DebugConfig HttpOptions ->
                  Outcome Client)
    (getenv : option string)
    (vertexai : option bool) (api_key : option string)
    (credentials : option Credentials) (project location : option string)
    (debug_config : option DebugConfig) (http_options : option HttpOptions)
    : Result Client :=
  let api_key := if truthy_str api_key then api_key else getenv in
  if negb (truthy_bool vertexai) && negb (truthy_str api_key)
  then Err (ValueError
              ("Gemini api key should be passed in plugin params "
               +:+ "or as a GEMINI_API_KEY environment variable"))
  else of_outcome
         (Client_new {| ca_vertexai := vertexai;
                        ca_api_key := if negb (truthy_bool vertexai)
                                      then api_key else None;
                        ca_credentials := credentials;
                        ca_project := project;
                        ca_location := location;
                        ca_debug_config := debug_config;
                        ca_http_options := http_options |}).

(** One call of [ai.define_model] (lines 87-91). *)
Record DefineModel (Fn : Type) := {
  dm_name : string;
  dm_fn : Fn;
  dm_metadata : option ActionMetadata }.
Arguments dm_name {_} _.
Arguments dm_fn {_} _.
Arguments dm_metadata {_} _.

(** [GoogleGenai.initialize] (lines 75-91): the calls of [ai.define_model]
    it makes, in order. [GeminiVersion] is the enumeration it walks;
    [generate_of] and [metadata_of] stand for [GeminiModel(version, client,
    ai).generate] and [.metadata]. *)
Definition GoogleGenai_initialize {Fn : Type} (GeminiVersion : list string)
    (generate_of : string -> Fn) (metadata_of : string -> option ActionMetadata)
    : list (DefineModel Fn) :=
  map (fun version =>
         {| dm_name := google_genai_name version;
            dm_fn := generate_of version;
            dm_metadata := metadata_of version |})
      GeminiVersion.

(** ** Further vocabulary *)

(** The registered name of the tool a definition was made from: the
    [originalName] of its metadata when there is one, its name otherwise. *)
Definition registered_name (tdef : ToolDefinition) : string :=
  default (td_name tdef) (td_metadata tdef ≫= (fun m => m !! "originalName")).

(** The model name [resolve_parameters] goes by (lines 397-399). *)
Definition chosen_model (registry : Registry) (request : GenerateActionOptions)
    : option string :=
  match opt_model request with
  | Some m => Some m
  | None => default_model registry
  end.

(** The response part made for a tool request that was answered by [out]
    (lines 522-530). *)
Definition response_part (dump_dict : Json -> Json) (tr : ToolRequest)
    (out : Json) : Part :=
  ToolResponsePart {| tresp_name := treq_name tr; tresp_ref := treq_ref tr;
                      tresp_output := dump_dict out |}.

(** The message holds a tool request (line 221). *)
Definition asks_for_tools (m : Message) : Prop :=
  omap root_tool_request (msg_content m) <> [].

(** What a tool call on record says of the request it serves: the name of
    the request is among [request.tools], and the tool run is the action the
    registry holds under that name. *)
Definition serves_declared_tool (registry : Registry)
    (raw_request : GenerateActionOptions) (c : ToolCall) : Prop :=
  exists names tool,
    opt_tools raw_request = Some names /\
    treq_name (tc_request c) ∈ names /\
    lookup_action registry TOOL (treq_name (tc_request c)) = Some tool /\
    tc_tool c = act_name tool.

(** ** Further concrete collaborators *)

Module Examples.

(** A middleware that answers from a cache, without calling [next]. *)
Definition cached (r : GenerateResponse) : ModelMiddleware :=
  fun _ _ => MwReturn (Ok r).

Definition cached_answer : GenerateResponse :=
  {| resp_message := Scenario.text_message RoleModel "It was 19C.";
     resp_finish_reason := Some "stop";
     resp_finish_message := None |}.

(** The request [r] with [return_tool_requests] set. *)
Definition returning_tool_requests (r : GenerateActionOptions)
    : GenerateActionOptions :=
  {| opt_model := opt_model r; opt_messages := opt_messages r;
     opt_tools := opt_tools r; opt_tool_choice := opt_tool_choice r;
     opt_config := opt_config r; opt_output := opt_output r;
     opt_docs := opt_docs r; opt_return_tool_requests := Some true;
     opt_max_turns := opt_max_turns r |}.

(** A request for the weather with the tool [getWeather]. *)
Definition weather_request : GenerateActionOptions :=
  Scenario.request_with (Some ["getWeather"]) None None.

(** The same request, asking for [jsonl] output. *)
Definition jsonl_request : GenerateActionOptions :=
  with_output weather_request (Some Scenario.plain_text_output).

Definition weather_registry (model : Action) : Registry :=
  Scenario.registry_of model [Scenario.weather_tool] [Scenario.jsonl_format].

Definition gemini_versions : list string :=
  ["gemini-1.5-pro"; "gemini-1.5-flash"; "gemini-2.0-flash"].

End Examples.

(** * Properties *)

(** ** Tool names: [to_tool_definition] *)

Lemma rfind_from_absent c s i last :
  str_contains c s = false -> rfind_from c s i last = last.
Proof.
  revert i last. induction s as [|a s IH]; intros i last H; simpl in *; [done|].
  destruct (Ascii.eqb a c); [done|]. by apply IH.
Qed.

Lemma rfind_from_present c s i last :
  str_contains c s = true ->
  exists (k : nat) (pre : string),
    rfind_from c s i last = i + Z.of_nat k /\
    s = pre +:+ String c (str_drop (S k) s) /\
    str_contains c (str_drop (S k) s) = false.
Proof.
  revert i last. induction s as [|a s IH]; intros i last H; simpl in H; [done|].
  destruct (str_contains c s) eqn:Hs.
  - destruct (IH (i + 1) (if Ascii.eqb a c then i else last) eq_refl)
      as (k & pre & Hk & Hsplit & Hno).
    exists (S k), (String a pre). simpl rfind_from. rewrite Hk.
    split; [lia|]. split; [|done].
    change (str_drop (S (S k)) (String a s)) with (str_drop (S k) s).
    change (String a s = String a (pre +:+ String c (str_drop (S k) s))).
    by f_equal.
  - destruct (Ascii.eqb a c) eqn:Hac; [|done].
    apply Ascii.eqb_eq in Hac as ->.
    exists 0%nat, "". simpl. rewrite Ascii.eqb_refl.
    rewrite rfind_from_absent by done. split; [lia|]. by split.
Qed.

Lemma length_append_cons pre c s :
  String.length (pre +:+ String c s) = S (String.length pre + String.length s).
Proof. induction pre; simpl; [done|]. rewrite IHpre. lia. Qed.

Lemma to_tool_definition_namespaced (tool : Action) :
  str_contains slash (act_name tool) = true ->
  exists pre,
    act_name tool = pre +:+ String slash (td_name (to_tool_definition tool)) /\
    str_contains slash (td_name (to_tool_definition tool)) = false /\
    td_metadata (to_tool_definition tool)
      = Some {[ "originalName" := act_name tool ]}.
Proof.
  intros H. unfold to_tool_definition. simpl. rewrite H.
  destruct (rfind_from_present slash (act_name tool) 0 (-1) H)
    as (k & pre & Hk & Hsplit & Hno).
  unfold rfind, slice_from. rewrite Hk.
  replace (Z.to_nat (0 + Z.of_nat k + 1)) with (S k) by lia.
  exists pre. split; [done|]. split; [done|].
  destruct (decide _) as [_|Heq]; [done|].
  exfalso. apply Heq. intros Heq'.
  apply (f_equal String.length) in Hsplit.
  rewrite length_append_cons in Hsplit. rewrite <- Heq' in Hsplit. lia.
Qed.

(** ** The tool-call resolver: [resolve_tool_requests] *)

Lemma foldl_tool_dict_lookup registry names (d : gmap string (option Action)) n :
  foldl (fun d tool_name => <[tool_name := resolve_tool registry tool_name]> d)
        d names !! n
  = if decide (n ∈ names) then Some (resolve_tool registry n) else d !! n.
Proof.
  revert d. induction names as [|x names IH]; intros d; cbn [foldl].
  - case_decide as Hin; [by apply elem_of_nil in Hin | done].
  - rewrite IH. destruct (decide (n ∈ names)) as [Hin|Hnin].
    + rewrite decide_True by (by right). done.
    + destruct (decide (x = n)) as [->|Hne].
      * rewrite lookup_insert_eq. rewrite decide_True by left. done.
      * rewrite lookup_insert_ne by done.
        rewrite decide_False; [done|]. intros [?|?]%elem_of_cons; congruence.
Qed.

Lemma make_tool_dict_lookup registry names n :
  make_tool_dict registry names !! n
  = if decide (n ∈ names) then Some (resolve_tool registry n) else None.
Proof. unfold make_tool_dict. by rewrite foldl_tool_dict_lookup, lookup_empty. Qed.

Section Tools.
Variable dump_dict : Json -> Json.
Variable tool_dict : gmap string (option Action).

Lemma run_tool_requests_unknown r rest parts w :
  tool_dict !! treq_name r = None ->
  run_tool_requests dump_dict tool_dict (r :: rest) parts w
  = (Err (RuntimeError ("failed " +:+ treq_name r +:+ " not found")), w).
Proof. intros H. simpl. by rewrite H. Qed.

Lemma run_tool_requests_app before rest parts w :
  run_tool_requests dump_dict tool_dict (before ++ rest) parts w
  = match run_tool_requests dump_dict tool_dict before parts w with
    | (Ok parts', w') => run_tool_requests dump_dict tool_dict rest parts' w'
    | (Err e, w') => (Err e, w')
    end.
Proof.
  revert parts w. induction before as [|r before IH]; intros parts w; [done|].
  simpl. destruct (tool_dict !! treq_name r) as [[tool|]|]; try done.
  unfold bind, modify, lift. 
  destruct (of_outcome (act_arun_raw tool (treq_input r))); [|done].
  apply IH.
Qed.

(** The loop touches nothing but the record of tool calls. *)
Lemma run_tool_requests_frame trs parts w :
  let w' := (run_tool_requests dump_dict tool_dict trs parts w).2 in
  w_model_calls w' = w_model_calls w /\ w_emitted w' = w_emitted w /\
  w_dispatched w' = w_dispatched w /\ w_store w' = w_store w /\
  w_frame w' = w_frame w.
Proof.
  revert parts w. induction trs as [|r trs IH]; intros parts w; [done|].
  simpl. destruct (tool_dict !! treq_name r) as [[tool|]|]; [|done..].
  unfold bind, modify, lift.
  destruct (of_outcome (act_arun_raw tool (treq_input r))); [|done].
  apply (IH _ (log_tool_call _ w)).
Qed.

(** Every tool run by the loop serves a request whose name is a key of
    [tool_dict]: one run per request served, in the order of the requests,
    and all of them when the loop ends well. *)
Lemma run_tool_requests_calls trs parts w res w' :
  run_tool_requests dump_dict tool_dict trs parts w = (res, w') ->
  exists served,
    w_tool_calls w' = w_tool_calls w ++ served /\
    map tc_request served `prefix_of` trs /\
    (forall c, c ∈ served -> is_Some (tool_dict !! treq_name (tc_request c))) /\
    (forall parts', res = Ok parts' -> map tc_request served = trs).
Proof.
  revert parts w. induction trs as [|r trs IH]; intros parts w H; simpl in H.
  { inversion H; subst. exists []. rewrite app_nil_r.
    split_and!; [done|done|by inversion 1|done]. }
  destruct (tool_dict !! treq_name r) as [[tool|]|] eqn:Hd.
  - unfold bind, modify, lift in H.
    destruct (of_outcome (act_arun_raw tool (treq_input r))) eqn:Hrun.
    + apply IH in H as (served & Hc & Hpre & Hkeys & Hall).
      exists ({| tc_tool := act_name tool; tc_request := r |} :: served).
      simpl in *. rewrite Hc, <- app_assoc. split_and!; [done| | |].
      * by apply prefix_cons.
      * intros c [->|Hin]%elem_of_cons; simpl; [by rewrite Hd|by apply Hkeys].
      * intros parts' Hok. by rewrite (Hall _ Hok).
    + inversion H; subst.
      exists [{| tc_tool := act_name tool; tc_request := r |}].
      split_and!; [done| | |done].
      * apply prefix_cons, prefix_nil.
      * intros c ->%list_elem_of_singleton. simpl. by rewrite Hd.
  - inversion H; subst. exists []. rewrite app_nil_r.
    split_and!; [done|apply prefix_nil|by inversion 1|done].
  - inversion H; subst. exists []. rewrite app_nil_r.
    split_and!; [done|apply prefix_nil|by inversion 1|done].
Qed.

Lemma run_tool_requests_fails trs parts w r :
  r ∈ trs -> tool_dict !! treq_name r = None ->
  exists e, (run_tool_requests dump_dict tool_dict trs parts w).1 = Err e.
Proof.
  intros Hin Hnone. revert parts w.
  induction trs as [|r' trs IH]; intros parts w; [by apply elem_of_nil in Hin|].
  simpl. destruct (tool_dict !! treq_name r') as [[tool|]|] eqn:Hd; [|by eexists..].
  unfold bind, modify, lift.
  destruct (of_outcome (act_arun_raw tool (treq_input r'))); [|by eexists].
  apply IH. apply elem_of_cons in Hin as [->|Hin]; [congruence|done].
Qed.
End Tools.

Section ToolFacts.
Variable dump_dict : Json -> Json.

(** C7: when the model's message holds a tool request whose name is not
    among the tools of the request, [resolve_tool_requests] fails; every tool
    it has run by then serves a request whose name is among the tools, so no
    tool is run for that request; and when the requests before it in the
    message are served without error, the failure is the
    [RuntimeError('failed ... not found')] of line 519 for that request,
    raised with exactly those earlier requests served and none after. *)
Theorem C7_unknown_tool_request_fails registry request message names r w :
  opt_tools request = Some names ->
  r ∈ omap root_tool_request (msg_content message) ->
  treq_name r ∉ names ->
  exists e w' served,
    resolve_tool_requests dump_dict registry request message w = (Err e, w') /\
    w_tool_calls w' = w_tool_calls w ++ served /\
    (forall c, c ∈ served ->
       treq_name (tc_request c) ∈ names /\ tc_request c ≠ r) /\
    (forall before after parts w1,
       omap root_tool_request (msg_content message) = before ++ r :: after ->
       run_tool_requests dump_dict (make_tool_dict registry names) before [] w
         = (Ok parts, w1) ->
       e = RuntimeError ("failed " +:+ treq_name r +:+ " not found") /\
       w' = w1 /\ map tc_request served = before).
Proof.
  intros Htools Hin Hname. unfold resolve_tool_requests. rewrite Htools.
  set (tool_dict := make_tool_dict registry names).
  set (trs := omap root_tool_request (msg_content message)) in *.
  assert (Hnone : tool_dict !! treq_name r = None).
  { unfold tool_dict. rewrite make_tool_dict_lookup. by rewrite decide_False. }
  unfold bind.
  destruct (run_tool_requests dump_dict tool_dict trs [] w) as [res w'] eqn:Hrun.
  destruct (run_tool_requests_fails dump_dict tool_dict trs [] w r Hin Hnone)
    as [e He].
  rewrite Hrun in He. simpl in He. subst res.
  destruct (run_tool_requests_calls _ _ _ _ _ _ _ Hrun)
    as (served & Hcalls & Hprefix & Hkeys & _).
  exists e, w', served. split_and!; [done|done| |].
  - intros c Hc. specialize (Hkeys c Hc).
    unfold tool_dict in Hkeys. rewrite make_tool_dict_lookup in Hkeys.
    case_decide as Hmem; [|by destruct Hkeys].
    split; [done|]. intros Heq. by rewrite Heq in Hmem.
  - intros before after parts w1 Hsplit Hbefore.
    fold trs in Hsplit. rewrite Hsplit in Hrun.
    rewrite run_tool_requests_app, Hbefore in Hrun.
    rewrite run_tool_requests_unknown in Hrun by done.
    inversion Hrun; subst e w1. split_and!; [done|done|].
    destruct (run_tool_requests_calls _ _ _ _ _ _ _ Hbefore)
      as (served' & Hcalls' & _ & _ & Hall).
    rewrite Hcalls' in Hcalls. apply app_inv_head in Hcalls as <-.
    by apply (Hall parts).
Qed.
End ToolFacts.


(** C2 (first half, in general): a registered name with a path separator is
    exposed by its final segment, and the full name is kept under
    [originalName]. The second half fails on the code: the tool-response path
    keys its dictionary by the registered names of [request.tools], so the
    exposed short name is not found. Run on the tool registered as
    [mathPlugin/add]: the lookup of the registered name gives the tool, the
    model is told [add], and a tool request for [add] raises
    [RuntimeError('failed add not found')] without running any tool. *)
Theorem C2_short_name_is_not_resolved_back :
  td_name (to_tool_definition Scenario.add_tool) = "add" /\
  td_metadata (to_tool_definition Scenario.add_tool)
    = Some {[ "originalName" := "mathPlugin/add" ]} /\
  resolve_tool
    (Scenario.registry_of Scenario.insisting_model [Scenario.add_tool] [])
    "mathPlugin/add" = Some Scenario.add_tool /\
  resolve_tool_requests Scenario.same_json
    (Scenario.registry_of Scenario.insisting_model [Scenario.add_tool] [])
    (Scenario.request_with (Some ["mathPlugin/add"]) None None)
    (Scenario.calling ["add"]) (initial_world [])
  = (Err (RuntimeError "failed add not found"), initial_world []).
Proof. split_and!; vm_compute; reflexivity. Qed.

(** ** The format applier: [apply_format] *)

Section FormatFacts.
Variable inject_instructions : list Message -> option string -> list Message.

(** C4, as the code has it: with a Format present, an explicit
    [output.constrained] of the request (also an explicit [false]) wins over
    the Format's directive, which applies when the request leaves it unset;
    for the content type and the wire-format hint it is the other way round:
    the Format's directive, when set, replaces the request's value, which is
    kept only when the Format sets none. *)
Theorem C4_format_precedence raw_request format_def o :
  opt_output raw_request = Some o ->
  exists out_request o',
    apply_format inject_instructions raw_request (Some format_def)
      = Ok (out_request, Some (fd_call format_def (out_json_schema o))) /\
    opt_output out_request = Some o' /\
    (forall c, out_constrained o = Some c -> out_constrained o' = Some c) /\
    (out_constrained o = None ->
       out_constrained o' = cfg_constrained (fd_config format_def)) /\
    (forall t, cfg_content_type (fd_config format_def) = Some t ->
       out_content_type o' = Some t) /\
    (cfg_content_type (fd_config format_def) = None ->
       out_content_type o' = out_content_type o) /\
    (forall f, cfg_format (fd_config format_def) = Some f ->
       out_format o' = Some f) /\
    (cfg_format (fd_config format_def) = None -> out_format o' = out_format o).
Proof.
  intros Ho. unfold apply_format. rewrite Ho. simpl.
  eexists _, _. split; [reflexivity|]. split; [reflexivity|]. simpl.
  split_and!.
  - by intros c ->.
  - intros ->. by destruct (cfg_constrained _).
  - by intros t ->.
  - by intros ->.
  - by intros f ->.
  - by intros ->.
Qed.

End FormatFacts.

(** C4 at a concrete request: the request sets [constrained = false] and the
    content type [text/plain] and names the format [jsonl]; the Format says
    [constrained = true], [application/jsonl] and the hint [json]. *)
Lemma C4_format_precedence_witness :
  exists out_request o',
    apply_format Scenario.keep_messages
      (with_output (Scenario.request_with None None None)
         (Some Scenario.plain_text_output))
      (Some Scenario.jsonl_format)
    = Ok (out_request, Some (fd_call Scenario.jsonl_format None)) /\
    opt_output out_request = Some o' /\
    out_constrained o' = Some false /\
    out_content_type o' = Some "application/jsonl" /\
    out_format o' = Some "json".
Proof.
  destruct (C4_format_precedence Scenario.keep_messages
              (with_output (Scenario.request_with None None None)
                 (Some Scenario.plain_text_output))
              Scenario.jsonl_format Scenario.plain_text_output eq_refl)
    as (out_request & o' & Happly & Hout & Hc & _ & Ht & _ & Hf & _).
  exists out_request, o'. split; [exact Happly|]. split; [exact Hout|].
  split; [exact (Hc false eq_refl)|].
  split; [exact (Ht "application/jsonl" eq_refl)|exact (Hf "json" eq_refl)].
Defined.

(** C4 as stated fails for the content type and the wire-format hint: the
    request's explicit [text/plain] and [jsonl] are replaced by the Format's
    [application/jsonl] and [json]. *)
Lemma C4_request_content_type_is_overridden :
  match
    apply_format Scenario.keep_messages
      (with_output (Scenario.request_with None None None)
         (Some Scenario.plain_text_output))
      (Some Scenario.jsonl_format)
  with
  | Ok (out_request, _) =>
      (opt_output out_request ≫= out_content_type) = Some "application/jsonl" /\
      (opt_output out_request ≫= out_content_type)
        ≠ out_content_type Scenario.plain_text_output /\
      (opt_output out_request ≫= out_format) = Some "json" /\
      (opt_output out_request ≫= out_format)
        ≠ out_format Scenario.plain_text_output
  | Err _ => False
  end.
Proof. vm_compute. split_and!; [reflexivity|discriminate|reflexivity|discriminate]. Qed.

(** ** The middleware chain: [dispatch] *)

Lemma same_lists_refl w : same_lists w w.
Proof. done. Qed.

Lemma same_lists_trans w1 w2 w3 :
  same_lists w1 w2 -> same_lists w2 w3 -> same_lists w1 w3.
Proof. intros (?&?&?) (?&?&?). split_and!; congruence. Qed.

Lemma wrap_all_app formatter mi seen cs1 cs2 :
  wrap_all formatter mi seen (cs1 ++ cs2)
  = wrap_all formatter mi seen cs1 ++ wrap_all formatter mi (seen ++ cs1) cs2.
Proof.
  revert seen. induction cs1 as [|c cs1 IH]; intros seen; simpl.
  - by rewrite app_nil_r.
  - by rewrite IH, <- app_assoc.
Qed.

Lemma wrap_all_lookup formatter mi seen cs i c :
  wrap_all formatter mi seen cs !! i = Some c ->
  cw_index c = mi /\ cw_chunk_parser c = formatter /\
  cs !! i = Some (cw_chunk c) /\
  cw_previous_chunks c = seen ++ take i cs.
Proof.
  revert seen i. induction cs as [|c' cs IH]; intros seen i H; [done|].
  destruct i as [|i]; simpl in H.
  - inversion H; subst; simpl. by rewrite app_nil_r.
  - apply IH in H as (? & ? & ? & ->). by rewrite <- app_assoc.
Qed.

Lemma wrap_all_chunks formatter mi seen cs :
  cw_chunk <$> wrap_all formatter mi seen cs = cs.
Proof. revert seen. induction cs as [|c cs IH]; intros seen; simpl; by rewrite ?IH. Qed.

Section Dispatch.
Variable model : Action.
Variable on_chunk : bool.
Variable formatter : option Formatter.

Lemma wrap_chunks_model_calls chunk w :
  w_model_calls (wrap_chunks on_chunk formatter chunk w).2 = w_model_calls w.
Proof.
  unfold wrap_chunks, bind, make_chunk, call_on_chunk. simpl.
  by destruct on_chunk.
Qed.

Lemma for_each_wrap_chunks_model_calls chunks w :
  w_model_calls (for_each (wrap_chunks on_chunk formatter) chunks w).2
    = w_model_calls w.
Proof.
  revert w. induction chunks as [|c chunks IH]; intros w; [done|].
  cbn [for_each]. unfold bind.
  pose proof (wrap_chunks_model_calls c w) as Hm.
  destruct (wrap_chunks on_chunk formatter c w) as [[[]|e] w1]; [|done].
  rewrite IH. exact Hm.
Qed.

Lemma call_model_calls req ctx w :
  w_model_calls (call_model model on_chunk formatter req ctx w).2
  = w_model_calls w ++
    [{| mc_model := act_name model; mc_input := req;
        mc_context := arc_context ctx;
        mc_streams := bool_decide (is_Some (arc_on_chunk ctx)) |}].
Proof.
  unfold call_model, bind, gets, modify, lift, ret. simpl.
  destruct (arc_on_chunk ctx) as [[]|]; simpl; try done.
  match goal with |- context [for_each ?f ?l ?w0] =>
    pose proof (for_each_wrap_chunks_model_calls l w0) as Hm;
    destruct (for_each f l w0) as [[[]|e] w1] end; simpl in *; by rewrite Hm.
Qed.

(** A property of worlds that every call of the model keeps is kept by a
    middleware, whatever it does. *)
Lemma run_middleware_keeps (P : World -> Prop) next req ctx t w :
  (forall req ctx w, P w -> P (next req ctx w).2) ->
  P w -> P (run_middleware next req ctx t w).2.
Proof.
  intros Hnext. revert w. induction t as [r|mreq mctx k IH]; intros w Hw; [done|].
  simpl. specialize (Hnext (default req mreq) (default ctx mctx) w Hw).
  destruct (next (default req mreq) (default ctx mctx) w) as [r w1].
  by apply IH.
Qed.

Lemma dispatch_from_keeps (P : World -> Prop) chain req ctx w :
  (forall req ctx w,
     P w -> P (call_model model on_chunk formatter req ctx w).2) ->
  P w -> P (dispatch_from model on_chunk formatter chain req ctx w).2.
Proof.
  intros Hmodel. revert req ctx w.
  induction chain as [|m chain IH]; intros req ctx w Hw.
  - by apply Hmodel.
  - simpl. apply run_middleware_keeps; [|done]. intros. by apply IH.
Qed.

Lemma call_model_same_lists w0 req ctx w :
  same_lists w0 w ->
  same_lists w0 (call_model model on_chunk formatter req ctx w).2.
Proof.
  intros H. eapply same_lists_trans; [exact H|].
  unfold call_model, bind, gets, modify, lift, ret. simpl.
  assert (Hf : forall chunks w,
    same_lists w (for_each (wrap_chunks on_chunk formatter) chunks w).2).
  { clear. intros chunks. induction chunks as [|c chunks IH]; intros w; [done|].
    cbn [for_each]. unfold bind.
    assert (same_lists w (wrap_chunks on_chunk formatter c w).2) as Hc.
    { unfold wrap_chunks, bind, make_chunk, call_on_chunk. simpl.
      by destruct on_chunk. }
    destruct (wrap_chunks on_chunk formatter c w) as [[[]|e] w1]; [|done].
    eapply same_lists_trans; [exact Hc|apply IH]. }
  destruct (arc_on_chunk ctx) as [[]|]; simpl; try done.
  match goal with |- context [for_each ?f ?l ?w0] =>
    pose proof (Hf l w0) as Hs;
    destruct (for_each f l w0) as [[[]|e] w1] end; simpl in *; exact Hs.
Qed.

(** Whatever the middleware do, the chain leaves the list objects, the
    record of dispatches and the record of tool calls alone. *)
Lemma dispatch_from_same_lists chain req ctx w :
  same_lists w (dispatch_from model on_chunk formatter chain req ctx w).2.
Proof.
  apply (dispatch_from_keeps (same_lists w)); [|done].
  intros. by apply call_model_same_lists.
Qed.

(** A chain of transparent middleware amounts to one call of the model. *)
Lemma dispatch_from_transparent chain req ctx w :
  Forall transparent chain ->
  exists req' ctx',
    arc_on_chunk ctx' = arc_on_chunk ctx /\
    dispatch_from model on_chunk formatter chain req ctx w
    = call_model model on_chunk formatter req' ctx' w.
Proof.
  intros Hall. revert req ctx. induction Hall as [|m chain Hm _ IH]; intros req ctx.
  - by exists req, ctx.
  - simpl. destruct (Hm req ctx) as (mreq & mctx & -> & Hsame). simpl.
    destruct (IH (default req mreq) (default ctx mctx))
      as (req' & ctx' & Hsame' & ->).
    exists req', ctx'. split; [congruence|].
    by destruct (call_model _ _ _ _ _ _).
Qed.

Hypothesis streams : on_chunk = true.

Lemma wrap_chunks_streaming mi emitted0 chunk w :
  streaming formatter mi emitted0 w ->
  (wrap_chunks on_chunk formatter chunk w).1 = Ok tt /\
  streaming formatter mi emitted0 (wrap_chunks on_chunk formatter chunk w).2.
Proof.
  intros (Hrole & Hmi & Hem).
  unfold wrap_chunks, bind, make_chunk, make_chunk_frame, call_on_chunk.
  rewrite streams. simpl. rewrite Hrole. simpl.
  split; [done|]. unfold streaming. simpl. split_and!; [done|done|].
  rewrite Hem, wrap_all_app, <- app_assoc. simpl. by rewrite Hmi.
Qed.

Lemma for_each_wrap_chunks_streaming mi emitted0 chunks w :
  streaming formatter mi emitted0 w ->
  (for_each (wrap_chunks on_chunk formatter) chunks w).1 = Ok tt /\
  streaming formatter mi emitted0 (for_each (wrap_chunks on_chunk formatter) chunks w).2.
Proof.
  revert w. induction chunks as [|c chunks IH]; intros w Hw; [done|].
  cbn [for_each]. unfold bind.
  destruct (wrap_chunks_streaming mi emitted0 c w Hw) as [Hok Hw1].
  destruct (wrap_chunks on_chunk formatter c w) as [[[]|e] w1]; [|done].
  by apply IH.
Qed.

Lemma call_model_streaming mi emitted0 req ctx w :
  streaming formatter mi emitted0 w ->
  streaming formatter mi emitted0 (call_model model on_chunk formatter req ctx w).2.
Proof.
  intros Hw. unfold call_model, bind, gets, modify, lift, ret. simpl.
  destruct (arc_on_chunk ctx) as [[]|]; simpl; try done.
  match goal with |- context [for_each ?f ?l ?w0] =>
    destruct (for_each_wrap_chunks_streaming mi emitted0 l w0) as [Hok Hs];
    [done|]; destruct (for_each f l w0) as [[[]|e] w1] end; simpl in *; done.
Qed.

Lemma dispatch_from_streaming mi emitted0 chain req ctx w :
  streaming formatter mi emitted0 w ->
  streaming formatter mi emitted0
    (dispatch_from model on_chunk formatter chain req ctx w).2.
Proof.
  apply (dispatch_from_keeps (streaming formatter mi emitted0)).
  intros. by apply call_model_streaming.
Qed.
End Dispatch.

(** With the callback that [generate_action] installs, streaming the chunks
    never fails, so the call ends as the backend ends. *)
Lemma for_each_wrap_chunks_ok formatter chunks w :
  (for_each (wrap_chunks true formatter) chunks w).1 = Ok tt.
Proof.
  revert w. induction chunks as [|c chunks IH]; intros w; [done|].
  cbn [for_each]. unfold bind.
  destruct (wrap_chunks true formatter c w) as [[[]|e] w1] eqn:Hc; [apply IH|].
  revert Hc. unfold wrap_chunks, bind, make_chunk, call_on_chunk. simpl. done.
Qed.

Lemma call_model_result model (on_chunk : bool) formatter req ctx w :
  arc_on_chunk ctx = (if on_chunk then Some WrapChunks else None) ->
  (call_model model on_chunk formatter req ctx w).1
  = of_outcome
      (reply_response
         (act_arun model (length (w_model_calls w)) req (arc_context ctx))).
Proof.
  intros Hctx. unfold call_model, bind, gets, modify, lift, ret. simpl.
  rewrite Hctx. destruct on_chunk; [|done].
  match goal with |- context [for_each _ ?l ?w0] =>
    pose proof (for_each_wrap_chunks_ok formatter l w0) as Hok;
    destruct (for_each (wrap_chunks true formatter) l w0) as [[[]|e] w1]
  end; simpl in *; done.
Qed.

(** ** One turn of [generate_action] *)

Lemma deref_insert st r l :
  (r < length st)%nat -> deref (<[r := l]> st) r = l.
Proof. intros H. unfold deref. by rewrite list_lookup_insert_eq. Qed.

Lemma deref_new st l : deref (st ++ [l]) (length st) = l.
Proof.
  unfold deref. rewrite lookup_app_r by lia. by rewrite Nat.sub_diag.
Qed.

Lemma deref_cons_lt st r m ms : deref st r = m :: ms -> (r < length st)%nat.
Proof.
  unfold deref. destruct (st !! r) eqn:H; [|done].
  intros _. by eapply lookup_lt_Some.
Qed.

Lemma with_messages_keeps r ms :
  opt_max_turns (with_messages r ms) = opt_max_turns r /\
  opt_docs (with_messages r ms) = opt_docs r /\
  opt_model (with_messages r ms) = opt_model r.
Proof. done. Qed.

(** The model that [resolve_parameters] gives depends on the request through
    its [model] field only. *)
Lemma resolve_parameters_model registry r1 r2 m1 t1 f1 m2 t2 f2 :
  opt_model r2 = opt_model r1 ->
  resolve_parameters registry r1 = Ok (m1, t1, f1) ->
  resolve_parameters registry r2 = Ok (m2, t2, f2) ->
  m2 = m1.
Proof.
  unfold resolve_parameters. intros ->.
  destruct (match opt_model r1 with Some m => Some m | None => default_model registry end)
    as [[|a name]|]; [done| |done].
  destruct (lookup_action registry MODEL (String a name)) as [model|]; [|done].
  intros H1 H2.
  repeat match goal with
  | H : context [match ?x with _ => _ end] |- _ => destruct x; try done
  end; congruence.
Qed.

Section TurnFacts.
Variable inject_instructions : list Message -> option string -> list Message.
Variable augment_with_context : ModelMiddleware.
Variable assert_valid : GenerateResponseWrapper -> Outcome unit.
Variable assert_valid_schema : GenerateResponseWrapper -> Outcome unit.
Variable dump_dict : Json -> Json.

Lemma apply_format_keeps raw_request format_def raw_request' formatter :
  apply_format inject_instructions raw_request format_def
    = Ok (raw_request', formatter) ->
  opt_max_turns raw_request' = opt_max_turns raw_request /\
  opt_docs raw_request' = opt_docs raw_request /\
  opt_model raw_request' = opt_model raw_request /\
  opt_tools raw_request' = opt_tools raw_request /\
  opt_return_tool_requests raw_request' = opt_return_tool_requests raw_request.
Proof.
  unfold apply_format. intros H.
  destruct format_def as [fd|]; [|by inversion H].
  destruct (opt_output raw_request); [|done]. by inversion H.
Qed.

Lemma resolve_tool_requests_keeps registry request message w :
  let w' := (resolve_tool_requests dump_dict registry request message w).2 in
  w_model_calls w' = w_model_calls w /\ w_emitted w' = w_emitted w /\
  w_dispatched w' = w_dispatched w /\ w_store w' = w_store w /\
  w_frame w' = w_frame w.
Proof.
  unfold resolve_tool_requests. destruct (opt_tools request) as [names|]; [|done].
  unfold bind.
  match goal with |- context [run_tool_requests ?d ?t ?l ?p ?w0] =>
    pose proof (run_tool_requests_frame d t l p w0) as Hf;
    destruct (run_tool_requests d t l p w0) as [[parts|e] w1] end; exact Hf.
Qed.

Lemma resolve_tool_requests_result registry request message w res w' :
  resolve_tool_requests dump_dict registry request message w = (res, w') ->
  match res with
  | Ok (revised, tool_msg, preamble) =>
      revised = None /\ preamble = None /\ msg_role tool_msg = RoleTool
  | Err (GenerationResponseError _ _ _ _) => False
  | Err _ => True
  end.
Proof.
  unfold resolve_tool_requests. destruct (opt_tools request) as [names|].
  2: { intros H. by inversion H. }
  unfold bind.
  generalize (omap root_tool_request (msg_content message)).
  generalize (make_tool_dict registry names). intros d trs.
  generalize (@nil Part). revert w.
  induction trs as [|r trs IH]; intros w parts H; simpl in H.
  - by inversion H.
  - destruct (d !! treq_name r) as [[tool|]|]; [|by inversion H..].
    unfold bind, modify, lift in H.
    destruct (act_arun_raw tool (treq_input r)); simpl in H.
    + by apply IH in H.
    + by inversion H.
Qed.

Local Abbreviation end_turn' :=
  (end_turn assert_valid assert_valid_schema dump_dict).

(** [end_turn] leaves the list objects and the records of dispatches and of
    model calls alone. *)
Lemma end_turn_keeps registry raw_request formatter request on_chunk
    current_turn model_response w :
  let w' := (end_turn' registry raw_request formatter request on_chunk
               current_turn model_response w).2 in
  w_store w' = w_store w /\ w_dispatched w' = w_dispatched w /\
  w_model_calls w' = w_model_calls w.
Proof.
  unfold end_turn, bind, lift, ret, raise, gets.
  destruct (assert_valid _); simpl; [|done].
  destruct (_ || _).
  { destruct (_ =? _)%nat; simpl; [|done]. by destruct (assert_valid_schema _). }
  destruct (_ >? _); [done|].
  match goal with |- context [resolve_tool_requests ?d ?r ?q ?m ?w0] =>
    pose proof (resolve_tool_requests_keeps r q m w0) as Hk;
    destruct (resolve_tool_requests d r q m w0) as [[[[revised tool_msg] pre]|e] w1]
  end; simpl in *; destruct Hk as (Hm & _ & Hd & Hs & _); [|done].
  destruct revised; [done|].
  destruct on_chunk; simpl; done.
Qed.

(** How [end_turn] can end. *)
Lemma end_turn_result registry raw_request formatter request on_chunk
    current_turn model_response w out w' :
  end_turn' registry raw_request formatter request on_chunk current_turn
    model_response w = (out, w') ->
  match out with
  | Ok (Return response) =>
      response = wrap_response model_response request formatter
  | Ok (Recurse next_request message_index' current_turn') =>
      current_turn' = current_turn + 1 /\
      current_turn + 1 <= effective_max_turns raw_request /\
      message_index' = message_index (w_frame w') + 1 /\
      exists tool_msg,
        msg_role tool_msg = RoleTool /\
        next_request = with_messages raw_request
          (opt_messages raw_request ++ [resp_message model_response; tool_msg])
  | Err (GenerationResponseError response _ status details_request) =>
      status = "ABORTED" /\ effective_max_turns raw_request < current_turn + 1 /\
      response = wrap_response model_response request formatter /\
      details_request = request /\ w' = w
  | Err _ => True
  end.
Proof.
  unfold end_turn, bind, lift, ret, raise, gets.
  destruct (assert_valid _); simpl; [|intros H; by inversion H].
  destruct (_ || _).
  { destruct (_ =? _)%nat; simpl; [|intros H; by inversion H].
    destruct (assert_valid_schema _); intros H; by inversion H. }
  fold (effective_max_turns raw_request).
  destruct (_ >? _) eqn:Hcmp.
  { intros H; inversion H; subst. split_and!; try done. lia. }
  match goal with |- context [resolve_tool_requests ?d ?r ?q ?m ?w0] =>
    pose proof (resolve_tool_requests_result r q m w0) as Hr;
    destruct (resolve_tool_requests d r q m w0) as [[[[revised tool_msg] pre]|e] w1]
  end.
  2: { intros H; inversion H; subst. specialize (Hr _ _ eq_refl).
       by destruct e. }
  destruct (Hr _ _ eq_refl) as (-> & -> & Hrole).
  assert (current_turn + 1 <= effective_max_turns raw_request) by lia.
  destruct on_chunk; simpl; intros Heq; inversion Heq; subst; simpl;
    (split_and!; [done|done|done|by exists tool_msg]).
Qed.

Local Abbreviation begin_turn' := (begin_turn augment_with_context).
Local Abbreviation generate_action_turn' :=
  (generate_action_turn inject_instructions augment_with_context assert_valid
     assert_valid_schema dump_dict).
Local Abbreviation generate_action' :=
  (generate_action inject_instructions augment_with_context assert_valid
     assert_valid_schema dump_dict).
Local Abbreviation Run' :=
  (Run inject_instructions augment_with_context assert_valid
     assert_valid_schema dump_dict).

(** [begin_turn] never fails. It starts the turn with an empty chunk history,
    the role [model] and the message index it is given; the list it gives is
    the caller's followed by the context middleware when line 153 asks for
    it; and that list is the caller's own object exactly when the caller gave
    a list that is not empty. *)
Lemma begin_turn_spec model raw_request mi middleware w :
  exists r w0,
    begin_turn' model raw_request mi middleware w = (Ok r, w0) /\
    w_frame w0 = {| prev_chunks := []; chunk_role := RoleModel;
                    message_index := mi |} /\
    w_model_calls w0 = w_model_calls w /\ w_tool_calls w0 = w_tool_calls w /\
    w_emitted w0 = w_emitted w /\ w_dispatched w0 = w_dispatched w /\
    deref (w_store w0) r
      = caller_chain (w_store w) middleware
        ++ (if injects_context model raw_request
            then [augment_with_context] else []) /\
    ((exists r0, middleware = Some r0 /\ r = r0 /\
        caller_chain (w_store w) middleware <> [] /\
        w_store w0 = if injects_context model raw_request
                     then <[r0 := deref (w_store w) r0 ++ [augment_with_context]]>
                            (w_store w)
                     else w_store w)
     \/ (caller_chain (w_store w) middleware = [] /\
         r = length (w_store w) /\
         w_store w0 = w_store w ++ [if injects_context model raw_request
                                    then [augment_with_context] else []])).
Proof.
  unfold begin_turn, bind, modify, middleware_or_new, list_append, ret.
  fold (injects_context model raw_request).
  assert (Hnew : forall l : list ModelMiddleware,
            <[length (w_store w) := deref (w_store w ++ [[]]) (length (w_store w)) ++ l]>
              (w_store w ++ [[]]) = w_store w ++ [l]).
  { intros l. rewrite deref_new. simpl.
    rewrite insert_app_r_alt by lia. by rewrite Nat.sub_diag. }
  destruct middleware as [r0|]; simpl.
  - destruct (deref (w_store w) r0) as [|m ms] eqn:Hd; simpl.
    + destruct (injects_context model raw_request); simpl;
        eexists _, _; (split; [reflexivity|]); simpl; rewrite ?Hnew, ?deref_new;
        (split_and!; try done); right; done.
    + pose proof (deref_cons_lt _ _ _ _ Hd) as Hlt.
      destruct (injects_context model raw_request); simpl;
        eexists _, _; (split; [reflexivity|]); simpl;
        rewrite ?deref_insert by done; rewrite ?Hd;
        (split_and!; try done); try (by rewrite app_nil_r);
        left; exists r0; by rewrite ?Hd.
  - destruct (injects_context model raw_request); simpl;
      eexists _, _; (split; [reflexivity|]); simpl; rewrite ?Hnew, ?deref_new;
      (split_and!; try done); right; done.
Qed.

(** One turn, taken apart: either the set-up fails before anything is
    touched, or the turn begins, dispatches once and ends. *)
Lemma generate_action_turn_inv registry raw_request on_chunk mi current_turn
    middleware context w out w' :
  generate_action_turn' registry raw_request on_chunk mi current_turn
    middleware context w = (out, w') ->
  (exists e, out = Err e /\ w' = w /\
     (resolve_parameters registry raw_request = Err e \/
      exists model tools format_def,
        resolve_parameters registry raw_request = Ok (model, tools, format_def) /\
        apply_format inject_instructions raw_request format_def = Err e))
  \/
  (exists model tools format_def raw_request' formatter r w0 res w2,
     resolve_parameters registry raw_request = Ok (model, tools, format_def) /\
     apply_format inject_instructions raw_request format_def
       = Ok (raw_request', formatter) /\
     begin_turn' model raw_request' mi middleware w = (Ok r, w0) /\
     dispatch_from model on_chunk formatter (deref (w_store w0) r)
       (action_to_generate_request raw_request' tools model)
       {| arc_on_chunk := if on_chunk then Some WrapChunks else None;
          arc_context := context |}
       (log_dispatch
          {| dp_middleware := deref (w_store w0) r;
             dp_request := action_to_generate_request raw_request' tools model;
             dp_context := context |} w0)
     = (res, w2) /\
     match res with
     | Err e => out = Err e /\ w' = w2
     | Ok model_response =>
         end_turn' registry raw_request' formatter
           (action_to_generate_request raw_request' tools model)
           on_chunk current_turn model_response w2 = (out, w')
     end).
Proof.
  unfold generate_action_turn. unfold bind at 1. unfold lift at 1.
  destruct (resolve_parameters registry raw_request)
    as [[[model tools] format_def]|e] eqn:Hres.
  2: { intros H. inversion H; subst. left. exists e. by split_and!; [| |left]. }
  unfold bind at 1. unfold lift at 1.
  destruct (apply_format inject_instructions raw_request format_def)
    as [[raw_request' formatter]|e] eqn:Hfmt.
  2: { intros H. inversion H; subst. left. exists e.
       split_and!; [done|done|]. right. by exists model, tools, format_def. }
  intros H. right.
  destruct (begin_turn_spec model raw_request' mi middleware w)
    as (r & w0 & Hbegin & _).
  unfold bind at 1 in H. rewrite Hbegin in H.
  unfold bind at 1, gets at 1 in H. unfold bind at 1, modify at 1 in H.
  unfold bind at 1 in H. unfold dispatch in H. simpl drop in H.
  match type of H with context [dispatch_from ?m ?o ?f ?c ?rq ?cx ?w1] =>
    destruct (dispatch_from m o f c rq cx w1) as [res w2] eqn:Hd end.
  exists model, tools, format_def, raw_request', formatter, r, w0, res, w2.
  split_and!; [done|done|done|done|].
  destruct res as [model_response|e]; [done|]. by inversion H.
Qed.


(** What the recursive call is given. *)
Lemma generate_action_turn_recurse registry raw_request on_chunk mi current_turn
    middleware context w next_request mi' current_turn' w' :
  generate_action_turn' registry raw_request on_chunk mi current_turn
    middleware context w = (Ok (Recurse next_request mi' current_turn'), w') ->
  current_turn' = current_turn + 1 /\
  current_turn + 1 <= effective_max_turns raw_request /\
  opt_max_turns next_request = opt_max_turns raw_request /\
  opt_docs next_request = opt_docs raw_request /\
  opt_model next_request = opt_model raw_request.
Proof.
  intros H. apply generate_action_turn_inv in H as [(e & ? & _)|H]; [done|].
  destruct H as (model & tools & fd & raw1 & fmt & r & w0 & res & w2
                 & Hres & Hfmt & Hbegin & Hdisp & Hend).
  destruct res as [model_response|e]; [|by destruct Hend].
  apply end_turn_result in Hend as (-> & Hle & _ & tool_msg & _ & ->).
  apply apply_format_keeps in Hfmt as (Hmax & Hdocs & Hmodel & _).
  unfold effective_max_turns in *. rewrite Hmax in Hle.
  split_and!; simpl; try done.
Qed.

Lemma generate_action_Run fuel registry raw_request on_chunk mi ct mw ctx w
    res w' :
  generate_action' fuel registry raw_request on_chunk mi ct mw ctx w
    = Some (res, w') ->
  Run' registry on_chunk raw_request mi ct mw ctx w res w'.
Proof.
  revert raw_request mi ct mw ctx w.
  induction fuel as [|fuel IH]; intros raw_request mi ct mw ctx w H; [done|].
  simpl in H.
  destruct (generate_action_turn' registry raw_request on_chunk mi ct mw ctx w)
    as [[[response|next mi' ct']|e] w1] eqn:Hturn.
  - inversion H; subst. by apply Run_return.
  - eapply Run_recurse; [exact Hturn|]. by apply IH.
  - inversion H; subst. by apply Run_raise.
Qed.

(** [generate_action] returns or raises: the recursion is at most
    [max_turns - current_turn] deep. *)
Lemma generate_action_terminates fuel registry raw_request on_chunk mi ct mw
    ctx w :
  (Z.to_nat (effective_max_turns raw_request - ct) < fuel)%nat ->
  exists res w',
    generate_action' fuel registry raw_request on_chunk mi ct mw ctx w
      = Some (res, w').
Proof.
  revert raw_request mi ct mw ctx w.
  induction fuel as [|fuel IH]; intros raw_request mi ct mw ctx w Hfuel; [lia|].
  simpl.
  destruct (generate_action_turn' registry raw_request on_chunk mi ct mw ctx w)
    as [[[response|next mi' ct']|e] w1] eqn:Hturn; [by eexists _, _| |by eexists _, _].
  apply generate_action_turn_recurse in Hturn as (-> & Hle & Hmax & _).
  apply IH. unfold effective_max_turns in *. rewrite Hmax. lia.
Qed.

End TurnFacts.

(** ** The turn bound *)

Ltac not_abort := intros [= <-]; simpl; intros [].

Lemma resolve_tools_not_abort registry names tools e :
  resolve_tools registry names tools = Err e -> ~ is_abort e.
Proof.
  revert tools. induction names as [|n names IH]; intros tools; simpl; [done|].
  destruct (lookup_action registry TOOL n); [apply IH|].
  not_abort.
Qed.

Lemma resolve_parameters_not_abort registry request e :
  resolve_parameters registry request = Err e -> ~ is_abort e.
Proof.
  unfold resolve_parameters.
  destruct (match opt_model request with Some m => Some m | None => default_model registry end)
    as [[|a name]|]; try not_abort.
  destruct (lookup_action registry MODEL (String a name)); [|not_abort].
  destruct (truthy_list (opt_tools request)).
  - destruct (resolve_tools registry _ []) eqn:Ht.
    + destruct (opt_output request) as [o|]; [|done].
      destruct (truthy_str (out_format o)); [|done].
      destruct (lookup_value registry _ _); [done|]. not_abort.
    + intros [= <-]. by eapply resolve_tools_not_abort.
  - destruct (opt_output request) as [o|]; [|done].
    destruct (truthy_str (out_format o)); [|done].
    destruct (lookup_value registry _ _); [done|]. not_abort.
Qed.

Lemma apply_format_not_abort inject raw_request format_def e :
  apply_format inject raw_request format_def = Err e -> ~ is_abort e.
Proof.
  unfold apply_format. destruct format_def; [|done].
  destruct (opt_output raw_request); [done|]. not_abort.
Qed.

Lemma for_each_wrap_chunks_not_abort on_chunk formatter chunks w e :
  (for_each (wrap_chunks on_chunk formatter) chunks w).1 = Err e -> ~ is_abort e.
Proof.
  revert w. induction chunks as [|c chunks IH]; intros w; [done|].
  cbn [for_each]. unfold bind.
  destruct (wrap_chunks on_chunk formatter c w) as [[[]|e'] w1] eqn:Hc.
  - apply IH.
  - simpl. intros [= ->]. revert Hc.
    unfold wrap_chunks, bind, make_chunk, call_on_chunk. simpl.
    destruct on_chunk; simpl; not_abort.
Qed.

Lemma call_model_not_abort model on_chunk formatter req ctx w e :
  (call_model model on_chunk formatter req ctx w).1 = Err e -> ~ is_abort e.
Proof.
  unfold call_model, bind, gets, modify, lift, ret. simpl.
  assert (Hout : forall o : Outcome GenerateResponse,
            of_outcome o = Err e -> ~ is_abort e).
  { intros [a|origin]; simpl; [done|not_abort]. }
  destruct (arc_on_chunk ctx) as [[]|]; simpl; try apply Hout.
  match goal with |- context [for_each ?f ?l ?w0] =>
    pose proof (for_each_wrap_chunks_not_abort on_chunk formatter l w0) as Hf;
    destruct (for_each f l w0) as [[[]|e'] w1] end; simpl in *.
  - apply Hout.
  - intros [= ->]. by apply Hf.
Qed.

Section RunFacts.
Variable inject_instructions : list Message -> option string -> list Message.
Variable augment_with_context : ModelMiddleware.
Variable assert_valid : GenerateResponseWrapper -> Outcome unit.
Variable assert_valid_schema : GenerateResponseWrapper -> Outcome unit.
Variable dump_dict : Json -> Json.

Local Abbreviation generate_action_turn' :=
  (generate_action_turn inject_instructions augment_with_context assert_valid
     assert_valid_schema dump_dict).
Local Abbreviation generate_action' :=
  (generate_action inject_instructions augment_with_context assert_valid
     assert_valid_schema dump_dict).
Local Abbreviation Run' :=
  (Run inject_instructions augment_with_context assert_valid
     assert_valid_schema dump_dict).

(** One turn calls the model once when the middleware are transparent, and
    not at all when the set-up fails; the only error of line 231 it can end
    in is the one raised when [current_turn + 1] exceeds the bound. *)
Lemma generate_action_turn_calls registry raw_request on_chunk mi ct mw ctx w
    out w' :
  generate_action_turn' registry raw_request on_chunk mi ct mw ctx w
    = (out, w') ->
  transparent augment_with_context ->
  Forall transparent (caller_chain (w_store w) mw) ->
  (w_model_calls w' = w_model_calls w /\ exists e, out = Err e /\ ~ is_abort e)
  \/
  (exists c, w_model_calls w' = w_model_calls w ++ [c] /\
     forall e, out = Err e -> is_abort e ->
       effective_max_turns raw_request < ct + 1 /\
       exists r m q, e = GenerationResponseError r m "ABORTED" q).
Proof.
  intros H Haug Hcaller.
  apply generate_action_turn_inv in H as [(e & -> & -> & Hwhy)|H].
  { left. split; [done|]. exists e. split; [done|].
    destruct Hwhy as [Hres|(model & tools & fd & Hres & Hfmt)].
    - by eapply resolve_parameters_not_abort.
    - by eapply apply_format_not_abort. }
  destruct H as (model & tools & fd & raw1 & fmt & r & w0 & res & w2
                 & Hres & Hfmt & Hbegin & Hdisp & Hend).
  right.
  destruct (begin_turn_spec augment_with_context model raw1 mi mw w)
    as (r' & w0' & Hbegin' & _ & Hcalls0 & _ & _ & _ & Hchain & _).
  rewrite Hbegin in Hbegin'. inversion Hbegin'; subst r' w0'. clear Hbegin'.
  assert (Hall : Forall transparent (deref (w_store w0) r)).
  { rewrite Hchain. apply Forall_app. split; [done|].
    destruct (injects_context model raw1); [by apply Forall_singleton|done]. }
  match type of Hdisp with dispatch_from _ _ _ ?c ?rq ?cx ?w1 = _ =>
    destruct (dispatch_from_transparent model on_chunk fmt c rq cx w1 Hall)
      as (req' & ctx' & Hsame & Heq);
    rewrite Heq in Hdisp;
    pose proof (call_model_calls model on_chunk fmt req' ctx' w1) as Hcalls;
    pose proof (call_model_not_abort model on_chunk fmt req' ctx' w1) as Hna
  end.
  rewrite Hdisp in Hcalls, Hna. simpl in Hcalls, Hna. rewrite Hcalls0 in Hcalls.
  eexists. destruct res as [model_response|e].
  - pose proof (end_turn_keeps assert_valid assert_valid_schema dump_dict
                  registry raw1 fmt (action_to_generate_request raw1 tools model)
                  on_chunk ct model_response w2) as Hk.
    pose proof (end_turn_result assert_valid assert_valid_schema dump_dict
                  registry raw1 fmt (action_to_generate_request raw1 tools model)
                  on_chunk ct model_response w2 _ _ Hend) as Hr.
    rewrite Hend in Hk. simpl in Hk. destruct Hk as (_ & _ & ->).
    split; [exact Hcalls|].
    intros e -> Habort. destruct e; try done.
    destruct Hr as (-> & Hlt & _).
    apply apply_format_keeps in Hfmt as (Hmax & _).
    unfold effective_max_turns in *. rewrite Hmax in Hlt.
    split; [done|]. by eexists _, _, _.
  - destruct Hend as [-> ->]. split; [exact Hcalls|].
    intros e' [= <-] Habort. by destruct (Hna e eq_refl).
Qed.

Lemma Run_model_calls registry on_chunk raw_request mi ct mw ctx w res w' :
  Run' registry on_chunk raw_request mi ct mw ctx w res w' ->
  transparent augment_with_context ->
  Forall transparent (caller_chain (w_store w) mw) ->
  exists calls,
    w_model_calls w' = w_model_calls w ++ calls /\
    Z.of_nat (length calls) <= Z.max 1 (effective_max_turns raw_request + 1 - ct) /\
    forall e, res = Err e -> is_abort e ->
      (exists r m q, e = GenerationResponseError r m "ABORTED" q) /\
      Z.of_nat (length calls) = Z.max 1 (effective_max_turns raw_request + 1 - ct).
Proof.
  intros Hrun Haug.
  induction Hrun as [raw_request mi ct mw ctx w response w' Hturn
                    |raw_request mi ct mw ctx w e w' Hturn
                    |raw_request mi ct mw ctx w next mi' ct' w1 res w' Hturn Hrun IH];
    intros Hcaller.
  - destruct (generate_action_turn_calls _ _ _ _ _ _ _ _ _ _ Hturn Haug Hcaller)
      as [(_ & e & ? & _)|(c & Hc & _)]; [done|].
    exists [c]. split; [done|]. split; [simpl; lia|done].
  - destruct (generate_action_turn_calls _ _ _ _ _ _ _ _ _ _ Hturn Haug Hcaller)
      as [(Hc & e' & [= <-] & Hna)|(c & Hc & Hab)].
    + exists []. rewrite app_nil_r. split; [done|]. split; [simpl; lia|].
      by intros e' [= <-] ?.
    + exists [c]. split; [done|]. split; [simpl; lia|].
      intros e' [= <-] He. destruct (Hab e eq_refl He) as [Hlt Hst].
      split; [done|]. simpl. lia.
  - destruct (generate_action_turn_calls _ _ _ _ _ _ _ _ _ _ Hturn Haug Hcaller)
      as [(_ & e & ? & _)|(c & Hc & _)]; [done|].
    apply generate_action_turn_recurse in Hturn as (-> & Hle & Hmax & _).
    destruct IH as (calls & Hcalls & Hlen & Hab); [by apply Forall_nil|].
    assert (HN : effective_max_turns next = effective_max_turns raw_request).
    { unfold effective_max_turns. by rewrite Hmax. }
    rewrite HN in Hlen, Hab.
    exists (c :: calls). rewrite Hcalls, Hc, <- app_assoc. split; [done|].
    split; [simpl length; lia|].
    intros e -> He. destruct (Hab e eq_refl He) as [Hst Heq].
    split; [done|]. simpl length. lia.
Qed.

(** One turn dispatches at most once, whatever the middleware do. *)
Lemma generate_action_turn_dispatches registry raw_request on_chunk mi ct mw ctx
    w out w' :
  generate_action_turn' registry raw_request on_chunk mi ct mw ctx w
    = (out, w') ->
  exists ds, w_dispatched w' = w_dispatched w ++ ds /\ (length ds <= 1)%nat.
Proof.
  intros H. apply generate_action_turn_inv in H as [(e & -> & -> & _)|H].
  { exists []. rewrite app_nil_r. split; [done|]. simpl. lia. }
  destruct H as (model & tools & fd & raw1 & fmt & r & w0 & res & w2
                 & Hres & Hfmt & Hbegin & Hdisp & Hend).
  destruct (begin_turn_spec augment_with_context model raw1 mi mw w)
    as (r' & w0' & Hbegin' & _ & _ & _ & _ & Hdisp0 & _).
  rewrite Hbegin in Hbegin'. inversion Hbegin'; subst r' w0'. clear Hbegin'.
  match type of Hdisp with dispatch_from _ _ _ ?c ?rq ?cx ?w1 = _ =>
    pose proof (dispatch_from_same_lists model on_chunk fmt c rq cx w1) as Hsame
  end.
  rewrite Hdisp in Hsame. destruct Hsame as (_ & Hd2 & _). simpl in Hd2.
  rewrite Hdisp0 in Hd2.
  eexists [_]. split; [|done].
  destruct res as [model_response|e].
  - pose proof (end_turn_keeps assert_valid assert_valid_schema dump_dict
                  registry raw1 fmt (action_to_generate_request raw1 tools model)
                  on_chunk ct model_response w2) as Hk.
    rewrite Hend in Hk. simpl in Hk. destruct Hk as (_ & -> & _). exact Hd2.
  - destruct Hend as [_ ->]. exact Hd2.
Qed.

(** A run goes through at most [max(1, max_turns + 1 - current_turn)]
    turns, whatever the middleware do. *)
Lemma Run_turns registry on_chunk raw_request mi ct mw ctx w res w' :
  Run' registry on_chunk raw_request mi ct mw ctx w res w' ->
  exists ds,
    w_dispatched w' = w_dispatched w ++ ds /\
    Z.of_nat (length ds) <= Z.max 1 (effective_max_turns raw_request + 1 - ct).
Proof.
  induction 1 as [raw_request mi ct mw ctx w response w' Hturn
                 |raw_request mi ct mw ctx w e w' Hturn
                 |raw_request mi ct mw ctx w next mi' ct' w1 res w' Hturn Hrun IH].
  - apply generate_action_turn_dispatches in Hturn as (ds & Hds & Hlen).
    exists ds. split; [done|lia].
  - apply generate_action_turn_dispatches in Hturn as (ds & Hds & Hlen).
    exists ds. split; [done|lia].
  - pose proof Hturn as Hrec.
    apply generate_action_turn_recurse in Hrec as (-> & Hle & Hmax & _).
    apply generate_action_turn_dispatches in Hturn as (ds & Hds & Hlen).
    destruct IH as (ds' & Hds' & Hlen').
    assert (HN : effective_max_turns next = effective_max_turns raw_request).
    { unfold effective_max_turns. by rewrite Hmax. }
    rewrite HN in Hlen'.
    exists (ds ++ ds'). rewrite Hds', Hds, <- app_assoc. split; [done|].
    rewrite length_app. lia.
Qed.

(** C1, as the code has it: [max_turns] bounds the tool-call iterations, not
    the model calls. Whatever the middleware do, a run started at turn 0 goes
    through at most [max(1, max_turns + 1)] turns, each of them one dispatch
    of the middleware chain. When every middleware calls [next] once and
    returns what [next] returned, a turn is one model call: the run makes at
    most [max(1, max_turns + 1)] model calls; when it ends in the error of
    line 231 that error has the status [ABORTED] and exactly that many model
    calls were made; and with [max_turns >= 1] the first turn never ends in
    that error, so that with [max_turns = 1] it is raised only after the
    second model call. *)
Theorem C1_at_most_max_turns_plus_one_model_calls registry raw_request on_chunk
    mi mw ctx w fuel :
  (Z.to_nat (effective_max_turns raw_request) < fuel)%nat ->
  exists res w' ds,
    generate_action' fuel registry raw_request on_chunk mi 0 mw ctx w
      = Some (res, w') /\
    w_dispatched w' = w_dispatched w ++ ds /\
    Z.of_nat (length ds) <= Z.max 1 (effective_max_turns raw_request + 1) /\
    (transparent augment_with_context ->
     Forall transparent (caller_chain (w_store w) mw) ->
     exists calls,
       w_model_calls w' = w_model_calls w ++ calls /\
       Z.of_nat (length calls)
       <= Z.max 1 (effective_max_turns raw_request + 1) /\
       (forall e, res = Err e -> is_abort e ->
          (exists r m q, e = GenerationResponseError r m "ABORTED" q) /\
          Z.of_nat (length calls)
          = Z.max 1 (effective_max_turns raw_request + 1)) /\
       (1 <= effective_max_turns raw_request ->
        forall out w1,
          generate_action_turn' registry raw_request on_chunk mi 0 mw ctx w
            = (out, w1) ->
          forall e, out = Err e -> ~ is_abort e)).
Proof.
  intros Hfuel.
  destruct (generate_action_terminates inject_instructions augment_with_context
              assert_valid assert_valid_schema dump_dict fuel registry
              raw_request on_chunk mi 0 mw ctx w) as (res & w' & Hgen).
  { by rewrite Z.sub_0_r. }
  apply generate_action_Run in Hgen as Hrun.
  destruct (Run_turns _ _ _ _ _ _ _ _ _ _ Hrun) as (ds & Hds & Hlen).
  rewrite Z.sub_0_r in Hlen.
  exists res, w', ds. split_and!; [done|done|done|].
  intros Haug Hcaller.
  destruct (Run_model_calls _ _ _ _ _ _ _ _ _ _ Hrun Haug Hcaller)
    as (calls & Hcalls & Hlenc & Hab).
  rewrite Z.sub_0_r in Hlenc, Hab.
  exists calls. split_and!; [done|done|done|].
  intros HN out w1 Hturn e -> Habort.
  destruct (generate_action_turn_calls _ _ _ _ _ _ _ _ _ _ Hturn Haug Hcaller)
    as [(_ & e' & [= <-] & Hna)|(c & _ & Hwhen)]; [done|].
  destruct (Hwhen e eq_refl Habort) as [Hlt _]. lia.
Qed.
End RunFacts.

(** ** The middleware list across the turns *)

Lemma dispatch_from_dispatch_to model on_chunk formatter chain :
  dispatch_from model on_chunk formatter chain
  = dispatch_to (call_model model on_chunk formatter) chain.
Proof.
  induction chain as [|m chain IH]; [done|].
  simpl. by rewrite IH.
Qed.

(** A middleware at the end of the list is the last to run: it wraps the
    final step, and the middleware before it wrap the two together. *)
Lemma dispatch_to_app_last final chain m :
  dispatch_to final (chain ++ [m])
  = dispatch_to (fun req ctx => run_middleware final req ctx (m req ctx)) chain.
Proof.
  induction chain as [|m' chain IH]; [done|].
  simpl. by rewrite IH.
Qed.

Lemma resolve_parameters_apply_format inject registry raw_request model tools
    format_def :
  resolve_parameters registry raw_request = Ok (model, tools, format_def) ->
  exists raw_request' formatter,
    apply_format inject raw_request format_def = Ok (raw_request', formatter).
Proof.
  unfold resolve_parameters, apply_format.
  destruct (match opt_model raw_request with Some m => Some m | None => default_model registry end)
    as [[|a name]|]; [done| |done].
  destruct (lookup_action registry MODEL (String a name)); [|done].
  destruct (if truthy_list (opt_tools raw_request) then _ else _); [|done].
  destruct (opt_output raw_request) as [o|].
  - intros _. destruct format_def; by eexists _, _.
  - intros [= _ _ <-]. by eexists _, _.
Qed.

Lemma injects_context_docs model r1 r2 :
  opt_docs r2 = opt_docs r1 ->
  injects_context model r2 = injects_context model r1.
Proof. unfold injects_context. by intros ->. Qed.

Section Lists.
Variable inject_instructions : list Message -> option string -> list Message.
Variable augment_with_context : ModelMiddleware.
Variable assert_valid : GenerateResponseWrapper -> Outcome unit.
Variable assert_valid_schema : GenerateResponseWrapper -> Outcome unit.
Variable dump_dict : Json -> Json.

Local Abbreviation generate_action_turn' :=
  (generate_action_turn inject_instructions augment_with_context assert_valid
     assert_valid_schema dump_dict).
Local Abbreviation generate_action' :=
  (generate_action inject_instructions augment_with_context assert_valid
     assert_valid_schema dump_dict).
Local Abbreviation Run' :=
  (Run inject_instructions augment_with_context assert_valid
     assert_valid_schema dump_dict).

Local Abbreviation context_middleware' :=
  (context_middleware augment_with_context).

(** What one turn does to the record of dispatches and to the list objects:
    nothing when the set-up fails; otherwise it dispatches once, through the
    caller's middleware followed by the context middleware, and that list is
    the caller's own object, changed in place, when the caller gave a list
    that is not empty, and a new object otherwise. *)
Lemma generate_action_turn_lists registry raw_request on_chunk mi ct mw ctx w
    out w' :
  generate_action_turn' registry raw_request on_chunk mi ct mw ctx w
    = (out, w') ->
  ((exists e, resolve_parameters registry raw_request = Err e /\ out = Err e)
   /\ w' = w)
  \/
  (exists model tools format_def raw_request' formatter,
     resolve_parameters registry raw_request = Ok (model, tools, format_def) /\
     apply_format inject_instructions raw_request format_def
       = Ok (raw_request', formatter) /\
     w_dispatched w' = w_dispatched w ++
       [{| dp_middleware := caller_chain (w_store w) mw
                            ++ context_middleware' model raw_request;
           dp_request := action_to_generate_request raw_request' tools model;
           dp_context := ctx |}] /\
     ((exists r0, mw = Some r0 /\ caller_chain (w_store w) mw <> [] /\
         w_store w' = if injects_context model raw_request
                      then <[r0 := deref (w_store w) r0 ++ [augment_with_context]]>
                             (w_store w)
                      else w_store w)
      \/ (caller_chain (w_store w) mw = [] /\
          w_store w' = w_store w ++ [context_middleware' model raw_request]))).
Proof.
  intros H.
  apply generate_action_turn_inv in H as [(e & -> & -> & Hwhy)|H].
  { left. split; [|done]. destruct Hwhy as [Hres|(model & tools & fd & Hres & Hfmt)].
    - by exists e.
    - exfalso.
      destruct (resolve_parameters_apply_format inject_instructions _ _ _ _ _ Hres)
        as (? & ? & Hok). congruence. }
  destruct H as (model & tools & fd & raw1 & fmt & r & w0 & res & w2
                 & Hres & Hfmt & Hbegin & Hdisp & Hend).
  right. exists model, tools, fd, raw1, fmt. split; [done|]. split; [done|].
  destruct (begin_turn_spec augment_with_context model raw1 mi mw w)
    as (r' & w0' & Hbegin' & _ & _ & _ & _ & Hd0 & Hchain & Hstore).
  rewrite Hbegin in Hbegin'. inversion Hbegin'; subst r' w0'. clear Hbegin'.
  apply apply_format_keeps in Hfmt as Hkeep. destruct Hkeep as (_ & Hdocs & _).
  rewrite (injects_context_docs model raw_request raw1 Hdocs) in *.
  fold (context_middleware augment_with_context model raw_request) in *.
  match type of Hdisp with dispatch_from _ _ _ ?c ?rq ?cx ?w1 = _ =>
    pose proof (dispatch_from_same_lists model on_chunk fmt c rq cx w1) as Hs
  end.
  rewrite Hdisp in Hs. destruct Hs as (Hs1 & Hs2 & _). simpl in Hs1, Hs2.
  assert (Hfin : w_store w' = w_store w2 /\ w_dispatched w' = w_dispatched w2).
  { destruct res as [model_response|e]; [|by destruct Hend as [_ ->]].
    pose proof (end_turn_keeps assert_valid assert_valid_schema dump_dict
                  registry raw1 fmt (action_to_generate_request raw1 tools model)
                  on_chunk ct model_response w2) as Hk.
    rewrite Hend in Hk. simpl in Hk. by destruct Hk as (? & ? & _). }
  destruct Hfin as [-> ->]. rewrite Hs1, Hs2, Hd0, Hchain. split; [done|].
  destruct Hstore as [(r0 & -> & -> & Hne & Hst)|(Hnil & _ & Hst)].
  - left. exists r0. by rewrite Hst.
  - right. by rewrite Hst.
Qed.

(** The dispatches of a whole run: the first goes through the caller's
    middleware and then the context middleware, with the caller's context;
    every later one goes through the context middleware alone, if line 153
    asks for it, with no context. *)
Lemma Run_dispatched registry on_chunk raw_request mi ct mw ctx w res w' :
  Run' registry on_chunk raw_request mi ct mw ctx w res w' ->
  ((exists e, resolve_parameters registry raw_request = Err e) /\
   w_dispatched w' = w_dispatched w)
  \/
  (exists model tools format_def d later,
     resolve_parameters registry raw_request = Ok (model, tools, format_def) /\
     w_dispatched w' = w_dispatched w ++ d :: later /\
     dp_middleware d = caller_chain (w_store w) mw
                       ++ context_middleware' model raw_request /\
     dp_context d = ctx /\
     Forall (fun d' => dp_middleware d' = context_middleware' model raw_request /\
                       dp_context d' = None) later).
Proof.
  induction 1 as [raw_request mi ct mw ctx w response w' Hturn
                 |raw_request mi ct mw ctx w e w' Hturn
                 |raw_request mi ct mw ctx w next mi' ct' w1 res w' Hturn Hrun IH].
  - apply generate_action_turn_lists in Hturn as [[(e & He & _) ->]|Hturn].
    { left. split; [by exists e|done]. }
    destruct Hturn as (model & tools & fd & raw1 & fmt & Hres & _ & Hd & _).
    right. exists model, tools, fd. eexists _, []. by split_and!.
  - apply generate_action_turn_lists in Hturn as [[(e' & He & _) ->]|Hturn].
    { left. split; [by exists e'|done]. }
    destruct Hturn as (model & tools & fd & raw1 & fmt & Hres & _ & Hd & _).
    right. exists model, tools, fd. eexists _, []. by split_and!.
  - pose proof Hturn as Hrec.
    apply generate_action_turn_recurse in Hrec as (_ & _ & _ & Hdocs & Hmodel).
    apply generate_action_turn_lists in Hturn as [[(e & _ & ?) _]|Hturn]; [done|].
    destruct Hturn as (model & tools & fd & raw1 & fmt & Hres & _ & Hd & _).
    right. exists model, tools, fd.
    destruct IH as [[_ Heq]|IH].
    + eexists _, []. rewrite Heq. by split_and!.
    + destruct IH as (model' & tools' & fd' & d' & later & Hres' & Hd' & Hchain'
                      & Hctx' & Hlater).
      assert (model' = model) as -> by (by eapply resolve_parameters_model).
      unfold context_middleware in *.
      rewrite (injects_context_docs model raw_request next Hdocs) in *.
      eexists _, (d' :: later). rewrite Hd', Hd, <- app_assoc.
      split_and!; try done. apply Forall_cons. split; [|done].
      by rewrite Hchain'.
Qed.

(** A run that starts without a list of the caller's only makes new list
    objects. *)
Lemma Run_store_prefix registry on_chunk raw_request mi ct mw ctx w res w' :
  Run' registry on_chunk raw_request mi ct mw ctx w res w' ->
  caller_chain (w_store w) mw = [] ->
  w_store w `prefix_of` w_store w'.
Proof.
  induction 1 as [raw_request mi ct mw ctx w response w' Hturn
                 |raw_request mi ct mw ctx w e w' Hturn
                 |raw_request mi ct mw ctx w next mi' ct' w1 res w' Hturn Hrun IH];
    intros Hnil.
  1,2: apply generate_action_turn_lists in Hturn as [[_ ->]|Hturn]; [done|];
       destruct Hturn as (? & ? & ? & ? & ? & _ & _ & _ & [(? & _ & ? & _)|[_ ->]]);
       [done|by apply prefix_app_r].
  apply generate_action_turn_lists in Hturn as [[_ ->]|Hturn]; [by apply IH|].
  destruct Hturn as (? & ? & ? & ? & ? & _ & _ & _ & [(? & _ & ? & _)|[_ Hst]]);
    [done|].
  etrans; [|by apply IH]. rewrite Hst. by apply prefix_app_r.
Qed.

(** After its first turn a run only makes new list objects. *)
Lemma Run_first_turn registry on_chunk raw_request mi ct mw ctx w res w' :
  Run' registry on_chunk raw_request mi ct mw ctx w res w' ->
  exists out w1,
    generate_action_turn' registry raw_request on_chunk mi ct mw ctx w
      = (out, w1) /\
    w_store w1 `prefix_of` w_store w'.
Proof.
  destruct 1 as [raw_request mi ct mw ctx w response w' Hturn
                |raw_request mi ct mw ctx w e w' Hturn
                |raw_request mi ct mw ctx w next mi' ct' w1 res w' Hturn Hrun].
  - by eexists _, _.
  - by eexists _, _.
  - eexists _, _. split; [done|]. by eapply Run_store_prefix.
Qed.

(** C5, as the code has it: the context middleware is put on the list if
    and only if the request has docs and the resolved model does not declare
    context support, but it is appended, not prepended: it comes after all
    the caller's middleware, so it is the last to run, directly around the
    model call. *)
Theorem C5_context_middleware_is_appended registry raw_request on_chunk mi ct
    mw ctx w fuel model tools format_def :
  resolve_parameters registry raw_request = Ok (model, tools, format_def) ->
  (Z.to_nat (effective_max_turns raw_request - ct) < fuel)%nat ->
  exists res w' d later,
    generate_action' fuel registry raw_request on_chunk mi ct mw ctx w
      = Some (res, w') /\
    w_dispatched w' = w_dispatched w ++ d :: later /\
    (truthy_list (opt_docs raw_request) = true ->
     supports_context model = false ->
     dp_middleware d = caller_chain (w_store w) mw ++ [augment_with_context]) /\
    (truthy_list (opt_docs raw_request) = false \/
     supports_context model = true ->
     dp_middleware d = caller_chain (w_store w) mw) /\
    forall formatter,
      dispatch_from model on_chunk formatter
        (caller_chain (w_store w) mw ++ [augment_with_context])
      = dispatch_to
          (fun req ctx =>
             run_middleware (call_model model on_chunk formatter) req ctx
               (augment_with_context req ctx))
          (caller_chain (w_store w) mw).
Proof.
  intros Hres Hfuel.
  destruct (generate_action_terminates inject_instructions augment_with_context
              assert_valid assert_valid_schema dump_dict fuel registry
              raw_request on_chunk mi ct mw ctx w Hfuel) as (res & w' & Hgen).
  apply generate_action_Run in Hgen as Hrun.
  apply Run_dispatched in Hrun as [[[e He] _]|Hrun]; [congruence|].
  destruct Hrun as (model' & tools' & fd' & d & later & Hres' & Hd & Hchain & _).
  rewrite Hres in Hres'. inversion Hres'; subst model' tools' fd'.
  exists res, w', d, later. split_and!; [done|done| | |].
  - intros Hdocs Hsup. rewrite Hchain.
    unfold context_middleware, injects_context. by rewrite Hdocs, Hsup.
  - intros Hno. rewrite Hchain. unfold context_middleware, injects_context.
    destruct Hno as [-> | ->]; rewrite ?andb_false_r, ?app_nil_r; done.
  - intros formatter.
    by rewrite dispatch_from_dispatch_to, dispatch_to_app_last.
Qed.

(** C9, as the code has it: the recursive call passes neither the
    middleware nor the context, so every dispatch after the first has no
    context and none of the caller's middleware; its chain is not always
    empty, though: line 153 runs again on the new list, so the chain is the
    context middleware alone when the request has docs and the model does
    not support context, and empty otherwise. *)
Theorem C9_later_turns_drop_middleware_and_context registry raw_request
    on_chunk mi ct mw ctx w fuel model tools format_def :
  resolve_parameters registry raw_request = Ok (model, tools, format_def) ->
  (Z.to_nat (effective_max_turns raw_request - ct) < fuel)%nat ->
  exists res w' d later,
    generate_action' fuel registry raw_request on_chunk mi ct mw ctx w
      = Some (res, w') /\
    w_dispatched w' = w_dispatched w ++ d :: later /\
    dp_context d = ctx /\
    Forall (fun d' =>
              dp_context d' = None /\
              dp_middleware d'
              = if truthy_list (opt_docs raw_request)
                   && negb (supports_context model)
                then [augment_with_context] else [])
           later.
Proof.
  intros Hres Hfuel.
  destruct (generate_action_terminates inject_instructions augment_with_context
              assert_valid assert_valid_schema dump_dict fuel registry
              raw_request on_chunk mi ct mw ctx w Hfuel) as (res & w' & Hgen).
  apply generate_action_Run in Hgen as Hrun.
  apply Run_dispatched in Hrun as [[[e He] _]|Hrun]; [congruence|].
  destruct Hrun as (model' & tools' & fd' & d & later & Hres' & Hd & _ & Hctx
                    & Hlater).
  rewrite Hres in Hres'. inversion Hres'; subst model' tools' fd'.
  exists res, w', d, later. split_and!; [done|done|done|].
  eapply Forall_impl; [exact Hlater|]. by intros d' [? ?].
Qed.

(** C10: when the caller passes a list that is not empty, the request has
    docs and the resolved model does not support context, the context
    middleware is appended to the caller's own list object; in every other
    case the caller's list is as it was; and no other list object that
    existed before the call is changed. *)
Theorem C10_caller_list_is_appended_in_place registry raw_request on_chunk mi
    ct r0 ctx w fuel ms :
  w_store w !! r0 = Some ms ->
  (Z.to_nat (effective_max_turns raw_request - ct) < fuel)%nat ->
  exists res w',
    generate_action' fuel registry raw_request on_chunk mi ct (Some r0) ctx w
      = Some (res, w') /\
    (forall model tools format_def,
       resolve_parameters registry raw_request = Ok (model, tools, format_def) ->
       ms <> [] -> truthy_list (opt_docs raw_request) = true ->
       supports_context model = false ->
       w_store w' !! r0 = Some (ms ++ [augment_with_context])) /\
    ((forall model tools format_def,
        resolve_parameters registry raw_request = Ok (model, tools, format_def) ->
        ms = [] \/ truthy_list (opt_docs raw_request) = false \/
        supports_context model = true) ->
     w_store w' !! r0 = Some ms) /\
    (forall r, r <> r0 -> (r < length (w_store w))%nat ->
       w_store w' !! r = w_store w !! r).
Proof.
  intros Hms Hfuel.
  destruct (generate_action_terminates inject_instructions augment_with_context
              assert_valid assert_valid_schema dump_dict fuel registry
              raw_request on_chunk mi ct (Some r0) ctx w Hfuel)
    as (res & w' & Hgen).
  exists res, w'. split; [done|].
  apply generate_action_Run, Run_first_turn in Hgen
    as (out & w1 & Hturn & Hprefix).
  assert (Hlt : (r0 < length (w_store w))%nat) by (by eapply lookup_lt_Some).
  assert (Hcaller : caller_chain (w_store w) (Some r0) = ms).
  { unfold caller_chain, deref. by rewrite Hms. }
  apply generate_action_turn_lists in Hturn as [[(e & He & _) ->]|Hturn].
  { split_and!.
    - intros model tools fd Hres. congruence.
    - intros _. by eapply prefix_lookup_Some.
    - intros r _ Hr. symmetry. by apply prefix_lookup_lt. }
  destruct Hturn as (model & tools & fd & raw1 & fmt & Hres & _ & _ & Hstore).
  rewrite Hcaller in Hstore.
  assert (Hderef : deref (w_store w) r0 = ms) by exact Hcaller.
  unfold injects_context in Hstore.
  assert (Hw1 :
    w_store w1 !! r0
      = Some (if bool_decide (ms <> []) && truthy_list (opt_docs raw_request)
                 && negb (supports_context model)
              then ms ++ [augment_with_context] else ms) /\
    forall r, r <> r0 -> (r < length (w_store w))%nat ->
      w_store w1 !! r = w_store w !! r).
  { destruct Hstore as [(r0' & [= <-] & Hne & Hst)|[-> Hst]].
    - rewrite bool_decide_true by done. simpl. rewrite Hst, Hderef.
      destruct (truthy_list (opt_docs raw_request)
                && negb (supports_context model)).
      + split; [by apply list_lookup_insert_eq|].
        intros r Hr _. by apply list_lookup_insert_ne.
      + done.
    - rewrite bool_decide_false by (by intros []). simpl. rewrite Hst. split.
      + by rewrite lookup_app_l.
      + intros r _ Hr. by rewrite lookup_app_l. }
  destruct Hw1 as [Hr0 Hother]. split_and!.
  - intros model' tools' fd' Hres' Hne Hdocs Hsup.
    rewrite Hres in Hres'. inversion Hres'; subst model' tools' fd'.
    apply (prefix_lookup_Some (w_store w1)); [|done].
    rewrite bool_decide_true, Hdocs, Hsup in Hr0 by done. exact Hr0.
  - intros Hno. apply (prefix_lookup_Some (w_store w1)); [|done].
    destruct (Hno _ _ _ Hres) as [-> | [Hdocs | Hsup]].
    + by rewrite bool_decide_false in Hr0 by (by intros []).
    + by rewrite Hdocs, andb_false_r in Hr0.
    + by rewrite Hsup, andb_false_r in Hr0.
  - intros r Hne Hr. transitivity (w_store w1 !! r); [|by apply Hother].
    symmetry. apply prefix_lookup_lt; [|done].
    destruct Hstore as [(? & _ & _ & ->)|[_ ->]].
    + destruct (truthy_list (opt_docs raw_request) && negb (supports_context model)).
      * rewrite length_insert. lia.
      * lia.
    + rewrite length_app. lia.
Qed.
End Lists.

(** ** Replies without tool requests, and the chunks of a run *)

Lemma filter_tool_requests_nil (content : list Part) :
  Forall (fun x => root_tool_request x = None) content ->
  filter (fun x => is_Some (root_tool_request x)) content = [].
Proof.
  induction 1 as [|x content Hx _ IH]; [done|].
  rewrite filter_cons_False; [done|]. rewrite Hx. by intros [? ?].
Qed.

Lemma wrap_all_length formatter mi seen cs :
  length (wrap_all formatter mi seen cs) = length cs.
Proof.
  rewrite <- (wrap_all_chunks formatter mi seen cs) at 2.
  by rewrite length_fmap.
Qed.

(** A chunk of a segment is a model chunk, with the index of the turn and
    the model chunks before it as its history, or it is the tool chunk at the
    end, with the index of [tool_index] and all the model chunks of the turn
    as its history. *)
Lemma segment_emitted_lookup seg i c :
  segment_emitted seg !! i = Some c ->
  ((i < length (seg_model seg))%nat /\ cw_index c = seg_start seg /\
   seg_model seg !! i = Some (cw_chunk c) /\
   cw_previous_chunks c = take i (seg_model seg))
  \/
  (i = length (seg_model seg) /\ seg_tool seg = Some (cw_chunk c) /\
   cw_index c = tool_index seg /\ cw_previous_chunks c = seg_model seg).
Proof.
  unfold segment_emitted. intros H.
  apply lookup_app_Some in H as [H|[Hge H]].
  - left. apply wrap_all_lookup in H as (? & _ & Hc & ?).
    split_and!; try done. by eapply lookup_lt_Some.
  - right. rewrite wrap_all_length in Hge, H.
    destruct (seg_tool seg) as [t|]; [|done].
    apply list_lookup_singleton_Some in H as [Hi <-]. simpl.
    split_and!; try done. lia.
Qed.

Lemma segment_emitted_chunks seg :
  cw_chunk <$> segment_emitted seg
  = seg_model seg ++ match seg_tool seg with Some t => [t] | None => [] end.
Proof.
  unfold segment_emitted. rewrite fmap_app, wrap_all_chunks.
  by destruct (seg_tool seg).
Qed.

Section OneTurn.
Variable inject_instructions : list Message -> option string -> list Message.
Variable augment_with_context : ModelMiddleware.
Variable assert_valid : GenerateResponseWrapper -> Outcome unit.
Variable assert_valid_schema : GenerateResponseWrapper -> Outcome unit.
Variable dump_dict : Json -> Json.

Local Abbreviation end_turn' :=
  (end_turn assert_valid assert_valid_schema dump_dict).
Local Abbreviation begin_turn' := (begin_turn augment_with_context).
Local Abbreviation generate_action_turn' :=
  (generate_action_turn inject_instructions augment_with_context assert_valid
     assert_valid_schema dump_dict).
Local Abbreviation generate_action' :=
  (generate_action inject_instructions augment_with_context assert_valid
     assert_valid_schema dump_dict).
Local Abbreviation Run' :=
  (Run inject_instructions augment_with_context assert_valid
     assert_valid_schema dump_dict).

Local Abbreviation validated' := (validated assert_valid assert_valid_schema).

(** A response without tool requests ends the turn: it is checked and
    returned, and nothing else happens. *)
Lemma end_turn_no_tool_requests registry raw_request formatter request on_chunk
    current_turn model_response w :
  Forall (fun x => root_tool_request x = None)
         (msg_content (resp_message model_response)) ->
  end_turn' registry raw_request formatter request on_chunk current_turn
    model_response w
  = (match validated' (wrap_response model_response request formatter) with
     | Ok response => Ok (Return response)
     | Err e => Err e
     end, w).
Proof.
  intros Hnone. unfold end_turn, validated, bind, lift, ret.
  destruct (assert_valid _); simpl; [|done].
  rewrite (filter_tool_requests_nil _ Hnone). simpl.
  rewrite orb_true_r. by destruct (assert_valid_schema _).
Qed.

(** One turn whose set-up succeeds, step by step. *)
Lemma generate_action_turn_steps registry raw_request on_chunk mi ct mw ctx w
    model tools format_def raw_request' formatter r w0 :
  resolve_parameters registry raw_request = Ok (model, tools, format_def) ->
  apply_format inject_instructions raw_request format_def
    = Ok (raw_request', formatter) ->
  begin_turn' model raw_request' mi mw w = (Ok r, w0) ->
  generate_action_turn' registry raw_request on_chunk mi ct mw ctx w
  = match
      dispatch_from model on_chunk formatter (deref (w_store w0) r)
        (action_to_generate_request raw_request' tools model)
        {| arc_on_chunk := if on_chunk then Some WrapChunks else None;
           arc_context := ctx |}
        (log_dispatch
           {| dp_middleware := deref (w_store w0) r;
              dp_request := action_to_generate_request raw_request' tools model;
              dp_context := ctx |} w0)
    with
    | (Ok model_response, w2) =>
        end_turn' registry raw_request' formatter
          (action_to_generate_request raw_request' tools model)
          on_chunk ct model_response w2
    | (Err e, w2) => (Err e, w2)
    end.
Proof.
  intros Hres Hfmt Hbegin. unfold generate_action_turn.
  unfold bind at 1. unfold lift at 1. rewrite Hres.
  unfold bind at 1. unfold lift at 1. rewrite Hfmt.
  unfold bind at 1. rewrite Hbegin.
  unfold bind at 1, gets at 1. unfold bind at 1, modify at 1.
  unfold bind at 1. unfold dispatch. by simpl drop.
Qed.

(** What [apply_format] makes of the declared schema: it stays in the
    request, and the formatter is the Format called on it. *)
Lemma apply_format_schema raw_request format_def raw_request' formatter :
  apply_format inject_instructions raw_request format_def
    = Ok (raw_request', formatter) ->
  (opt_output raw_request' ≫= out_json_schema)
    = (opt_output raw_request ≫= out_json_schema) /\
  formatter
  = (fun fd => fd_call fd (opt_output raw_request ≫= out_json_schema))
      <$> format_def.
Proof.
  unfold apply_format. destruct format_def as [fd|].
  - destruct (opt_output raw_request) as [o|]; [|done]. by intros [= <- <-].
  - by intros [= <- <-].
Qed.


(** The end of a turn that streams: nothing more is handed to the callback,
    unless the loop goes on; then it is the tool chunk, with the chunks of
    this turn as its history and the index of [tool_index]. *)
Lemma end_turn_emitted registry raw_request formatter request current_turn
    model_response mi emitted0 w out w' :
  streaming formatter mi emitted0 w ->
  end_turn' registry raw_request formatter request true current_turn
    model_response w = (out, w') ->
  match out with
  | Ok (Recurse _ mi' _) =>
      exists t,
        ch_role t = Some RoleTool /\
        w_emitted w' = w_emitted w ++
          [{| cw_chunk := t;
              cw_index := match prev_chunks (w_frame w) with
                          | [] => mi | _ :: _ => mi + 1 end;
              cw_previous_chunks := prev_chunks (w_frame w);
              cw_chunk_parser := formatter |}] /\
        mi' = match prev_chunks (w_frame w) with
              | [] => mi | _ :: _ => mi + 1 end + 1
  | _ => w_emitted w' = w_emitted w
  end.
Proof.
  intros (Hrole & Hmi & _).
  unfold end_turn, bind, lift, ret, raise, gets.
  destruct (assert_valid _); simpl; [|by intros [= <- <-]].
  destruct (_ || _).
  { destruct (_ =? _)%nat; simpl; [|by intros [= <- <-]].
    destruct (assert_valid_schema _); by intros [= <- <-]. }
  destruct (_ >? _); [by intros [= <- <-]|].
  match goal with |- context [resolve_tool_requests ?d ?r ?q ?m ?w0] =>
    pose proof (resolve_tool_requests_keeps d r q m w0) as Hk;
    pose proof (resolve_tool_requests_result d r q m w0) as Hr;
    destruct (resolve_tool_requests d r q m w0) as [[[[revised tool_msg] pre]|e] w1]
  end; simpl in Hk; destruct Hk as (_ & Hem & _ & _ & Hfr).
  2: { by intros [= <- <-]. }
  destruct (Hr _ _ eq_refl) as (-> & -> & Htool).
  unfold make_chunk, make_chunk_frame, call_on_chunk, modify. simpl.
  rewrite Hfr, Hrole. simpl.
  intros [= <- <-]. simpl. exists {| ch_role := Some (msg_role tool_msg);
                                     ch_content := msg_content tool_msg |}.
  simpl. rewrite Htool, Hmi, Hem. split; [done|].
  by destruct (prev_chunks (w_frame w)) as [|c cs].
Qed.

(** What one turn that streams hands to the callback. *)
Lemma generate_action_turn_emitted registry raw_request mi ct mw ctx w out w' :
  generate_action_turn' registry raw_request true mi ct mw ctx w = (out, w') ->
  exists seg,
    seg_start seg = mi /\
    w_emitted w' = w_emitted w ++ segment_emitted seg /\
    (forall t, seg_tool seg = Some t -> ch_role t = Some RoleTool) /\
    match out with
    | Ok (Recurse _ mi' _) => is_Some (seg_tool seg) /\ mi' = next_start seg
    | _ => seg_tool seg = None
    end.
Proof.
  intros H.
  apply generate_action_turn_inv in H as [(e & -> & -> & _)|H].
  { exists {| seg_start := mi; seg_parser := None; seg_model := [];
              seg_tool := None |}.
    unfold segment_emitted. simpl. by rewrite app_nil_r. }
  destruct H as (model & tools & fd & raw1 & fmt & r & w0 & res & w2
                 & Hres & Hfmt & Hbegin & Hdisp & Hend).
  destruct (begin_turn_spec augment_with_context model raw1 mi mw w)
    as (r' & w0' & Hbegin' & Hframe & _ & _ & Hem0 & _).
  rewrite Hbegin in Hbegin'. inversion Hbegin'; subst r' w0'. clear Hbegin'.
  match type of Hdisp with dispatch_from _ _ _ ?c ?rq ?cx ?w1 = _ =>
    assert (Hs : streaming fmt mi (w_emitted w) w1);
    [|apply (dispatch_from_streaming model true fmt eq_refl mi (w_emitted w)
               c rq cx w1) in Hs]
  end.
  { unfold streaming. simpl. rewrite Hframe, Hem0. simpl.
    by rewrite app_nil_r. }
  rewrite Hdisp in Hs. simpl in Hs.
  pose proof Hs as (_ & _ & Hem2).
  set (cs := prev_chunks (w_frame w2)) in *.
  destruct res as [model_response|e].
  - pose proof (end_turn_emitted _ _ _ _ _ _ _ _ _ _ _ Hs Hend) as Hlast.
    fold cs in Hlast.
    destruct out as [[response|next mi' ct']|e].
    + exists {| seg_start := mi; seg_parser := fmt; seg_model := cs;
                seg_tool := None |}.
      unfold segment_emitted. simpl. rewrite app_nil_r. split_and!; try done.
      congruence.
    + destruct Hlast as (t & Hrole & Hem & ->).
      exists {| seg_start := mi; seg_parser := fmt; seg_model := cs;
                seg_tool := Some t |}.
      unfold segment_emitted, next_start, tool_index. simpl.
      rewrite Hem, Hem2, <- app_assoc. split_and!; try done.
      by intros t' [= <-].
    + exists {| seg_start := mi; seg_parser := fmt; seg_model := cs;
                seg_tool := None |}.
      unfold segment_emitted. simpl. rewrite app_nil_r. split_and!; try done.
      congruence.
  - destruct Hend as [-> ->].
    exists {| seg_start := mi; seg_parser := fmt; seg_model := cs;
              seg_tool := None |}.
    unfold segment_emitted. simpl. rewrite app_nil_r. by split_and!.
Qed.

(** What a whole run that streams hands to the callback: the segments of
    its turns, one after the other. *)
Lemma Run_segments registry raw_request mi ct mw ctx w res w' :
  Run' registry true raw_request mi ct mw ctx w res w' ->
  exists segs,
    w_emitted w' = w_emitted w ++ concat (segment_emitted <$> segs) /\
    chained mi segs.
Proof.
  induction 1 as [raw_request mi ct mw ctx w response w' Hturn
                 |raw_request mi ct mw ctx w e w' Hturn
                 |raw_request mi ct mw ctx w next mi' ct' w1 res w' Hturn Hrun IH].
  1,2: apply generate_action_turn_emitted in Hturn
         as (seg & Hstart & Hem & Hrole & Hnone);
       exists [seg]; simpl; rewrite app_nil_r; by split_and!.
  apply generate_action_turn_emitted in Hturn
    as (seg & Hstart & Hem & Hrole & Htool & ->).
  destruct IH as (segs & Hem' & Hchain).
  exists (seg :: segs). simpl. rewrite Hem', Hem, <- app_assoc.
  by split_and!.
Qed.

(** Two turns in a row from index 0, the first with two model chunks and
    the tool chunk, the second with one model chunk: the roles are
    [model, model, tool, model] and the indices [0, 0, 1, 2]. *)
Lemma chained_two_turns_indices s1 s2 :
  chained 0 [s1; s2] ->
  length (seg_model s1) = 2%nat ->
  length (seg_model s2) = 1%nat ->
  seg_tool s2 = None ->
  cw_index <$> concat (segment_emitted <$> [s1; s2]) = [0; 0; 1; 2].
Proof.
  destruct s1 as [start1 parser1 model1 tool1].
  destruct s2 as [start2 parser2 model2 tool2].
  unfold segment_emitted, next_start, tool_index. simpl.
  intros (-> & _ & Htool & -> & _) Hlen1 Hlen2 ->.
  destruct Htool as [t ->]; [done|].
  destruct model1 as [|c1 [|c2 [|]]]; try discriminate Hlen1.
  destruct model2 as [|c3 [|]]; try discriminate Hlen2.
  reflexivity.
Qed.

(** C3, as the code has it: the chunks handed to the callback come turn by
    turn. Within a turn the index does not move from one model chunk to the
    next, and the tool chunk that closes a turn which goes on has the index
    of the model chunk before it plus one. The history and the last role
    start afresh in every turn ([chained]): the next turn starts at the index
    of the tool chunk plus one, and a tool chunk that is the first chunk of
    its turn keeps the index the turn started with. So the roles
    [model, model, tool, model], the last chunk on the next turn, get the
    indices [0, 0, 1, 2]. *)
Theorem C3_chunk_index_turn_by_turn registry raw_request mi ct mw ctx w fuel :
  (Z.to_nat (effective_max_turns raw_request - ct) < fuel)%nat ->
  exists res w' segs,
    generate_action' fuel registry raw_request true mi ct mw ctx w
      = Some (res, w') /\
    w_emitted w' = w_emitted w ++ concat (segment_emitted <$> segs) /\
    chained mi segs /\
    (forall seg, seg ∈ segs ->
      forall i c1 c2,
        segment_emitted seg !! i = Some c1 ->
        segment_emitted seg !! S i = Some c2 ->
        ((S i < length (seg_model seg))%nat -> cw_index c2 = cw_index c1) /\
        (S i = length (seg_model seg) ->
         seg_tool seg = Some (cw_chunk c2) /\ cw_index c2 = cw_index c1 + 1)) /\
    (forall s1 s2,
       mi = 0 -> segs = [s1; s2] ->
       length (seg_model s1) = 2%nat -> length (seg_model s2) = 1%nat ->
       seg_tool s2 = None ->
       cw_index <$> concat (segment_emitted <$> segs) = [0; 0; 1; 2]).
Proof.
  intros Hfuel.
  destruct (generate_action_terminates inject_instructions augment_with_context
              assert_valid assert_valid_schema dump_dict fuel registry
              raw_request true mi ct mw ctx w Hfuel) as (res & w' & Hgen).
  apply generate_action_Run in Hgen as Hrun.
  apply Run_segments in Hrun as (segs & Hem & Hchain).
  exists res, w', segs. split_and!; [done|done|done| |].
  2: { intros s1 s2 -> -> Hlen1 Hlen2 Hnone.
       by apply chained_two_turns_indices. }
  intros seg _ i c1 c2 H1 H2.
  apply segment_emitted_lookup in H1 as [(Hlt1 & Hi1 & _)|(Hi1 & _)];
    apply segment_emitted_lookup in H2 as [(Hlt2 & Hi2 & _)|(Hi2 & Ht2 & Hx2 & _)].
  - split; [intros _; congruence|intros; lia].
  - split; [intros; lia|]. intros _. split; [done|].
    rewrite Hx2, Hi1. unfold tool_index.
    destruct (seg_model seg); [simpl in *; lia|done].
  - exfalso; lia.
  - exfalso; lia.
Qed.

(** C8, as the code has it: [prev_chunks] and [chunk_role] are locals of
    one call of [generate_action], so they last one turn. The history a chunk
    carries is the list of the chunks handed to the callback before it in the
    same turn; the first chunk of every turn carries an empty history. Only
    the message index goes from one turn to the next ([chained]). *)
Theorem C8_chunk_history_is_per_turn registry raw_request mi ct mw ctx w fuel :
  (Z.to_nat (effective_max_turns raw_request - ct) < fuel)%nat ->
  exists res w' segs,
    generate_action' fuel registry raw_request true mi ct mw ctx w
      = Some (res, w') /\
    w_emitted w' = w_emitted w ++ concat (segment_emitted <$> segs) /\
    chained mi segs /\
    forall seg, seg ∈ segs ->
      forall i c,
        segment_emitted seg !! i = Some c ->
        cw_previous_chunks c = cw_chunk <$> take i (segment_emitted seg).
Proof.
  intros Hfuel.
  destruct (generate_action_terminates inject_instructions augment_with_context
              assert_valid assert_valid_schema dump_dict fuel registry
              raw_request true mi ct mw ctx w Hfuel) as (res & w' & Hgen).
  apply generate_action_Run in Hgen as Hrun.
  apply Run_segments in Hrun as (segs & Hem & Hchain).
  exists res, w', segs. split_and!; [done|done|done|].
  intros seg _ i c H.
  rewrite fmap_take, segment_emitted_chunks.
  apply segment_emitted_lookup in H as [(Hlt & _ & _ & ->)|(-> & _ & _ & ->)].
  - by rewrite take_app_le by lia.
  - by rewrite take_app_length.
Qed.
End OneTurn.

(** * The statements at concrete inputs *)

Lemma with_note_transparent note : transparent (Scenario.with_note note).
Proof. intros req ctx. eexists _, _. split; reflexivity. Defined.

(** C1 at [max_turns = 1] with a model that asks for a tool on every call:
    at most two turns and at most two model calls. *)
Lemma C1_at_most_max_turns_plus_one_model_calls_witness :
  exists res w' ds calls,
    Scenario.run 5%nat
      (Scenario.registry_of Scenario.insisting_model [Scenario.weather_tool] [])
      (Scenario.request_with (Some ["getWeather"]) None (Some 1))
      false 0 0 None None (initial_world []) = Some (res, w') /\
    w_dispatched w' = ds /\ Z.of_nat (length ds) <= 2 /\
    w_model_calls w' = calls /\ Z.of_nat (length calls) <= 2.
Proof.
  destruct (C1_at_most_max_turns_plus_one_model_calls
              Scenario.keep_messages (Scenario.with_note "context")
              Scenario.always_valid Scenario.always_valid Scenario.same_json
              (Scenario.registry_of Scenario.insisting_model
                 [Scenario.weather_tool] [])
              (Scenario.request_with (Some ["getWeather"]) None (Some 1))
              false 0 None None (initial_world []) 5%nat)
    as (res & w' & ds & Hrun & Hds & Hlen & Hcalls).
  - vm_compute. lia.
  - destruct Hcalls as (calls & Hcalls & Hlenc & _).
    + apply with_note_transparent.
    + constructor.
    + exists res, w', ds, calls. split; [exact Hrun|]. split; [exact Hds|].
      split; [exact Hlen|]. split; [exact Hcalls|exact Hlenc].
Defined.

(** C1 as stated fails: with [max_turns = 1] and a model that asks for a tool
    in its first reply, the tool is run and the model is called a second
    time; the error of status [ABORTED] comes after the second reply. *)
Lemma C1_second_model_call_at_max_turns_one :
  exists r m q w',
    Scenario.run 5%nat
      (Scenario.registry_of Scenario.insisting_model [Scenario.weather_tool] [])
      (Scenario.request_with (Some ["getWeather"]) None (Some 1))
      false 0 0 None None (initial_world [])
    = Some (Err (GenerationResponseError r m "ABORTED" q), w') /\
    effective_max_turns
      (Scenario.request_with (Some ["getWeather"]) None (Some 1)) = 1 /\
    length (w_model_calls w') = 2%nat /\
    length (w_tool_calls w') = 1%nat.
Proof.
  eexists _, _, _, _. split; [vm_compute; reflexivity|].
  split_and!; reflexivity.
Qed.

(** C3 at a model that streams two chunks, asks for a tool, and streams one
    more chunk on the next turn: the roles [model, model, tool, model] get
    the indices [0, 0, 1, 2]. *)
Lemma C3_chunk_index_turn_by_turn_witness :
  exists res w' segs,
    Scenario.run 7%nat
      (Scenario.registry_of Scenario.weather_model [Scenario.weather_tool] [])
      (Scenario.request_with (Some ["getWeather"]) None None)
      true 0 0 None None (initial_world []) = Some (res, w') /\
    w_emitted w' = concat (segment_emitted <$> segs) /\
    chained 0 segs /\
    (fun c => (ch_role (cw_chunk c), cw_index c)) <$> w_emitted w'
    = [(Some RoleModel, 0); (Some RoleModel, 0); (Some RoleTool, 1);
       (Some RoleModel, 2)].
Proof.
  destruct (C3_chunk_index_turn_by_turn
              Scenario.keep_messages (Scenario.with_note "context")
              Scenario.always_valid Scenario.always_valid Scenario.same_json
              (Scenario.registry_of Scenario.weather_model
                 [Scenario.weather_tool] [])
              (Scenario.request_with (Some ["getWeather"]) None None)
              0 0 None None (initial_world []) 7%nat)
    as (res & w' & segs & Hrun & Hem & Hchain & _ & _).
  - vm_compute. lia.
  - exists res, w', segs. split; [exact Hrun|]. split; [exact Hem|].
    split; [exact Hchain|].
    vm_compute in Hrun. injection Hrun as _ <-. reflexivity.
Defined.

(** C3 as stated fails: when the second turn streams no model chunk, its tool
    chunk follows the tool chunk of the first turn, and its index is one
    higher although the role is the same. *)
Lemma C3_index_moves_between_two_tool_chunks :
  exists res w',
    Scenario.run 7%nat
      (Scenario.registry_of Scenario.quiet_model [Scenario.weather_tool] [])
      (Scenario.request_with (Some ["getWeather"]) None None)
      true 0 0 None None (initial_world []) = Some (res, w') /\
    (fun c => (ch_role (cw_chunk c), cw_index c)) <$> w_emitted w'
    = [(Some RoleModel, 0); (Some RoleTool, 1); (Some RoleTool, 2)].
Proof. eexists _, _. split; [vm_compute; reflexivity|reflexivity]. Qed.

(** C5 at a request with docs, a model that declares no context support and
    one middleware of the caller's: the context middleware comes second. *)
Lemma C5_context_middleware_is_appended_witness :
  exists res w' d later,
    Scenario.run 7%nat
      (Scenario.registry_of Scenario.answering_model [Scenario.weather_tool] [])
      (Scenario.request_with (Some ["getWeather"]) (Some [Scenario.a_document])
         None)
      false 0 0 (Some 0%nat) None
      (initial_world [[Scenario.with_note "caller"]]) = Some (res, w') /\
    w_dispatched w' = d :: later /\
    dp_middleware d
    = [Scenario.with_note "caller"; Scenario.with_note "context"].
Proof.
  destruct (C5_context_middleware_is_appended
              Scenario.keep_messages (Scenario.with_note "context")
              Scenario.always_valid Scenario.always_valid Scenario.same_json
              (Scenario.registry_of Scenario.answering_model [Scenario.weather_tool] [])
              (Scenario.request_with (Some ["getWeather"])
                 (Some [Scenario.a_document]) None)
              false 0 0 (Some 0%nat) None
              (initial_world [[Scenario.with_note "caller"]]) 7%nat
              Scenario.answering_model [Scenario.weather_tool] None)
    as (res & w' & d & later & Hrun & Hd & Hyes & _).
  - reflexivity.
  - vm_compute. lia.
  - exists res, w', d, later. split; [exact Hrun|]. split; [exact Hd|].
    exact (Hyes eq_refl eq_refl).
Defined.

(** C5 as stated fails: the context middleware is not prepended. With one
    middleware of the caller's the list is [caller; context], not
    [context; caller], and the model sees the note of the context middleware
    in front of the caller's: the context middleware ran last. *)
Lemma C5_context_middleware_is_not_prepended :
  exists res w' d,
    Scenario.run 7%nat
      (Scenario.registry_of Scenario.answering_model [Scenario.weather_tool] [])
      (Scenario.request_with (Some ["getWeather"]) (Some [Scenario.a_document])
         None)
      false 0 0 (Some 0%nat) None
      (initial_world [[Scenario.with_note "caller"]]) = Some (res, w') /\
    w_dispatched w' = [d] /\
    dp_middleware d
    = [Scenario.with_note "caller"; Scenario.with_note "context"] /\
    dp_middleware d
    <> [Scenario.with_note "context"; Scenario.with_note "caller"] /\
    (fun c => req_messages (mc_input c)) <$> w_model_calls w'
    = [[Scenario.text_message RoleSystem "context";
        Scenario.text_message RoleSystem "caller";
        Scenario.text_message RoleUser "What is the weather?"]].
Proof.
  eexists _, _, _. split; [vm_compute; reflexivity|].
  split; [reflexivity|]. split; [reflexivity|]. split; [|reflexivity].
  simpl. intros Heq. injection Heq as Heq _.
  apply (f_equal (fun m : ModelMiddleware =>
                    m (action_to_generate_request
                         (Scenario.request_with None None None) []
                         Scenario.answering_model)
                      {| arc_on_chunk := None; arc_context := None |})) in Heq.
  discriminate Heq.
Qed.



(** C7 at a message that asks for [getWeather] and then for [getTime], which
    is not among the tools of the request: [getWeather] is run, [getTime] is
    not, and the call fails on [getTime]. *)
Lemma C7_unknown_tool_request_fails_witness :
  exists w',
    resolve_tool_requests Scenario.same_json
      (Scenario.registry_of Scenario.answering_model [Scenario.weather_tool] [])
      (Scenario.request_with (Some ["getWeather"]) None None)
      (Scenario.calling ["getWeather"; "getTime"]) (initial_world [])
    = (Err (RuntimeError "failed getTime not found"), w') /\
    tc_request <$> w_tool_calls w' = [Scenario.tool_call "getWeather"].
Proof.
  destruct (C7_unknown_tool_request_fails Scenario.same_json
              (Scenario.registry_of Scenario.answering_model [Scenario.weather_tool] [])
              (Scenario.request_with (Some ["getWeather"]) None None)
              (Scenario.calling ["getWeather"; "getTime"]) ["getWeather"]
              (Scenario.tool_call "getTime") (initial_world []))
    as (e & w' & served & Hrun & Hcalls & _ & Hfirst).
  - reflexivity.
  - simpl. apply list_elem_of_In. right. left. reflexivity.
  - intros Hin. apply list_elem_of_In in Hin. destruct Hin as [Heq|[]].
    discriminate Heq.
  - destruct (Hfirst [Scenario.tool_call "getWeather"] []
                [ToolResponsePart
                   {| tresp_name := "getWeather"; tresp_ref := Some "ref-1";
                      tresp_output := JObj [("tempC", JNum 20)] |}]
                (log_tool_call
                   {| tc_tool := "getWeather";
                      tc_request := Scenario.tool_call "getWeather" |}
                   (initial_world [])))
      as (-> & _ & Hserved).
    + reflexivity.
    + vm_compute. reflexivity.
    + exists w'. split; [exact Hrun|]. rewrite Hcalls. exact Hserved.
Defined.

(** C8 at the model that streams two chunks, asks for a tool and streams one
    more chunk on the next turn: the histories have the lengths 0, 1, 2 and,
    on the second turn, 0 again. *)
Lemma C8_chunk_history_is_per_turn_witness :
  exists res w' segs,
    Scenario.run 7%nat
      (Scenario.registry_of Scenario.weather_model [Scenario.weather_tool] [])
      (Scenario.request_with (Some ["getWeather"]) None None)
      true 0 0 None None (initial_world []) = Some (res, w') /\
    w_emitted w' = concat (segment_emitted <$> segs) /\
    chained 0 segs.
Proof.
  destruct (C8_chunk_history_is_per_turn
              Scenario.keep_messages (Scenario.with_note "context")
              Scenario.always_valid Scenario.always_valid Scenario.same_json
              (Scenario.registry_of Scenario.weather_model
                 [Scenario.weather_tool] [])
              (Scenario.request_with (Some ["getWeather"]) None None)
              0 0 None None (initial_world []) 7%nat)
    as (res & w' & segs & Hrun & Hem & Hchain & _).
  - vm_compute. lia.
  - exists res, w', segs. split; [exact Hrun|]. split; [exact Hem|].
    exact Hchain.
Defined.

(** C8 as stated fails: the chunk streamed on the second turn is the fourth
    handed to the callback, and its history is empty. *)
Lemma C8_history_is_empty_on_the_next_turn :
  exists res w' c,
    Scenario.run 7%nat
      (Scenario.registry_of Scenario.weather_model [Scenario.weather_tool] [])
      (Scenario.request_with (Some ["getWeather"]) None None)
      true 0 0 None None (initial_world []) = Some (res, w') /\
    length (w_model_calls w') = 2%nat /\
    length (w_emitted w') = 4%nat /\
    w_emitted w' !! 3%nat = Some c /\
    cw_chunk c = Scenario.model_chunk "It's 20C." /\
    cw_index c = 2 /\
    cw_previous_chunks c = [].
Proof.
  eexists _, _, _. split; [vm_compute; reflexivity|].
  split_and!; reflexivity.
Qed.

(** C9 at a request with docs, a caller's middleware and a caller's context,
    and a model without context support that asks for a tool once: the
    second dispatch has no context and the context middleware alone. *)
Lemma C9_later_turns_drop_middleware_and_context_witness :
  exists res w' d later,
    Scenario.run 7%nat
      (Scenario.registry_of Scenario.weather_model [Scenario.weather_tool] [])
      (Scenario.request_with (Some ["getWeather"]) (Some [Scenario.a_document])
         None)
      false 0 0 (Some 0%nat) (Some (JStr "auth"))
      (initial_world [[Scenario.with_note "caller"]]) = Some (res, w') /\
    w_dispatched w' = d :: later /\
    dp_context d = Some (JStr "auth") /\
    Forall (fun d' => dp_context d' = None /\
                      dp_middleware d' = [Scenario.with_note "context"]) later.
Proof.
  destruct (C9_later_turns_drop_middleware_and_context
              Scenario.keep_messages (Scenario.with_note "context")
              Scenario.always_valid Scenario.always_valid Scenario.same_json
              (Scenario.registry_of Scenario.weather_model
                 [Scenario.weather_tool] [])
              (Scenario.request_with (Some ["getWeather"])
                 (Some [Scenario.a_document]) None)
              false 0 0 (Some 0%nat) (Some (JStr "auth"))
              (initial_world [[Scenario.with_note "caller"]]) 7%nat
              Scenario.weather_model [Scenario.weather_tool] None)
    as (res & w' & d & later & Hrun & Hd & Hctx & Hlater).
  - reflexivity.
  - vm_compute. lia.
  - exists res, w', d, later. split; [exact Hrun|]. split; [exact Hd|].
    split; [exact Hctx|exact Hlater].
Defined.

(** C9 as stated fails: the chain of the second dispatch is not empty. It
    holds the context middleware, and the model's second input starts with
    the note of that middleware. *)
Lemma C9_second_dispatch_has_context_middleware :
  exists res w' d1 d2,
    Scenario.run 7%nat
      (Scenario.registry_of Scenario.weather_model [Scenario.weather_tool] [])
      (Scenario.request_with (Some ["getWeather"]) (Some [Scenario.a_document])
         None)
      false 0 0 (Some 0%nat) (Some (JStr "auth"))
      (initial_world [[Scenario.with_note "caller"]]) = Some (res, w') /\
    w_dispatched w' = [d1; d2] /\
    dp_middleware d2 = [Scenario.with_note "context"] /\
    dp_middleware d2 <> [] /\
    dp_context d2 = None /\
    (fun c => head (req_messages (mc_input c))) <$> w_model_calls w'
    = [Some (Scenario.text_message RoleSystem "context");
       Some (Scenario.text_message RoleSystem "context")] /\
    mc_context <$> w_model_calls w' = [Some (JStr "auth"); None].
Proof.
  eexists _, _, _, _. split; [vm_compute; reflexivity|].
  split_and!; try reflexivity. discriminate.
Qed.

(** C10 at a caller's list of one middleware, a request with docs and a
    model without context support: after the call the caller's list holds
    the context middleware too. *)
Lemma C10_caller_list_is_appended_in_place_witness :
  exists res w',
    Scenario.run 7%nat
      (Scenario.registry_of Scenario.answering_model [Scenario.weather_tool] [])
      (Scenario.request_with (Some ["getWeather"]) (Some [Scenario.a_document])
         None)
      false 0 0 (Some 0%nat) None
      (initial_world [[Scenario.with_note "caller"]]) = Some (res, w') /\
    w_store w' !! 0%nat
    = Some [Scenario.with_note "caller"; Scenario.with_note "context"].
Proof.
  destruct (C10_caller_list_is_appended_in_place
              Scenario.keep_messages (Scenario.with_note "context")
              Scenario.always_valid Scenario.always_valid Scenario.same_json
              (Scenario.registry_of Scenario.answering_model [Scenario.weather_tool] [])
              (Scenario.request_with (Some ["getWeather"])
                 (Some [Scenario.a_document]) None)
              false 0 0 0%nat None
              (initial_world [[Scenario.with_note "caller"]]) 7%nat
              [Scenario.with_note "caller"])
    as (res & w' & Hrun & Hyes & _).
  - reflexivity.
  - vm_compute. lia.
  - exists res, w'. split; [exact Hrun|].
    apply (Hyes Scenario.answering_model [Scenario.weather_tool] None); try reflexivity.
    discriminate.
Defined.

(** * Further properties of the code *)

(** ** Tool names, further *)

Lemma str_contains_append_cons c pre s :
  str_contains c (pre +:+ String c s) = true.
Proof.
  induction pre as [|a pre IH]; simpl.
  - by rewrite Ascii.eqb_refl.
  - by destruct (Ascii.eqb a c).
Qed.

(** A string has one way only of being cut at its last [c]. *)
Lemma last_segment_unique c pre1 s1 pre2 s2 :
  pre1 +:+ String c s1 = pre2 +:+ String c s2 ->
  str_contains c s1 = false -> str_contains c s2 = false ->
  s1 = s2.
Proof.
  revert pre2. induction pre1 as [|a pre1 IH]; intros [|b pre2] Heq H1 H2.
  - by injection Heq.
  - injection Heq as _ ->. by rewrite str_contains_append_cons in H1.
  - injection Heq as _ <-. by rewrite str_contains_append_cons in H2.
  - injection Heq as _ Heq. by eapply IH.
Qed.

(** X1: the tool definition made from an action always lets the registered
    name of the action be recovered: it is the [originalName] of the metadata
    when the definition has metadata, and the exposed name otherwise. *)
Theorem to_tool_definition_registered_name (tool : Action) :
  registered_name (to_tool_definition tool) = act_name tool.
Proof.
  unfold registered_name, to_tool_definition. simpl.
  case_decide as Hne; simpl; [by rewrite lookup_singleton_eq|].
  by symmetry.
Qed.

(** X2: the name a tool is exposed under never holds a path separator; a
    registered name without one is exposed unchanged, with no metadata. *)
Theorem to_tool_definition_name_has_no_slash (tool : Action) :
  str_contains slash (td_name (to_tool_definition tool)) = false /\
  (str_contains slash (act_name tool) = false ->
   td_name (to_tool_definition tool) = act_name tool /\
   td_metadata (to_tool_definition tool) = None).
Proof.
  destruct (str_contains slash (act_name tool)) eqn:Hs.
  - destruct (to_tool_definition_namespaced tool Hs) as (pre & _ & Hno & _).
    by split.
  - unfold to_tool_definition. simpl. rewrite Hs.
    split; [done|]. intros _. split; [done|]. by rewrite decide_False by auto.
Qed.

(** X3: a registered name [pre/segment] whose [segment] holds no path
    separator is exposed as [segment], whatever [pre] is (it may hold
    separators of its own), with the full name under [originalName]; so two
    tools registered under different prefixes and the same last segment are
    exposed under the same name. *)
Theorem to_tool_definition_last_segment (tool : Action) pre segment :
  act_name tool = pre +:+ "/" +:+ segment ->
  str_contains slash segment = false ->
  td_name (to_tool_definition tool) = segment /\
  td_metadata (to_tool_definition tool)
    = Some {[ "originalName" := pre +:+ "/" +:+ segment ]}.
Proof.
  intros Hname Hseg.
  assert (Hs : str_contains slash (act_name tool) = true).
  { rewrite Hname. apply (str_contains_append_cons slash pre segment). }
  destruct (to_tool_definition_namespaced tool Hs) as (pre' & Hsplit & Hno & Hmd).
  rewrite Hmd, Hname. split; [|done].
  rewrite Hname in Hsplit.
  symmetry. by eapply (last_segment_unique slash pre segment pre').
Qed.

(** ** The parameter resolver: [resolve_parameters] *)

Lemma resolve_tools_ok registry names acc tools :
  resolve_tools registry names acc = Ok tools <->
  exists resolved,
    tools = acc ++ resolved /\
    Forall2 (fun name tool => lookup_action registry TOOL name = Some tool)
            names resolved.
Proof.
  revert acc. induction names as [|n names IH]; intros acc; simpl.
  - split.
    + intros [= <-]. exists []. by rewrite app_nil_r.
    + intros (resolved & -> & ->%Forall2_nil_inv_l). by rewrite app_nil_r.
  - destruct (lookup_action registry TOOL n) as [t|] eqn:Hn.
    + rewrite IH. split.
      * intros (resolved & -> & Hall). exists (t :: resolved).
        rewrite <- app_assoc. split; [done|]. by constructor.
      * intros (resolved & -> & Hall).
        apply Forall2_cons_inv_l in Hall as (t' & rest & Ht & Hrest & ->).
        exists rest. rewrite <- app_assoc. split; [|done]. simpl. congruence.
    + split; [done|]. intros (resolved & _ & Hall).
      apply Forall2_cons_inv_l in Hall as (t' & rest & Ht & _). congruence.
Qed.

Lemma resolve_tools_first_unknown registry before n after acc :
  Forall (fun name => is_Some (lookup_action registry TOOL name)) before ->
  lookup_action registry TOOL n = None ->
  resolve_tools registry (before ++ n :: after) acc
  = Err (Exception ("Unable to resolve tool " +:+ n)).
Proof.
  intros Hall Hn. revert acc.
  induction Hall as [|b before [t Hb] _ IH]; intros acc; simpl.
  - by rewrite Hn.
  - rewrite Hb. apply IH.
Qed.

Lemma resolve_parameters_tools registry request model tools format_def :
  resolve_parameters registry request = Ok (model, tools, format_def) ->
  Forall2 (fun name tool => lookup_action registry TOOL name = Some tool)
          (default [] (opt_tools request)) tools.
Proof.
  unfold resolve_parameters.
  destruct (match opt_model request with Some m => Some m | None => _ end)
    as [[|a name]|]; [done| |done].
  destruct (lookup_action registry MODEL (String a name)); [|done].
  assert (Hout : forall ts : list Action,
            match opt_output request with
            | Some output =>
                if truthy_str (out_format output)
                then
                  match lookup_value registry "format"
                          (default "" (out_format output)) with
                  | None =>
                      Err (ValueError ("Unable to resolve format "
                                       +:+ default "" (out_format output)))
                  | Some fd => Ok (a0, ts, Some fd)
                  end
                else Ok (a0, ts, None)
            | None => Ok (a0, ts, None)
            end = Ok (model, tools, format_def) -> tools = ts).
  { intros ts H. destruct (opt_output request) as [o|]; [|by injection H].
    destruct (truthy_str (out_format o)); [|by injection H].
    destruct (lookup_value registry _ _); [|done]. by injection H. }
  destruct (truthy_list (opt_tools request)) eqn:Htl.
  - destruct (resolve_tools registry _ []) as [ts|e] eqn:Hts; [|done].
    apply resolve_tools_ok in Hts as (resolved & -> & Hall).
    intros ->%Hout. done.
  - intros ->%Hout. by destruct (opt_tools request) as [[|??]|].
Qed.

(** X4: when [resolve_parameters] succeeds, the model is the action
    registered under the model name of the request, or under the default
    model of the registry when the request names none; the tools are the
    actions registered under the names of [request.tools], one per name and
    in that order; and the format is the one registered under
    [request.output.format], or none when the request has no output or an
    empty format. *)
Theorem resolve_parameters_resolves_in_order registry request model tools
    format_def :
  resolve_parameters registry request = Ok (model, tools, format_def) ->
  (exists name,
     chosen_model registry request = Some name /\ name <> "" /\
     lookup_action registry MODEL name = Some model) /\
  Forall2 (fun name tool => lookup_action registry TOOL name = Some tool)
          (default [] (opt_tools request)) tools /\
  match format_def with
  | Some fd =>
      exists output format,
        opt_output request = Some output /\
        out_format output = Some format /\ format <> "" /\
        lookup_value registry "format" format = Some fd
  | None =>
      truthy_str (opt_output request ≫= out_format) = false
  end.
Proof.
  unfold resolve_parameters. fold (chosen_model registry request).
  destruct (chosen_model registry request) as [[|a name]|]; [done| |done].
  destruct (lookup_action registry MODEL (String a name)) as [m|] eqn:Hm;
    [|done].
  destruct (truthy_list (opt_tools request)) eqn:Htl.
  - destruct (resolve_tools registry _ []) as [ts|e] eqn:Hts; [|done].
    apply resolve_tools_ok in Hts as (resolved & -> & Hall). simpl.
    destruct (opt_output request) as [o|] eqn:Ho; simpl.
    + destruct (out_format o) as [[|b f]|] eqn:Hf; simpl.
      * intros [= <- <- <-]. by split_and!; [eexists; split_and!|..].
      * destruct (lookup_value registry "format" (String b f)) eqn:Hl; [|done].
        intros [= <- <- <-]. split_and!; [by eexists; split_and!|done|].
        by exists o, (String b f).
      * intros [= <- <- <-]. by split_and!; [eexists; split_and!|..].
    + intros [= <- <- <-]. by split_and!; [eexists; split_and!|..].
  - assert (Hnil : default [] (opt_tools request) = []).
    { by destruct (opt_tools request) as [[|??]|]. }
    rewrite Hnil.
    destruct (opt_output request) as [o|] eqn:Ho; simpl.
    + destruct (out_format o) as [[|b f]|] eqn:Hf; simpl.
      * intros [= <- <- <-]. split_and!; [by eexists; split_and!|constructor|done].
      * destruct (lookup_value registry "format" (String b f)) eqn:Hl; [|done].
        intros [= <- <- <-]. split_and!; [by eexists; split_and!|constructor|].
        by exists o, (String b f).
      * intros [= <- <- <-]. split_and!; [by eexists; split_and!|constructor|done].
    + intros [= <- <- <-]. split_and!; [by eexists; split_and!|constructor|done].
Qed.

(** X5: [resolve_parameters] raises ['No model configured.'] exactly when
    the model name it goes by is missing or empty: the request names no
    model and the registry has no default, or the name is the empty string.
    A request whose model is the empty string does not fall back to the
    default model. *)
Theorem resolve_parameters_no_model registry request :
  resolve_parameters registry request = Err (Exception "No model configured.")
  <-> truthy_str (chosen_model registry request) = false.
Proof.
  unfold resolve_parameters. fold (chosen_model registry request).
  destruct (chosen_model registry request) as [[|a name]|]; simpl; [done| |done].
  split; [|done].
  destruct (lookup_action registry MODEL (String a name)) as [m|]; [|done].
  destruct (if truthy_list (opt_tools request) then _ else _) as [ts|e] eqn:Hts.
  - destruct (opt_output request) as [o|]; [|done].
    destruct (truthy_str (out_format o)); [|done].
    by destruct (lookup_value registry _ _).
  - intros [= ->]. destruct (truthy_list (opt_tools request)); [|done].
    revert Hts. generalize (@nil Action).
    induction (default [] (opt_tools request)) as [|n names IH]; intros acc;
      simpl; [done|].
    destruct (lookup_action registry TOOL n); [apply IH|done].
Qed.

(** X6: with the model resolved, the first name of [request.tools] that
    the registry does not hold is the one reported, as ['Unable to resolve
    tool ...'], whatever comes after it and whatever the output asks for. *)
Theorem resolve_parameters_first_unknown_tool registry request name model
    before n after :
  chosen_model registry request = Some name -> name <> "" ->
  lookup_action registry MODEL name = Some model ->
  opt_tools request = Some (before ++ n :: after) ->
  Forall (fun name => is_Some (lookup_action registry TOOL name)) before ->
  lookup_action registry TOOL n = None ->
  resolve_parameters registry request
  = Err (Exception ("Unable to resolve tool " +:+ n)).
Proof.
  intros Hname Hne Hmodel Htools Hbefore Hn.
  unfold resolve_parameters. fold (chosen_model registry request).
  rewrite Hname. destruct name as [|a name]; [done|]. rewrite Hmodel, Htools.
  replace (truthy_list (Some (before ++ n :: after))) with true
    by (by destruct before).
  simpl. by rewrite resolve_tools_first_unknown.
Qed.

(** ** The format applier, further *)

Section FormatMore.
Variable inject_instructions : list Message -> option string -> list Message.

(** X7: [apply_format] raises in one case only, a format with a request
    that has no output, and then it raises [AttributeError]; after
    [resolve_parameters] has succeeded on the same request this cannot
    happen, since a format is resolved only from an output. *)
Theorem apply_format_fails_without_output raw_request format_def :
  (forall e,
     apply_format inject_instructions raw_request format_def = Err e ->
     e = AttributeError "'NoneType' object has no attribute 'constrained'") /\
  ((exists e, apply_format inject_instructions raw_request format_def = Err e)
   <-> is_Some format_def /\ opt_output raw_request = None) /\
  (forall registry model tools,
     resolve_parameters registry raw_request = Ok (model, tools, format_def) ->
     exists out_request formatter,
       apply_format inject_instructions raw_request format_def
       = Ok (out_request, formatter)).
Proof.
  split_and!.
  - unfold apply_format. destruct format_def as [fd|]; [|done].
    destruct (opt_output raw_request); [done|]. by intros e [= <-].
  - unfold apply_format. destruct format_def as [fd|].
    + destruct (opt_output raw_request) as [o|].
      * split; [by intros [e ?]|]. by intros [_ ?].
      * split; [done|]. intros _. by eexists.
    + split; [by intros [e ?]|]. by intros [[? ?] _].
  - intros registry model tools Hres.
    by eapply resolve_parameters_apply_format.
Qed.

(** X8: [apply_format] changes the messages and the output of the request
    and nothing else, and within the output neither the schema nor the
    instructions. Without a format the request comes back as it is, with no
    formatter. With one, the formatter is the format called on the schema
    of the request; instructions are injected unless the format turns
    default instructions off and the request asks for none, and what is
    injected is what [resolve_instructions] gives. *)
Theorem apply_format_frame raw_request format_def out_request formatter :
  apply_format inject_instructions raw_request format_def
    = Ok (out_request, formatter) ->
  opt_model out_request = opt_model raw_request /\
  opt_tools out_request = opt_tools raw_request /\
  opt_tool_choice out_request = opt_tool_choice raw_request /\
  opt_config out_request = opt_config raw_request /\
  opt_docs out_request = opt_docs raw_request /\
  opt_return_tool_requests out_request = opt_return_tool_requests raw_request /\
  opt_max_turns out_request = opt_max_turns raw_request /\
  (opt_output out_request ≫= out_json_schema)
    = (opt_output raw_request ≫= out_json_schema) /\
  (out_instructions <$> opt_output out_request)
    = (out_instructions <$> opt_output raw_request) /\
  (format_def = None -> out_request = raw_request /\ formatter = None) /\
  (forall fd o,
     format_def = Some fd -> opt_output raw_request = Some o ->
     formatter = Some (fd_call fd (out_json_schema o)) /\
     (cfg_default_instructions (fd_config fd) = Some false ->
      truthy_instructions (out_instructions o) = false ->
      opt_messages out_request = opt_messages raw_request) /\
     (cfg_default_instructions (fd_config fd) <> Some false \/
      truthy_instructions (out_instructions o) = true ->
      opt_messages out_request
      = inject_instructions (opt_messages raw_request)
          (resolve_instructions formatter (out_instructions o)))).
Proof.
  unfold apply_format. destruct format_def as [fd|].
  - destruct (opt_output raw_request) as [o|] eqn:Ho; [|done].
    intros [= <- <-]. simpl. split_and!; try done.
    intros fd' o' [= <-] [= <-]. simpl. split_and!; [done| |].
    + intros -> ->. by rewrite bool_decide_true.
    + intros [Hne| ->].
      * by rewrite bool_decide_false.
      * by rewrite orb_true_r.
  - intros [= <- <-]. by split_and!.
Qed.
End FormatMore.

(** ** The tool-call resolver, further *)

Section ToolsMore.
Variable dump_dict : Json -> Json.

Lemma run_tool_requests_ok tool_dict trs parts w parts' w' :
  run_tool_requests dump_dict tool_dict trs parts w = (Ok parts', w') ->
  exists answered,
    parts' = parts ++ answered /\
    Forall2 (fun tr part => exists tool out,
               tool_dict !! treq_name tr = Some (Some tool) /\
               act_arun_raw tool (treq_input tr) = Done out /\
               part = response_part dump_dict tr out) trs answered /\
    exists calls,
      w_tool_calls w' = w_tool_calls w ++ calls /\
      Forall2 (fun tr c => tc_request c = tr /\
                 exists tool, tool_dict !! treq_name tr = Some (Some tool) /\
                              tc_tool c = act_name tool) trs calls.
Proof.
  revert parts w. induction trs as [|tr trs IH]; intros parts w H; simpl in H.
  - injection H as <- <-. exists []. rewrite app_nil_r. split; [done|].
    split; [constructor|]. exists []. rewrite app_nil_r. by split; [|constructor].
  - destruct (tool_dict !! treq_name tr) as [[tool|]|] eqn:Hd; [|done..].
    unfold bind, modify, lift in H.
    destruct (act_arun_raw tool (treq_input tr)) as [out|origin] eqn:Hrun;
      simpl in H; [|done].
    apply IH in H as (answered & -> & Hall & calls & Hcalls & Hc).
    exists (response_part dump_dict tr out :: answered). rewrite <- app_assoc.
    split; [done|]. split.
    + constructor; [|done]. by exists tool, out.
    + exists ({| tc_tool := act_name tool; tc_request := tr |} :: calls).
      simpl in Hcalls. rewrite Hcalls, <- app_assoc. split; [done|].
      constructor; [|done]. split; [done|]. by exists tool.
Qed.

Lemma run_tool_requests_err tool_dict trs parts w e w' :
  run_tool_requests dump_dict tool_dict trs parts w = (Err e, w') ->
  exists tr, tr ∈ trs /\
    match tool_dict !! treq_name tr with
    | None => e = RuntimeError ("failed " +:+ treq_name tr +:+ " not found")
    | Some None =>
        e = AttributeError "'NoneType' object has no attribute 'arun_raw'"
    | Some (Some tool) =>
        exists origin, act_arun_raw tool (treq_input tr) = Failed origin /\
                       e = ExternalError origin
    end.
Proof.
  revert parts w. induction trs as [|tr trs IH]; intros parts w H; simpl in H;
    [done|].
  destruct (tool_dict !! treq_name tr) as [[tool|]|] eqn:Hd.
  - unfold bind, modify, lift in H.
    destruct (act_arun_raw tool (treq_input tr)) as [out|origin] eqn:Hrun;
      simpl in H.
    + apply IH in H as (tr' & Hin & Htr'). exists tr'. split; [by right|done].
    + injection H as <- <-. exists tr. split; [left|]. rewrite Hd. by exists origin.
  - injection H as <- <-. exists tr. split; [left|]. by rewrite Hd.
  - injection H as <- <-. exists tr. split; [left|]. by rewrite Hd.
Qed.

Lemma resolve_tool_requests_parts registry request message w revised tool_msg
    preamble w' :
  resolve_tool_requests dump_dict registry request message w
    = (Ok (revised, tool_msg, preamble), w') ->
  msg_role tool_msg = RoleTool /\
  Forall2 (fun tr part => exists tool out,
             lookup_action registry TOOL (treq_name tr) = Some tool /\
             act_arun_raw tool (treq_input tr) = Done out /\
             part = response_part dump_dict tr out)
    (omap root_tool_request (msg_content message)) (msg_content tool_msg).
Proof.
  unfold resolve_tool_requests.
  destruct (opt_tools request) as [names|] eqn:Htools; [|done].
  unfold bind.
  destruct (run_tool_requests _ _ _ _ _) as [[parts|e] w1] eqn:Hrun; [|done].
  intros [= <- <- <- <-]. split; [done|].
  apply run_tool_requests_ok in Hrun as (answered & -> & Hall & _). simpl.
  eapply Forall2_impl; [exact Hall|]. intros tr part (tool & out & Hd & ? & ?).
  rewrite make_tool_dict_lookup in Hd. case_decide; [|done].
  exists tool, out. unfold resolve_tool in Hd. split_and!; congruence.
Qed.

(** X9: when [resolve_tool_requests] succeeds it gives no revised
    message and no preamble, and a message of role [tool] with one response
    part per tool request of the model's message, in the order of the
    requests: each carries the name and the ref of its request and the
    dumped output of the tool registered under that name, which is among
    [request.tools]; and the tools were run once each, in that order. *)
Theorem resolve_tool_requests_answers_in_order registry request message w
    revised tool_msg preamble w' :
  resolve_tool_requests dump_dict registry request message w
    = (Ok (revised, tool_msg, preamble), w') ->
  revised = None /\ preamble = None /\ msg_role tool_msg = RoleTool /\
  exists names calls,
    opt_tools request = Some names /\
    Forall2 (fun tr part => exists tool out,
               treq_name tr ∈ names /\
               lookup_action registry TOOL (treq_name tr) = Some tool /\
               act_arun_raw tool (treq_input tr) = Done out /\
               part = response_part dump_dict tr out)
      (omap root_tool_request (msg_content message)) (msg_content tool_msg) /\
    w_tool_calls w' = w_tool_calls w ++ calls /\
    Forall2 (fun tr c => tc_request c = tr /\
               exists tool,
                 lookup_action registry TOOL (treq_name tr) = Some tool /\
                 tc_tool c = act_name tool)
      (omap root_tool_request (msg_content message)) calls.
Proof.
  unfold resolve_tool_requests.
  destruct (opt_tools request) as [names|] eqn:Htools; [|done].
  unfold bind.
  destruct (run_tool_requests _ _ _ _ _) as [[parts|e] w1] eqn:Hrun; [|done].
  intros [= <- <- <- <-]. split_and!; [done..|].
  apply run_tool_requests_ok in Hrun as (answered & -> & Hall & calls & Hc & Hcs).
  exists names, calls. split; [done|]. simpl. split_and!; [|done|].
  - eapply Forall2_impl; [exact Hall|]. intros tr part (tool & out & Hd & ? & ?).
    rewrite make_tool_dict_lookup in Hd. case_decide; [|done].
    exists tool, out. split_and!; [done| |done..]. unfold resolve_tool in Hd. congruence.
  - eapply Forall2_impl; [exact Hcs|]. intros tr c (? & tool & Hd & ?).
    rewrite make_tool_dict_lookup in Hd. case_decide; [|done].
    split; [done|]. exists tool. unfold resolve_tool in Hd. split; congruence.
Qed.

(** X10: for a request whose parameters resolve, [resolve_tool_requests]
    fails in three ways only: [request.tools] is [None] (a [TypeError]); a
    tool request names a tool that is not among [request.tools] (the
    [RuntimeError] of line 519); or a tool that was run raised, and its
    exception goes through. It never meets an unresolved tool in its
    dictionary. *)
Theorem resolve_tool_requests_errors registry request message w e w' model
    tools format_def :
  resolve_parameters registry request = Ok (model, tools, format_def) ->
  resolve_tool_requests dump_dict registry request message w = (Err e, w') ->
  (opt_tools request = None /\
   e = TypeError "'NoneType' object is not iterable") \/
  (exists tr,
     tr ∈ omap root_tool_request (msg_content message) /\
     (treq_name tr ∉ default [] (opt_tools request)) /\
     e = RuntimeError ("failed " +:+ treq_name tr +:+ " not found")) \/
  (exists tr tool origin,
     tr ∈ omap root_tool_request (msg_content message) /\
     treq_name tr ∈ default [] (opt_tools request) /\
     lookup_action registry TOOL (treq_name tr) = Some tool /\
     act_arun_raw tool (treq_input tr) = Failed origin /\
     e = ExternalError origin).
Proof.
  intros Hres. unfold resolve_tool_requests.
  destruct (opt_tools request) as [names|] eqn:Htools;
    [|intros [= <- <-]; by left].
  intros H. right. unfold bind in H.
  destruct (run_tool_requests _ _ _ _ _) as [[parts|e1] w1] eqn:Hrun; [done|].
  injection H as <- <-.
  apply run_tool_requests_err in Hrun as (tr & Hin & Htr).
  rewrite make_tool_dict_lookup in Htr. simpl.
  case_decide as Hmem; [|left; by exists tr].
  right. unfold resolve_tool in Htr.
  apply resolve_parameters_tools in Hres as Hall.
  rewrite Htools in Hall. simpl in Hall.
  destruct (lookup_action registry TOOL (treq_name tr)) as [tool|] eqn:Hl.
  - destruct Htr as (origin & ? & ?). by exists tr, tool, origin.
  - exfalso. apply list_elem_of_lookup in Hmem as [i Hi].
    destruct (Forall2_lookup_l _ _ _ _ _ Hall Hi) as (t & _ & Ht). congruence.
Qed.
End ToolsMore.

(** ** One turn and the whole run, whatever the middleware do *)

Lemma filter_tool_requests_length (content : list Part) :
  length (filter (fun x => is_Some (root_tool_request x)) content)
  = length (omap root_tool_request content).
Proof.
  induction content as [|x content IH]; [done|].
  rewrite filter_cons. simpl.
  destruct (root_tool_request x) as [tr|] eqn:Hx; simpl.
  - f_equal. exact IH.
  - exact IH.
Qed.

Lemma call_model_silent model formatter req ctx w :
  w_emitted (call_model model false formatter req ctx w).2 = w_emitted w.
Proof.
  unfold call_model, bind, gets, modify, lift. simpl.
  destruct (arc_on_chunk ctx) as [[|]|]; simpl; try done.
  - destruct (reply_chunks _) as [|c cs]; simpl; [done|].
    unfold bind, wrap_chunks, bind, make_chunk, call_on_chunk, raise. simpl. done.
Qed.

Lemma dispatch_from_model_calls model on_chunk formatter chain req ctx w :
  exists calls,
    w_model_calls (dispatch_from model on_chunk formatter chain req ctx w).2
    = w_model_calls w ++ calls /\
    Forall (fun c => mc_model c = act_name model) calls.
Proof.
  apply (dispatch_from_keeps model on_chunk formatter
           (fun w' => exists calls,
              w_model_calls w' = w_model_calls w ++ calls /\
              Forall (fun c => mc_model c = act_name model) calls)).
  - intros req' ctx' w1 (calls & Hc & Hall). rewrite call_model_calls, Hc.
    eexists (calls ++ [_]). rewrite app_assoc. split; [done|].
    apply Forall_app. split; [done|]. by apply Forall_singleton.
  - exists []. by rewrite app_nil_r.
Qed.

Section TurnMore.
Variable inject_instructions : list Message -> option string -> list Message.
Variable augment_with_context : ModelMiddleware.
Variable assert_valid : GenerateResponseWrapper -> Outcome unit.
Variable assert_valid_schema : GenerateResponseWrapper -> Outcome unit.
Variable dump_dict : Json -> Json.

Local Abbreviation end_turn' :=
  (end_turn assert_valid assert_valid_schema dump_dict).
Local Abbreviation generate_action_turn' :=
  (generate_action_turn inject_instructions augment_with_context assert_valid
     assert_valid_schema dump_dict).
Local Abbreviation generate_action' :=
  (generate_action inject_instructions augment_with_context assert_valid
     assert_valid_schema dump_dict).
Local Abbreviation Run' :=
  (Run inject_instructions augment_with_context assert_valid
     assert_valid_schema dump_dict).

(** [end_turn], branch by branch. *)
Lemma end_turn_cases registry raw_request formatter request on_chunk
    current_turn model_response w out w' :
  end_turn' registry raw_request formatter request on_chunk current_turn
    model_response w = (out, w') ->
  let response := wrap_response model_response request formatter in
  (exists origin,
     assert_valid response = Failed origin /\
     out = Err (ExternalError origin) /\ w' = w)
  \/
  (assert_valid response = Done tt /\
   ((~ asks_for_tools (resp_message model_response) /\ w' = w /\
     out = match assert_valid_schema response with
           | Done _ => Ok (Return response)
           | Failed origin => Err (ExternalError origin)
           end)
    \/
    (asks_for_tools (resp_message model_response) /\
     truthy_bool (opt_return_tool_requests raw_request) = true /\
     out = Ok (Return response) /\ w' = w)
    \/
    (asks_for_tools (resp_message model_response) /\
     truthy_bool (opt_return_tool_requests raw_request) = false /\
     effective_max_turns raw_request < current_turn + 1 /\
     out = Err (GenerationResponseError response
                  ("Exceeded maximum tool call iterations ("
                   +:+ pretty (effective_max_turns raw_request) +:+ ")")
                  "ABORTED" request) /\
     w' = w)
    \/
    (asks_for_tools (resp_message model_response) /\
     truthy_bool (opt_return_tool_requests raw_request) = false /\
     current_turn + 1 <= effective_max_turns raw_request /\
     exists res w1,
       resolve_tool_requests dump_dict registry raw_request
         (resp_message model_response) w = (res, w1) /\
       match res with
       | Err e => out = Err e /\ w' = w1
       | Ok (_, tool_msg, _) =>
           out = Ok (Recurse
                       (with_messages raw_request
                          (opt_messages raw_request
                           ++ [resp_message model_response; tool_msg]))
                       (message_index (w_frame w') + 1) (current_turn + 1)) /\
           w_tool_calls w' = w_tool_calls w1 /\
           (on_chunk = false -> w' = w1) /\
           (on_chunk = true ->
            exists c,
              w_emitted w' = w_emitted w1 ++ [c] /\
              cw_chunk c = {| ch_role := Some (msg_role tool_msg);
                              ch_content := msg_content tool_msg |})
       end))).
Proof.
  intros H response. subst response.
  unfold end_turn, bind, lift, ret, raise, gets in H.
  rewrite filter_tool_requests_length in H. unfold asks_for_tools.
  change (rw_message (wrap_response model_response request formatter))
    with (resp_message model_response) in H.
  destruct (assert_valid _) as [[]|origin] eqn:Hvalid; simpl in H.
  2: { injection H as <- <-. left. by exists origin. }
  right. split; [done|].
  destruct (omap root_tool_request (msg_content (resp_message model_response)))
    as [|tr trs] eqn:Htrs; simpl in H.
  { rewrite orb_true_r in H. left.
    destruct (assert_valid_schema _); simpl in H; injection H as <- <-;
      by split_and!; [intros []|..]. }
  rewrite orb_false_r in H.
  destruct (truthy_bool (opt_return_tool_requests raw_request)) eqn:Hrtr;
    simpl in H.
  { injection H as <- <-. right. left. by split_and!. }
  fold (effective_max_turns raw_request) in H.
  destruct (_ >? _) eqn:Hcmp.
  { injection H as <- <-. right. right. left. split_and!; try done. lia. }
  right. right. right. split_and!; [done|done|lia|].
  match type of H with context [resolve_tool_requests ?d ?r ?q ?m ?w0] =>
    pose proof (resolve_tool_requests_result d r q m w0) as Hr;
    destruct (resolve_tool_requests d r q m w0)
      as [[[[revised tool_msg] pre]|e] w1] eqn:Hrun
  end.
  2: { injection H as <- <-. by eexists _, _. }
  destruct (Hr _ _ eq_refl) as (-> & -> & Hrole).
  eexists _, _. split; [done|]. simpl.
  destruct on_chunk; simpl in H; injection H as <- <-; split_and!; try done.
  intros _. by eexists.
Qed.

Lemma run_tool_requests_served tool_dict trs parts w res w' :
  run_tool_requests dump_dict tool_dict trs parts w = (res, w') ->
  exists calls,
    w_tool_calls w' = w_tool_calls w ++ calls /\
    Forall (fun c => exists tool,
              tool_dict !! treq_name (tc_request c) = Some (Some tool) /\
              tc_tool c = act_name tool) calls.
Proof.
  revert parts w. induction trs as [|tr trs IH]; intros parts w H; simpl in H.
  { injection H as <- <-. exists []. by rewrite app_nil_r. }
  destruct (tool_dict !! treq_name tr) as [[tool|]|] eqn:Hd.
  - unfold bind, modify, lift in H.
    destruct (act_arun_raw tool (treq_input tr)) as [out|origin]; simpl in H.
    + apply IH in H as (calls & Hc & Hall). simpl in Hc.
      eexists (_ :: calls). rewrite Hc, <- app_assoc. split; [done|].
      constructor; [|done]. by exists tool.
    + injection H as <- <-. eexists [_]. split; [done|].
      apply Forall_singleton. by exists tool.
  - injection H as <- <-. exists []. by rewrite app_nil_r.
  - injection H as <- <-. exists []. by rewrite app_nil_r.
Qed.

Lemma resolve_tool_requests_served registry request message w res w' :
  resolve_tool_requests dump_dict registry request message w = (res, w') ->
  exists calls,
    w_tool_calls w' = w_tool_calls w ++ calls /\
    Forall (serves_declared_tool registry request) calls.
Proof.
  unfold resolve_tool_requests.
  destruct (opt_tools request) as [names|] eqn:Htools.
  2: { intros [= <- <-]. exists []. by rewrite app_nil_r. }
  unfold bind.
  destruct (run_tool_requests _ _ _ _ _) as [[parts|e] w1] eqn:Hrun;
    intros [= <- <-];
    apply run_tool_requests_served in Hrun as (calls & Hc & Hall);
    exists calls; (split; [done|]);
    (eapply Forall_impl; [exact Hall|]); intros c (tool & Hd & Hn);
    rewrite make_tool_dict_lookup in Hd; (case_decide; [|done]);
    exists names, tool; unfold resolve_tool in Hd; split_and!; congruence.
Qed.

(** One turn, by its effects, whatever the middleware do. *)
Lemma generate_action_turn_effects registry raw_request on_chunk mi ct mw ctx w
    out w' :
  generate_action_turn' registry raw_request on_chunk mi ct mw ctx w
    = (out, w') ->
  (exists e,
     resolve_parameters registry raw_request = Err e /\ out = Err e /\ w' = w)
  \/
  (exists model tools format_def raw_request' formatter,
     resolve_parameters registry raw_request = Ok (model, tools, format_def) /\
     apply_format inject_instructions raw_request format_def
       = Ok (raw_request', formatter) /\
     (exists d, w_dispatched w' = w_dispatched w ++ [d]) /\
     (exists calls,
        w_model_calls w' = w_model_calls w ++ calls /\
        Forall (fun c => mc_model c = act_name model) calls) /\
     (on_chunk = false -> w_emitted w' = w_emitted w) /\
     (exists served,
        w_tool_calls w' = w_tool_calls w ++ served /\
        Forall (serves_declared_tool registry raw_request) served /\
        (truthy_bool (opt_return_tool_requests raw_request) = true ->
         served = []) /\
        (forall response, out = Ok (Return response) -> served = [])) /\
     match out with
     | Ok (Return response) =>
         assert_valid response = Done tt /\
         (~ asks_for_tools (rw_message response) ->
          assert_valid_schema response = Done tt) /\
         (asks_for_tools (rw_message response) ->
          truthy_bool (opt_return_tool_requests raw_request) = true) /\
         rw_request response
         = action_to_generate_request raw_request' tools model /\
         rw_message_parser response = formatter
     | Ok (Recurse next_request mi' ct') =>
         truthy_bool (opt_return_tool_requests raw_request) = false /\
         ct' = ct + 1 /\ ct + 1 <= effective_max_turns raw_request /\
         exists generated_msg tool_msg,
           asks_for_tools generated_msg /\
           next_request
           = with_messages raw_request'
               (opt_messages raw_request' ++ [generated_msg; tool_msg]) /\
           msg_role tool_msg = RoleTool /\
           Forall2 (fun tr part => exists tool out,
                      lookup_action registry TOOL (treq_name tr) = Some tool /\
                      act_arun_raw tool (treq_input tr) = Done out /\
                      part = response_part dump_dict tr out)
             (omap root_tool_request (msg_content generated_msg))
             (msg_content tool_msg)
     | Err _ => True
     end).
Proof.
  intros H.
  apply generate_action_turn_inv in H as [(e & -> & -> & Hwhy)|H].
  { destruct Hwhy as [Hres|(model & tools & fd & Hres & Hfmt)].
    - left. by exists e.
    - destruct (resolve_parameters_apply_format inject_instructions _ _ _ _ _
                  Hres) as (? & ? & ?). congruence. }
  destruct H as (model & tools & fd & raw1 & fmt & r & w0 & res & w2
                 & Hres & Hfmt & Hbegin & Hdisp & Hend).
  right. exists model, tools, fd, raw1, fmt. split; [done|]. split; [done|].
  destruct (begin_turn_spec augment_with_context model raw1 mi mw w)
    as (r' & w0' & Hbegin' & _ & Hcalls0 & Htools0 & Hem0 & Hdisp0 & _).
  rewrite Hbegin in Hbegin'. injection Hbegin' as <- <-.
  apply apply_format_keeps in Hfmt as Hkeep.
  destruct Hkeep as (Hmax & _ & _ & Htools & Hrtr).
  assert (HN : effective_max_turns raw1 = effective_max_turns raw_request).
  { unfold effective_max_turns. by rewrite Hmax. }
  assert (Hserves : forall c, serves_declared_tool registry raw1 c ->
                              serves_declared_tool registry raw_request c).
  { intros c (names & tool & ? & ?). exists names, tool. by rewrite <- Htools. }
  match type of Hdisp with dispatch_from _ _ _ ?c ?rq ?cx ?w1 = _ =>
    pose proof (dispatch_from_same_lists model on_chunk fmt c rq cx w1) as Hsame;
    pose proof (dispatch_from_model_calls model on_chunk fmt c rq cx w1)
      as (calls & Hcalls & Hall);
    pose proof (fun Hoff : on_chunk = false =>
      dispatch_from_keeps model on_chunk fmt
        (fun w' => w_emitted w' = w_emitted w) c rq cx w1
        (fun req' ctx' w'' Hw => eq_trans
           (eq_trans (f_equal (fun b => w_emitted
              (call_model model b fmt req' ctx' w'').2) Hoff)
              (call_model_silent model fmt req' ctx' w'')) Hw) Hem0) as Hquiet
  end.
  rewrite Hdisp in Hsame, Hcalls, Hquiet. simpl in Hsame, Hcalls, Hquiet.
  destruct Hsame as (_ & Hd2 & Ht2). simpl in Hd2, Ht2.
  rewrite Hcalls0 in Hcalls. rewrite Hdisp0 in Hd2. rewrite Htools0 in Ht2.
  destruct res as [model_response|e].
  2: { destruct Hend as [-> ->]. split_and!; [by eexists|by exists calls|done| |done].
       exists []. rewrite app_nil_r. by split_and!. }
  pose proof (end_turn_keeps assert_valid assert_valid_schema dump_dict
                registry raw1 fmt (action_to_generate_request raw1 tools model)
                on_chunk ct model_response w2) as Hk.
  rewrite Hend in Hk. simpl in Hk. destruct Hk as (_ & Hd3 & Hm3).
  split; [rewrite Hd3, Hd2; by eexists|].
  split; [rewrite Hm3; by exists calls|].
  apply end_turn_cases in Hend. simpl in Hend. rewrite HN, Hrtr in Hend.
  destruct Hend as [(origin & Hv & -> & ->)
                   |(Hv & [(Hno & -> & ->)
                          |[(Hyes & Hret & -> & ->)
                           |[(Hyes & Hret & Hlt & -> & ->)
                            |(Hyes & Hret & Hle & res & w3 & Hrun & Hout)]]])].
  - split_and!; [done| |done]. exists []. rewrite app_nil_r. by split_and!.
  - split_and!; [done| |].
    + exists []. rewrite app_nil_r. by split_and!.
    + destruct (assert_valid_schema _) as [[]|origin] eqn:Hschema; [|done].
      by split_and!.
  - split_and!; try done. exists []. rewrite app_nil_r. by split_and!.
  - split_and!; [done| |done]. exists []. rewrite app_nil_r. by split_and!.
  - pose proof (resolve_tool_requests_keeps dump_dict registry raw1
                  (resp_message model_response) w2) as Hk.
    rewrite Hrun in Hk. simpl in Hk. destruct Hk as (_ & Hem3 & _).
    apply resolve_tool_requests_served in Hrun as Hsv.
    destruct Hsv as (served & Hsv & Hserved).
    destruct res as [[[revised tool_msg] pre]|e].
    + destruct Hout as (-> & Htc & Hoff & _).
      apply resolve_tool_requests_parts in Hrun as (Hrole & Hans).
      split; [|split].
      * intros ->. rewrite (Hoff eq_refl), Hem3. by apply Hquiet.
      * exists served. rewrite Htc, Hsv, Ht2. split_and!; [done| |congruence|done].
        eapply Forall_impl; [exact Hserved|]. exact Hserves.
      * split_and!; [done|done|done|].
        exists (resp_message model_response), tool_msg. by split_and!.
    + destruct Hout as (-> & ->). split; [|split].
      * intros ->. rewrite Hem3. by apply Hquiet.
      * exists served. rewrite Hsv, Ht2. split_and!; [done| |congruence|done].
        eapply Forall_impl; [exact Hserved|]. exact Hserves.
      * done.
Qed.

End TurnMore.

Section RunMore.
Variable inject_instructions : list Message -> option string -> list Message.
Variable augment_with_context : ModelMiddleware.
Variable assert_valid : GenerateResponseWrapper -> Outcome unit.
Variable assert_valid_schema : GenerateResponseWrapper -> Outcome unit.
Variable dump_dict : Json -> Json.

Local Abbreviation generate_action_turn' :=
  (generate_action_turn inject_instructions augment_with_context assert_valid
     assert_valid_schema dump_dict).
Local Abbreviation generate_action' :=
  (generate_action inject_instructions augment_with_context assert_valid
     assert_valid_schema dump_dict).
Local Abbreviation Run' :=
  (Run inject_instructions augment_with_context assert_valid
     assert_valid_schema dump_dict).

(** What the request of the next turn keeps of the request of this one. *)
Lemma generate_action_turn_next_keeps registry raw_request on_chunk mi ct mw
    ctx w next_request mi' ct' w' :
  generate_action_turn' registry raw_request on_chunk mi ct mw ctx w
    = (Ok (Recurse next_request mi' ct'), w') ->
  opt_tools next_request = opt_tools raw_request /\
  opt_return_tool_requests next_request
    = opt_return_tool_requests raw_request /\
  effective_max_turns next_request = effective_max_turns raw_request /\
  opt_model next_request = opt_model raw_request /\
  truthy_bool (opt_return_tool_requests raw_request) = false /\
  ct' = ct + 1 /\ ct + 1 <= effective_max_turns raw_request.
Proof.
  intros H.
  apply generate_action_turn_effects in H as [(e & _ & ? & _)|H]; [done|].
  destruct H as (model & tools & fd & raw1 & fmt & _ & Hfmt & _ & _ & _ & _ & H).
  destruct H as (Hrtr & -> & Hle & gen & tool_msg & _ & -> & _).
  apply apply_format_keeps in Hfmt as (Hmax & _ & Hmodel & Htools & Hret).
  unfold effective_max_turns. simpl. rewrite Hmax. by split_and!.
Qed.

(** A run, by its effects, whatever the middleware do. *)
Lemma Run_effects registry on_chunk raw_request mi ct mw ctx w res w' :
  Run' registry on_chunk raw_request mi ct mw ctx w res w' ->
  (forall e, resolve_parameters registry raw_request = Err e ->
     res = Err e /\ w' = w) /\
  (exists ds,
     w_dispatched w' = w_dispatched w ++ ds /\
     Z.of_nat (length ds) <= Z.max 1 (effective_max_turns raw_request + 1 - ct) /\
     (truthy_bool (opt_return_tool_requests raw_request) = true ->
      (length ds <= 1)%nat)) /\
  (forall model tools format_def,
     resolve_parameters registry raw_request = Ok (model, tools, format_def) ->
     exists calls,
       w_model_calls w' = w_model_calls w ++ calls /\
       Forall (fun c => mc_model c = act_name model) calls) /\
  (on_chunk = false -> w_emitted w' = w_emitted w) /\
  (exists served,
     w_tool_calls w' = w_tool_calls w ++ served /\
     Forall (serves_declared_tool registry raw_request) served /\
     (truthy_bool (opt_return_tool_requests raw_request) = true ->
      served = [])) /\
  (forall response, res = Ok response ->
     assert_valid response = Done tt /\
     (~ asks_for_tools (rw_message response) ->
      assert_valid_schema response = Done tt) /\
     (asks_for_tools (rw_message response) ->
      truthy_bool (opt_return_tool_requests raw_request) = true)).
Proof.
  induction 1 as [raw_request mi ct mw ctx w response w' Hturn
                 |raw_request mi ct mw ctx w e w' Hturn
                 |raw_request mi ct mw ctx w next mi' ct' w1 res w' Hturn Hrun IH].
  - apply generate_action_turn_effects in Hturn as [(e & _ & ? & _)|Hturn];
      [done|].
    destruct Hturn as (model & tools & fd & raw1 & fmt & Hres & _ & [d Hd]
                       & Hcalls & Hquiet & (served & Hsv & Hall & Hnone & Hret)
                       & Hv & Hschema & Hasks & _).
    rewrite (Hret _ eq_refl) in Hsv, Hall.
    split_and!.
    + intros e He. congruence.
    + exists [d]. split; [done|]. split; [simpl; lia|]. by intros _.
    + intros model' tools' fd' Hres'. rewrite Hres in Hres'.
      by injection Hres' as <- <- <-.
    + done.
    + by exists [].
    + by intros response' [= <-].
  - apply generate_action_turn_effects in Hturn as [(e' & Hres & [= <-] & ->)|Hturn].
    { split_and!.
      - intros e' He. rewrite Hres in He. by injection He as <-.
      - exists []. rewrite app_nil_r. split; [done|]. split; [simpl; lia|].
        intros _. simpl. lia.
      - intros model tools fd He. congruence.
      - done.
      - exists []. rewrite app_nil_r. by split_and!.
      - done. }
    destruct Hturn as (model & tools & fd & raw1 & fmt & Hres & _ & [d Hd]
                       & Hcalls & Hquiet & (served & Hsv & Hall & Hnone & _) & _).
    split_and!.
    + intros e' He. congruence.
    + exists [d]. split; [done|]. split; [simpl; lia|]. by intros _.
    + intros model' tools' fd' Hres'. rewrite Hres in Hres'.
      by injection Hres' as <- <- <-.
    + done.
    + by exists served.
    + done.
  - pose proof Hturn as Hkeeps.
    apply generate_action_turn_next_keeps in Hkeeps
      as (Htools & Hrtr & HN & Hmodel & Hoff & -> & Hle).
    apply generate_action_turn_effects in Hturn as [(e & _ & ? & _)|Hturn];
      [done|].
    destruct Hturn as (model & tools & fd & raw1 & fmt & Hres & _ & [d Hd]
                       & (calls & Hcalls & Hcs) & Hquiet
                       & (served & Hsv & Hall & Hnone & _) & _).
    destruct IH as (Herr & (ds & Hds & Hlen & _) & Hmc & Hq
                    & (served' & Hsv' & Hall' & _) & Hresp).
    rewrite HN in Hlen. rewrite Hrtr in Hresp.
    split_and!.
    + intros e He. congruence.
    + exists (d :: ds). rewrite Hds, Hd, <- app_assoc. split; [done|].
      split; [simpl length; lia|]. intros Hon. congruence.
    + intros model' tools' fd' Hres'. rewrite Hres in Hres'.
      injection Hres' as <- <- <-.
      destruct (resolve_parameters registry next)
        as [[[model' tools'] fd']|e] eqn:Hnext.
      * destruct (Hmc _ _ _ eq_refl) as (calls' & Hcalls' & Hcs').
        assert (model' = model) as ->
          by (by eapply (resolve_parameters_model registry raw_request next)).
        exists (calls ++ calls'). rewrite Hcalls', Hcalls, <- app_assoc.
        split; [done|]. by apply Forall_app.
      * destruct (Herr e eq_refl) as [_ ->]. by exists calls.
    + intros Hoff'. rewrite (Hq Hoff'). by apply Hquiet.
    + exists (served ++ served'). rewrite Hsv', Hsv, <- app_assoc.
      split; [done|]. split; [|congruence].
      apply Forall_app. split; [done|].
      eapply Forall_impl; [exact Hall'|].
      intros c (names & tool & ? & ?). exists names, tool. by rewrite <- Htools.
    + done.
Qed.

End RunMore.

(** The model and the tools are resolved from the model name and the tool
    names alone; the output only decides the format. *)
Lemma resolve_parameters_format_only registry r1 r2 model tools format_def :
  opt_model r2 = opt_model r1 -> opt_tools r2 = opt_tools r1 ->
  resolve_parameters registry r1 = Ok (model, tools, format_def) ->
  resolve_parameters registry r2
  = match opt_output r2 with
    | Some output =>
        if truthy_str (out_format output)
        then
          match lookup_value registry "format" (default "" (out_format output))
          with
          | None =>
              Err (ValueError ("Unable to resolve format "
                               +:+ default "" (out_format output)))
          | Some fd => Ok (model, tools, Some fd)
          end
        else Ok (model, tools, None)
    | None => Ok (model, tools, None)
    end.
Proof.
  intros Hmodel Htools. unfold resolve_parameters. rewrite Hmodel, Htools.
  destruct (match opt_model r1 with Some m => Some m | None => _ end)
    as [[|a name]|]; [done| |done].
  destruct (lookup_action registry MODEL (String a name)); [|done].
  destruct (if truthy_list (opt_tools r1) then _ else _) as [ts|e]; [|done].
  intros H.
  assert (model = a0 /\ tools = ts) as [-> ->]; [|done].
  destruct (opt_output r1) as [o|]; [|by injection H as <- <-].
  destruct (truthy_str (out_format o)); [|by injection H as <- <-].
  destruct (lookup_value registry _ _); [|done]. by injection H as <- <-.
Qed.

Lemma answering_middleware_dispatch model on_chunk formatter before m after
    (answer : GenerateRequest -> ActionRunContext -> Result GenerateResponse)
    req ctx w :
  Forall transparent before ->
  (forall req ctx, m req ctx = MwReturn (answer req ctx)) ->
  exists req' ctx',
    dispatch_from model on_chunk formatter (before ++ m :: after) req ctx w
    = (answer req' ctx', w).
Proof.
  intros Hall Hm. revert req ctx.
  induction Hall as [|t before Ht _ IH]; intros req ctx; simpl.
  - exists req, ctx. by rewrite Hm.
  - destruct (Ht req ctx) as (mreq & mctx & -> & _). simpl.
    destruct (IH (default req mreq) (default ctx mctx)) as (req' & ctx' & ->).
    by exists req', ctx'.
Qed.

Section RunTheorems.
Variable inject_instructions : list Message -> option string -> list Message.
Variable augment_with_context : ModelMiddleware.
Variable assert_valid : GenerateResponseWrapper -> Outcome unit.
Variable assert_valid_schema : GenerateResponseWrapper -> Outcome unit.
Variable dump_dict : Json -> Json.

Local Abbreviation generate_action_turn' :=
  (generate_action_turn inject_instructions augment_with_context assert_valid
     assert_valid_schema dump_dict).
Local Abbreviation generate_action' :=
  (generate_action inject_instructions augment_with_context assert_valid
     assert_valid_schema dump_dict).
Local Abbreviation Run' :=
  (Run inject_instructions augment_with_context assert_valid
     assert_valid_schema dump_dict).

(** The error of line 231 in a turn whose middleware are transparent. *)
Lemma generate_action_turn_abort registry raw_request on_chunk mi ct mw ctx w
    w' response message status details_request :
  generate_action_turn' registry raw_request on_chunk mi ct mw ctx w
    = (Err (GenerationResponseError response message status details_request),
       w') ->
  transparent augment_with_context ->
  Forall transparent (caller_chain (w_store w) mw) ->
  message = "Exceeded maximum tool call iterations ("
            +:+ pretty (effective_max_turns raw_request) +:+ ")" /\
  status = "ABORTED" /\
  rw_request response = details_request /\
  assert_valid response = Done tt /\
  asks_for_tools (rw_message response) /\
  truthy_bool (opt_return_tool_requests raw_request) = false /\
  effective_max_turns raw_request < ct + 1 /\
  w_tool_calls w' = w_tool_calls w.
Proof.
  intros H Haug Hcaller.
  apply generate_action_turn_inv in H as [(e & [= <-] & -> & Hwhy)|H].
  { destruct Hwhy as [Hres|(model & tools & fd & Hres & Hfmt)].
    - by apply resolve_parameters_not_abort in Hres.
    - by apply apply_format_not_abort in Hfmt. }
  destruct H as (model & tools & fd & raw1 & fmt & r & w0 & res & w2
                 & Hres & Hfmt & Hbegin & Hdisp & Hend).
  destruct (begin_turn_spec augment_with_context model raw1 mi mw w)
    as (r' & w0' & Hbegin' & _ & _ & Htools0 & _ & _ & Hchain & _).
  rewrite Hbegin in Hbegin'. injection Hbegin' as <- <-.
  assert (Hall : Forall transparent (deref (w_store w0) r)).
  { rewrite Hchain. apply Forall_app. split; [done|].
    destruct (injects_context model raw1); [by apply Forall_singleton|done]. }
  match type of Hdisp with dispatch_from _ _ _ ?c ?rq ?cx ?w1 = _ =>
    pose proof (dispatch_from_same_lists model on_chunk fmt c rq cx w1) as Hsame;
    rewrite Hdisp in Hsame;
    destruct (dispatch_from_transparent model on_chunk fmt c rq cx w1 Hall)
      as (req' & ctx' & _ & Heq);
    rewrite Heq in Hdisp;
    pose proof (call_model_not_abort model on_chunk fmt req' ctx' w1) as Hna
  end.
  destruct Hsame as (_ & _ & Ht2). simpl in Ht2. rewrite Htools0 in Ht2.
  rewrite Hdisp in Hna. simpl in Hna.
  destruct res as [model_response|e].
  2: { destruct Hend as [[= <-] ->]. by destruct (Hna _ eq_refl). }
  apply apply_format_keeps in Hfmt as (Hmax & _ & _ & _ & Hrtr).
  assert (HN : effective_max_turns raw1 = effective_max_turns raw_request).
  { unfold effective_max_turns. by rewrite Hmax. }
  apply end_turn_cases in Hend. simpl in Hend. rewrite HN, Hrtr in Hend.
  destruct Hend as [(origin & Hv & ? & ->)
                   |(Hv & [(Hno & -> & Hout)
                          |[(Hyes & Hret & ? & ->)
                           |[(Hyes & Hret & Hlt & Hout & ->)
                            |(Hyes & Hret & Hle & res & w3 & Hrun & Hout)]]])];
    try done.
  - by destruct (assert_valid_schema _).
  - injection Hout as -> -> -> ->. by split_and!.
  - apply resolve_tool_requests_result in Hrun.
    destruct res as [[[revised tool_msg] pre]|e]; [by destruct Hout|].
    destruct Hout as [[= <-] _]. done.
Qed.

Lemma Run_abort registry on_chunk raw_request mi ct mw ctx w w' response
    message status details_request :
  Run' registry on_chunk raw_request mi ct mw ctx w
    (Err (GenerationResponseError response message status details_request))
    w' ->
  transparent augment_with_context ->
  Forall transparent (caller_chain (w_store w) mw) ->
  message = "Exceeded maximum tool call iterations ("
            +:+ pretty (effective_max_turns raw_request) +:+ ")" /\
  status = "ABORTED" /\
  rw_request response = details_request /\
  assert_valid response = Done tt /\
  asks_for_tools (rw_message response) /\
  truthy_bool (opt_return_tool_requests raw_request) = false.
Proof.
  intros Hrun Haug.
  remember (Err (GenerationResponseError response message status
                   details_request)) as res eqn:Hres.
  induction Hrun as [raw_request mi ct mw ctx w response' w' Hturn
                    |raw_request mi ct mw ctx w e w' Hturn
                    |raw_request mi ct mw ctx w next mi' ct' w1 res w' Hturn
                       Hrun IH]; intros Hcaller.
  - done.
  - injection Hres as ->.
    apply generate_action_turn_abort in Hturn; [|done..].
    destruct Hturn as (? & ? & ? & ? & ? & ? & _). by split_and!.
  - apply generate_action_turn_next_keeps in Hturn
      as (_ & Hrtr & HN & _).
    rewrite <- HN, <- Hrtr. apply IH; [done|]. by apply Forall_nil.
Qed.

(** X11: whatever the middleware do, [generate_action] returns or raises
    after at most [max(1, max_turns + 1 - current_turn)] dispatches, one per
    turn; and when the model, a tool or the format of the request cannot be
    resolved it raises that error with nothing dispatched and nothing
    touched. *)
Theorem dispatches_are_bounded registry raw_request on_chunk mi ct mw ctx w
    fuel :
  (Z.to_nat (effective_max_turns raw_request - ct) < fuel)%nat ->
  exists res w' ds,
    generate_action' fuel registry raw_request on_chunk mi ct mw ctx w
      = Some (res, w') /\
    w_dispatched w' = w_dispatched w ++ ds /\
    Z.of_nat (length ds) <= Z.max 1 (effective_max_turns raw_request + 1 - ct) /\
    (forall e, resolve_parameters registry raw_request = Err e ->
       res = Err e /\ w' = w).
Proof.
  intros Hfuel.
  destruct (generate_action_terminates inject_instructions augment_with_context
              assert_valid assert_valid_schema dump_dict fuel registry
              raw_request on_chunk mi ct mw ctx w Hfuel) as (res & w' & Hgen).
  apply generate_action_Run in Hgen as Hrun.
  apply Run_effects in Hrun as (Herr & (ds & Hds & Hlen & _) & _).
  by exists res, w', ds.
Qed.

(** X12: every call of a model backend that a run makes is a call of the
    model resolved for the request, on every turn and whatever the
    middleware do. *)
Theorem model_calls_go_to_the_resolved_model registry raw_request on_chunk mi
    ct mw ctx w fuel model tools format_def :
  resolve_parameters registry raw_request = Ok (model, tools, format_def) ->
  (Z.to_nat (effective_max_turns raw_request - ct) < fuel)%nat ->
  exists res w' calls,
    generate_action' fuel registry raw_request on_chunk mi ct mw ctx w
      = Some (res, w') /\
    w_model_calls w' = w_model_calls w ++ calls /\
    Forall (fun c => mc_model c = act_name model) calls.
Proof.
  intros Hres Hfuel.
  destruct (generate_action_terminates inject_instructions augment_with_context
              assert_valid assert_valid_schema dump_dict fuel registry
              raw_request on_chunk mi ct mw ctx w Hfuel) as (res & w' & Hgen).
  apply generate_action_Run in Hgen as Hrun.
  apply Run_effects in Hrun as (_ & _ & Hmc & _).
  destruct (Hmc _ _ _ Hres) as (calls & ? & ?). by exists res, w', calls.
Qed.

(** The exception Python raises when [on_chunk] is [None] and is called. *)
Lemma resolve_parameters_callable registry request e :
  resolve_parameters registry request = Err e ->
  e <> TypeError "'NoneType' object is not callable".
Proof.
  unfold resolve_parameters.
  destruct (match opt_model request with Some m => Some m | None => _ end)
    as [[|a name]|]; [by intros [= <-]| |by intros [= <-]].
  destruct (lookup_action registry MODEL (String a name)) as [m|];
    [|by intros [= <-]].
  destruct (if truthy_list (opt_tools request) then _ else _) as [ts|e'] eqn:Hts.
  - destruct (opt_output request) as [o|]; [|done].
    destruct (truthy_str (out_format o)); [|done].
    destruct (lookup_value registry _ _); [done|by intros [= <-]].
  - intros [= ->]. destruct (truthy_list (opt_tools request)); [|done].
    revert Hts. generalize (@nil Action).
    induction (default [] (opt_tools request)) as [|n names IH]; intros acc;
      simpl; [done|].
    destruct (lookup_action registry TOOL n); [apply IH|by intros [= <-]].
Qed.

Lemma resolve_tool_requests_callable registry request message w e w' :
  resolve_tool_requests dump_dict registry request message w = (Err e, w') ->
  e <> TypeError "'NoneType' object is not callable".
Proof.
  unfold resolve_tool_requests.
  destruct (opt_tools request) as [names|]; [|by intros [= <- _]].
  unfold bind.
  destruct (run_tool_requests _ _ _ _ _) as [[parts|e1] w1] eqn:Hrun; [done|].
  intros [= <- _].
  apply run_tool_requests_err in Hrun as (tr & _ & Htr).
  destruct (make_tool_dict registry names !! treq_name tr) as [[tool|]|].
  - destruct Htr as (origin & _ & ->). done.
  - by subst e1.
  - by subst e1.
Qed.

(** One turn without a callback, with middleware that hand the request on:
    the guards of lines 194 and 260 keep the missing callback from being
    called, and the model is called without a chunk callback. *)
Lemma generate_action_turn_callable registry raw_request mi ct mw ctx w out w' :
  generate_action_turn' registry raw_request false mi ct mw ctx w = (out, w') ->
  transparent augment_with_context ->
  Forall transparent (caller_chain (w_store w) mw) ->
  out <> Err (TypeError "'NoneType' object is not callable") /\
  exists calls,
    w_model_calls w' = w_model_calls w ++ calls /\
    Forall (fun c => mc_streams c = false) calls.
Proof.
  intros H Haug Hcaller.
  apply generate_action_turn_inv in H as [(e & -> & -> & Hwhy)|H].
  { split; [|exists []; by rewrite app_nil_r].
    destruct Hwhy as [Hres|(model & tools & fd & Hres & Hfmt)].
    - intros [= ->]. by apply resolve_parameters_callable in Hres.
    - destruct (resolve_parameters_apply_format inject_instructions _ _ _ _ _
                  Hres) as (? & ? & ?). congruence. }
  destruct H as (model & tools & fd & raw1 & fmt & r & w0 & res & w2
                 & Hres & Hfmt & Hbegin & Hdisp & Hend).
  destruct (begin_turn_spec augment_with_context model raw1 mi mw w)
    as (r' & w0' & Hbegin' & _ & Hcalls0 & _ & _ & _ & Hchain & _).
  rewrite Hbegin in Hbegin'. injection Hbegin' as <- <-.
  assert (Hall : Forall transparent (deref (w_store w0) r)).
  { rewrite Hchain. apply Forall_app. split; [done|].
    destruct (injects_context model raw1); [by apply Forall_singleton|done]. }
  match type of Hdisp with dispatch_from _ _ _ ?c ?rq ?cx ?w1 = _ =>
    destruct (dispatch_from_transparent model false fmt c rq cx w1 Hall)
      as (req' & ctx' & Hsame & Heq);
    rewrite Heq in Hdisp;
    pose proof (call_model_calls model false fmt req' ctx' w1) as Hcalls;
    pose proof (call_model_result model false fmt req' ctx' w1 Hsame)
      as Hresult
  end.
  rewrite Hdisp in Hcalls, Hresult. simpl in Hcalls, Hresult, Hsame.
  rewrite Hsame in Hcalls. rewrite Hcalls0 in Hcalls.
  change (bool_decide (is_Some (@None ChunkSink))) with false in Hcalls.
  destruct res as [model_response|e].
  2: { destruct Hend as [-> ->]. split.
       - intros [= ->]. by destruct (reply_response _).
       - eexists [_]. split; [exact Hcalls|]. by apply Forall_singleton. }
  pose proof (end_turn_keeps assert_valid assert_valid_schema dump_dict
                registry raw1 fmt (action_to_generate_request raw1 tools model)
                false ct model_response w2) as Hk.
  rewrite Hend in Hk. simpl in Hk. destruct Hk as (_ & _ & Hm3).
  split.
  - apply end_turn_cases in Hend. simpl in Hend.
    destruct Hend as [(origin & _ & -> & _)
                     |(_ & [(_ & _ & ->)
                           |[(_ & _ & -> & _)
                            |[(_ & _ & _ & -> & _)
                             |(_ & _ & _ & res & w3 & Hrun & Hout)]]])];
      try done.
    + by destruct (assert_valid_schema _).
    + destruct res as [[[revised tool_msg] pre]|e].
      * by destruct Hout as (-> & _).
      * destruct Hout as (-> & _). intros [= ->].
        by apply resolve_tool_requests_callable in Hrun.
  - eexists [_]. rewrite Hm3. split; [exact Hcalls|]. by apply Forall_singleton.
Qed.

Lemma Run_callable registry raw_request mi ct mw ctx w res w' :
  Run' registry false raw_request mi ct mw ctx w res w' ->
  transparent augment_with_context ->
  Forall transparent (caller_chain (w_store w) mw) ->
  res <> Err (TypeError "'NoneType' object is not callable") /\
  exists calls,
    w_model_calls w' = w_model_calls w ++ calls /\
    Forall (fun c => mc_streams c = false) calls.
Proof.
  intros Hrun Haug.
  remember false as on_chunk eqn:Hoff.
  induction Hrun as [raw_request mi ct mw ctx w response w' Hturn
                    |raw_request mi ct mw ctx w e w' Hturn
                    |raw_request mi ct mw ctx w next mi' ct' w1 res w' Hturn
                       Hrun IH]; intros Hcaller; subst on_chunk.
  - apply generate_action_turn_callable in Hturn as (_ & Hcalls); done.
  - apply generate_action_turn_callable in Hturn as (Hne & Hcalls); [|done..].
    split; [|done]. intros [= ->]. done.
  - apply generate_action_turn_callable in Hturn as (_ & calls & Hc & Hall);
      [|done..].
    destruct (IH (Forall_nil_2 _)) as (Hne & calls' & Hc' & Hall').
    split; [done|]. exists (calls ++ calls').
    rewrite Hc', Hc, <- app_assoc. split; [done|]. by apply Forall_app.
Qed.

(** X13: without a callback, and with middleware that hand the request on
    with the callback they were given, the missing callback is never called:
    the run does not end in [TypeError("'NoneType' object is not
    callable")], on any turn and whether or not the model asks for tools
    (the guards of lines 194 and 260), and every call of the model is made
    without a chunk callback. *)
Theorem no_callback_is_never_called registry raw_request mi ct mw ctx w fuel :
  transparent augment_with_context ->
  Forall transparent (caller_chain (w_store w) mw) ->
  (Z.to_nat (effective_max_turns raw_request - ct) < fuel)%nat ->
  exists res w' calls,
    generate_action' fuel registry raw_request false mi ct mw ctx w
      = Some (res, w') /\
    res <> Err (TypeError "'NoneType' object is not callable") /\
    w_model_calls w' = w_model_calls w ++ calls /\
    Forall (fun c => mc_streams c = false) calls.
Proof.
  intros Haug Hcaller Hfuel.
  destruct (generate_action_terminates inject_instructions augment_with_context
              assert_valid assert_valid_schema dump_dict fuel registry
              raw_request false mi ct mw ctx w Hfuel) as (res & w' & Hgen).
  apply generate_action_Run in Hgen as Hrun.
  apply Run_callable in Hrun as (Hne & calls & Hcalls & Hall); [|done..].
  by exists res, w', calls.
Qed.

(** X14: every tool a run executes serves a tool request whose name is among
    [request.tools] and is the action the registry holds under that name. *)
Theorem tools_run_are_declared_tools registry raw_request on_chunk mi ct mw ctx
    w fuel :
  (Z.to_nat (effective_max_turns raw_request - ct) < fuel)%nat ->
  exists res w' served,
    generate_action' fuel registry raw_request on_chunk mi ct mw ctx w
      = Some (res, w') /\
    w_tool_calls w' = w_tool_calls w ++ served /\
    Forall (serves_declared_tool registry raw_request) served.
Proof.
  intros Hfuel.
  destruct (generate_action_terminates inject_instructions augment_with_context
              assert_valid assert_valid_schema dump_dict fuel registry
              raw_request on_chunk mi ct mw ctx w Hfuel) as (res & w' & Hgen).
  apply generate_action_Run in Hgen as Hrun.
  apply Run_effects in Hrun as (_ & _ & _ & _ & (served & ? & ? & _) & _).
  by exists res, w', served.
Qed.

(** X15: with [return_tool_requests] set, [generate_action] ends in its
    first turn, whatever [current_turn] and [max_turns] are: it dispatches at
    most once and runs no tool. *)
Theorem return_tool_requests_runs_no_tool registry raw_request on_chunk mi ct
    mw ctx w fuel :
  truthy_bool (opt_return_tool_requests raw_request) = true ->
  exists res w' ds,
    generate_action' (S fuel) registry raw_request on_chunk mi ct mw ctx w
      = Some (res, w') /\
    generate_action_turn' registry raw_request on_chunk mi ct mw ctx w
      = (match res with
         | Ok response => Ok (Return response)
         | Err e => Err e
         end, w') /\
    w_tool_calls w' = w_tool_calls w /\
    w_dispatched w' = w_dispatched w ++ ds /\ (length ds <= 1)%nat.
Proof.
  intros Hrtr.
  assert (exists res w',
            generate_action' (S fuel) registry raw_request on_chunk mi ct mw ctx w
              = Some (res, w') /\
            generate_action_turn' registry raw_request on_chunk mi ct mw ctx w
              = (match res with
                 | Ok response => Ok (Return response)
                 | Err e => Err e
                 end, w')) as (res & w' & Hgen & Hturn).
  { simpl.
    destruct (generate_action_turn' registry raw_request on_chunk mi ct mw ctx w)
      as [[[response|next mi' ct']|e] w1] eqn:Hturn; [by eexists _, _| |by eexists _, _].
    apply generate_action_turn_next_keeps in Hturn as (_ & _ & _ & _ & Hoff & _).
    congruence. }
  apply generate_action_Run in Hgen as Hrun.
  apply Run_effects in Hrun
    as (_ & (ds & Hds & _ & Hone) & _ & _ & (served & Hsv & _ & Hnone) & _).
  exists res, w', ds. rewrite (Hnone Hrtr), app_nil_r in Hsv.
  split_and!; [done..|by apply Hone].
Qed.

(** X16: a response that [generate_action] returns has passed
    [assert_valid]; it has passed [assert_valid_schema] too unless it holds
    tool requests, and it holds tool requests only when the request set
    [return_tool_requests]. *)
Theorem returned_response_is_validated registry raw_request on_chunk mi ct mw
    ctx w fuel :
  (Z.to_nat (effective_max_turns raw_request - ct) < fuel)%nat ->
  exists res w',
    generate_action' fuel registry raw_request on_chunk mi ct mw ctx w
      = Some (res, w') /\
    forall response, res = Ok response ->
      assert_valid response = Done tt /\
      (~ asks_for_tools (rw_message response) ->
       assert_valid_schema response = Done tt) /\
      (asks_for_tools (rw_message response) ->
       truthy_bool (opt_return_tool_requests raw_request) = true).
Proof.
  intros Hfuel.
  destruct (generate_action_terminates inject_instructions augment_with_context
              assert_valid assert_valid_schema dump_dict fuel registry
              raw_request on_chunk mi ct mw ctx w Hfuel) as (res & w' & Hgen).
  apply generate_action_Run in Hgen as Hrun.
  apply Run_effects in Hrun as (_ & _ & _ & _ & _ & Hresp).
  by exists res, w'.
Qed.

(** X17: with middleware that hand the request on, the error of line 231
    says what was exceeded: its message names the bound in force, its status
    is [ABORTED], its details hold the request of the response it carries,
    and that response is the last reply: valid, with tool requests that were
    not run. *)
Theorem abort_error_contents registry raw_request on_chunk mi ct mw ctx w fuel :
  transparent augment_with_context ->
  Forall transparent (caller_chain (w_store w) mw) ->
  (Z.to_nat (effective_max_turns raw_request - ct) < fuel)%nat ->
  exists res w',
    generate_action' fuel registry raw_request on_chunk mi ct mw ctx w
      = Some (res, w') /\
    forall response message status details_request,
      res = Err (GenerationResponseError response message status
                   details_request) ->
      message = "Exceeded maximum tool call iterations ("
                +:+ pretty (effective_max_turns raw_request) +:+ ")" /\
      status = "ABORTED" /\
      rw_request response = details_request /\
      assert_valid response = Done tt /\
      asks_for_tools (rw_message response) /\
      truthy_bool (opt_return_tool_requests raw_request) = false.
Proof.
  intros Haug Hcaller Hfuel.
  destruct (generate_action_terminates inject_instructions augment_with_context
              assert_valid assert_valid_schema dump_dict fuel registry
              raw_request on_chunk mi ct mw ctx w Hfuel) as (res & w' & Hgen).
  apply generate_action_Run in Hgen as Hrun.
  exists res, w'. split; [done|].
  intros response message status q ->. by eapply Run_abort.
Qed.

(** X18: the request of the next turn is the request as [apply_format] left
    it, not as the caller gave it, with two messages added: the model's
    reply, which holds the tool requests, and a message of role [tool] that
    answers them one by one, in order. *)
Theorem next_turn_request registry raw_request on_chunk mi ct mw ctx w
    next_request mi' ct' w' :
  generate_action_turn' registry raw_request on_chunk mi ct mw ctx w
    = (Ok (Recurse next_request mi' ct'), w') ->
  exists model tools format_def raw_request' formatter generated_msg tool_msg,
    resolve_parameters registry raw_request = Ok (model, tools, format_def) /\
    apply_format inject_instructions raw_request format_def
      = Ok (raw_request', formatter) /\
    next_request
    = with_messages raw_request'
        (opt_messages raw_request' ++ [generated_msg; tool_msg]) /\
    asks_for_tools generated_msg /\
    msg_role tool_msg = RoleTool /\
    Forall2 (fun tr part => exists tool out,
               lookup_action registry TOOL (treq_name tr) = Some tool /\
               act_arun_raw tool (treq_input tr) = Done out /\
               part = response_part dump_dict tr out)
      (omap root_tool_request (msg_content generated_msg))
      (msg_content tool_msg) /\
    ct' = ct + 1 /\ ct + 1 <= effective_max_turns raw_request.
Proof.
  intros H.
  apply generate_action_turn_effects in H as [(e & _ & ? & _)|H]; [done|].
  destruct H as (model & tools & fd & raw1 & fmt & Hres & Hfmt & _ & _ & _ & _
                 & _ & -> & Hle & gen & tool_msg & ? & -> & ? & ?).
  exists model, tools, fd, raw1, fmt, gen, tool_msg. by split_and!.
Qed.

(** X19: a Format whose [config.format] names a wire format is resolved
    under that name from the second turn on, because the next request is
    made from the formatted one: the recursive call looks the format up
    under the hint, and when the registry holds no format of that name it
    ends in [ValueError('Unable to resolve format ...')] before anything is
    dispatched. *)
Theorem later_turn_resolves_the_format_hint registry raw_request on_chunk mi ct
    mw ctx w next_request mi' ct' w' model tools fd hint :
  generate_action_turn' registry raw_request on_chunk mi ct mw ctx w
    = (Ok (Recurse next_request mi' ct'), w') ->
  resolve_parameters registry raw_request = Ok (model, tools, Some fd) ->
  cfg_format (fd_config fd) = Some hint ->
  hint <> "" ->
  (opt_output next_request ≫= out_format) = Some hint /\
  resolve_parameters registry next_request
  = match lookup_value registry "format" hint with
    | Some fd' => Ok (model, tools, Some fd')
    | None => Err (ValueError ("Unable to resolve format " +:+ hint))
    end /\
  (lookup_value registry "format" hint = None ->
   forall fuel,
     generate_action' (S fuel) registry next_request on_chunk mi' ct' None None
       w'
     = Some (Err (ValueError ("Unable to resolve format " +:+ hint)), w')).
Proof.
  intros Hturn Hres Hhint Hne.
  pose proof Hturn as Hkeeps.
  apply generate_action_turn_next_keeps in Hkeeps
    as (Htools & _ & _ & Hmodel & _ & -> & Hle).
  apply generate_action_turn_effects in Hturn as Heff.
  destruct Heff as [(e & _ & ? & _)|Heff]; [done|].
  destruct Heff as (model' & tools' & fd' & raw1 & fmt & Hres' & Hfmt & _ & _ & _
                    & _ & _ & _ & _ & gen & tool_msg & _ & Hnext & _).
  rewrite Hres in Hres'. injection Hres' as <- <- <-.
  assert (Hout : exists o, opt_output next_request = Some o /\
                           out_format o = Some hint).
  { rewrite Hnext. simpl. unfold apply_format in Hfmt.
    destruct (opt_output raw_request) as [o|]; [|done].
    injection Hfmt as <- _. simpl. rewrite Hhint. by eexists. }
  destruct Hout as (o & Hout & Hfo).
  pose proof (resolve_parameters_format_only registry raw_request next_request
                model tools (Some fd) Hmodel Htools Hres) as Hnext'.
  rewrite Hout, Hfo in Hnext'. simpl in Hnext'.
  destruct hint as [|a hint]; [done|].
  split; [by rewrite Hout|]. split.
  - rewrite Hnext'. by destruct (lookup_value registry "format" (String a hint)).
  - intros Hnone fuel. rewrite Hnone in Hnext'.
    simpl. unfold generate_action_turn at 1. unfold bind at 1, lift at 1.
    by rewrite Hnext'.
Qed.


End RunTheorems.

(** ** The request that is dispatched, and the tool chunk *)

Lemma apply_format_keeps_choice inject raw_request format_def raw_request'
    formatter :
  apply_format inject raw_request format_def = Ok (raw_request', formatter) ->
  opt_tool_choice raw_request' = opt_tool_choice raw_request /\
  opt_config raw_request' = opt_config raw_request.
Proof.
  unfold apply_format. destruct format_def as [fd|].
  - destruct (opt_output raw_request); [|done]. by intros [= <- <-].
  - by intros [= <- <-].
Qed.

Lemma to_tool_definition_names (tools : list Action) :
  registered_name <$> (to_tool_definition <$> tools) = act_name <$> tools /\
  Forall (fun td => str_contains slash (td_name td) = false)
         (to_tool_definition <$> tools).
Proof.
  induction tools as [|tool tools [IHn IHs]]; [by split|].
  split.
  - rewrite !fmap_cons, IHn. f_equal.
    unfold registered_name, to_tool_definition. simpl.
    case_decide as Hne; simpl; [by rewrite lookup_singleton_eq|by symmetry].
  - rewrite fmap_cons. constructor; [|done].
    destruct (str_contains slash (act_name tool)) eqn:Hs.
    + by destruct (to_tool_definition_namespaced tool Hs) as (pre & _ & Hno & _).
    + unfold to_tool_definition. simpl. by rewrite Hs.
Qed.

Lemma action_to_generate_request_tools options tools model :
  req_tools (action_to_generate_request options tools model)
  = to_tool_definition <$> tools.
Proof. by destruct tools. Qed.

Section DispatchedRequest.
Variable inject_instructions : list Message -> option string -> list Message.
Variable augment_with_context : ModelMiddleware.
Variable assert_valid : GenerateResponseWrapper -> Outcome unit.
Variable assert_valid_schema : GenerateResponseWrapper -> Outcome unit.
Variable dump_dict : Json -> Json.

Local Abbreviation generate_action_turn' :=
  (generate_action_turn inject_instructions augment_with_context assert_valid
     assert_valid_schema dump_dict).
Local Abbreviation generate_action' :=
  (generate_action inject_instructions augment_with_context assert_valid
     assert_valid_schema dump_dict).
Local Abbreviation Run' :=
  (Run inject_instructions augment_with_context assert_valid
     assert_valid_schema dump_dict).

(** X21: once the parameters resolve, the request of the first dispatch
    lists one tool definition per resolved tool, in the order of
    [request.tools]: each under a name without path separator, and each
    letting the registered name of its tool be recovered; its config is the
    request's, or an empty dictionary when the request has none, and its
    docs and tool choice are the request's. *)
Theorem first_dispatch_lists_the_resolved_tools registry raw_request on_chunk
    mi ct mw ctx w fuel model tools format_def :
  resolve_parameters registry raw_request = Ok (model, tools, format_def) ->
  (Z.to_nat (effective_max_turns raw_request - ct) < fuel)%nat ->
  exists res w' d later,
    generate_action' fuel registry raw_request on_chunk mi ct mw ctx w
      = Some (res, w') /\
    w_dispatched w' = w_dispatched w ++ d :: later /\
    registered_name <$> req_tools (dp_request d) = act_name <$> tools /\
    Forall (fun td => str_contains slash (td_name td) = false)
           (req_tools (dp_request d)) /\
    length (req_tools (dp_request d))
    = length (default [] (opt_tools raw_request)) /\
    req_config (dp_request d) = default (JObj []) (opt_config raw_request) /\
    req_docs (dp_request d) = opt_docs raw_request /\
    req_tool_choice (dp_request d) = opt_tool_choice raw_request.
Proof.
  intros Hres Hfuel.
  destruct (generate_action_terminates inject_instructions augment_with_context
              assert_valid assert_valid_schema dump_dict fuel registry
              raw_request on_chunk mi ct mw ctx w Hfuel) as (res & w' & Hgen).
  apply generate_action_Run in Hgen as Hrun.
  assert (exists out w1 ds,
            generate_action_turn' registry raw_request on_chunk mi ct mw ctx w
              = (out, w1) /\
            w_dispatched w' = w_dispatched w1 ++ ds)
    as (out & w1 & ds & Hturn & Hds).
  { destruct Hrun as [raw_request mi ct mw ctx w response w' Hturn
                     |raw_request mi ct mw ctx w e w' Hturn
                     |raw_request mi ct mw ctx w next mi' ct' w1 res w' Hturn
                        Hrun].
    - eexists _, _, []. by rewrite app_nil_r.
    - eexists _, _, []. by rewrite app_nil_r.
    - apply Run_effects in Hrun as (_ & (ds & Hds & _) & _).
      by eexists _, _, ds. }
  apply generate_action_turn_lists in Hturn as [[(e & He & _) _]|Hturn];
    [congruence|].
  destruct Hturn as (model' & tools' & fd' & raw1 & fmt & Hres' & Hfmt & Hd & _).
  rewrite Hres in Hres'. injection Hres' as <- <- <-.
  apply apply_format_keeps in Hfmt as Hkeep.
  destruct Hkeep as (_ & Hdocs & _ & _ & _).
  apply apply_format_keeps_choice in Hfmt as (Hchoice & Hconfig).
  destruct (to_tool_definition_names tools) as (Hnames & Hslash).
  match type of Hd with _ = _ ++ [?d] => exists res, w', d, ds end.
  split; [done|].
  split; [by rewrite Hds, Hd, <- app_assoc|]. cbn [dp_request].
  rewrite action_to_generate_request_tools.
  split_and!; [done|done| |simpl; by rewrite Hconfig|done|done].
  rewrite length_fmap. apply resolve_parameters_tools in Hres.
  by apply Forall2_length in Hres.
Qed.

(** X22: when a streaming run goes on to another turn, the last chunk it
    has handed to the callback is the tool message itself: the chunk has the
    role [tool] and the content of the message of role [tool] that ends the
    messages of the next request. *)
Theorem tool_chunk_is_the_tool_message registry raw_request mi ct mw ctx w
    next_request mi' ct' w' :
  generate_action_turn inject_instructions augment_with_context assert_valid
    assert_valid_schema dump_dict registry raw_request true mi ct mw ctx w
    = (Ok (Recurse next_request mi' ct'), w') ->
  exists c tool_msg,
    last (w_emitted w') = Some c /\
    last (opt_messages next_request) = Some tool_msg /\
    msg_role tool_msg = RoleTool /\
    cw_chunk c = {| ch_role := Some RoleTool;
                    ch_content := msg_content tool_msg |}.
Proof.
  intros H. apply generate_action_turn_inv in H as [(e & ? & _)|H]; [done|].
  destruct H as (model & tools & fd & raw1 & fmt & r & w0 & res & w2
                 & Hres & Hfmt & Hbegin & Hdisp & Hend).
  destruct res as [model_response|e]; [|by destruct Hend].
  apply end_turn_cases in Hend. simpl in Hend.
  destruct Hend as [(origin & _ & ? & _)
                   |(_ & [(_ & _ & Hout)
                         |[(_ & _ & ? & _)
                          |[(_ & _ & _ & ? & _)
                           |(_ & _ & _ & res & w3 & Hrun & Hout)]]])];
    try done.
  { by destruct (assert_valid_schema _). }
  destruct res as [[[revised tool_msg] pre]|e]; [|by destruct Hout].
  destruct Hout as ([= -> _ _] & _ & _ & Hchunk).
  destruct (Hchunk eq_refl) as (c & Hem & Hc).
  apply resolve_tool_requests_result in Hrun as (_ & _ & Hrole).
  exists c, tool_msg. rewrite Hem, last_snoc. simpl.
  change (opt_messages raw1 ++ [resp_message model_response; tool_msg])
    with (opt_messages raw1 ++ [resp_message model_response] ++ [tool_msg]).
  rewrite app_assoc, last_snoc. rewrite Hc, Hrole. by split_and!.
Qed.

End DispatchedRequest.

(** ** The Google GenAI plugin *)

Lemma google_genai_name_inj n1 n2 :
  google_genai_name n1 = google_genai_name n2 -> n1 = n2.
Proof.
  unfold google_genai_name, PLUGIN_NAME. intros H. cbn in H.
  by injection H.
Qed.

(** X23: [initialize] registers one model per version of the enumeration,
    in order, each under the plugin's name, a separator and the version; the
    names of different versions are different, so no registration overwrites
    another. *)
Theorem GoogleGenai_initialize_distinct_names {Fn : Type}
    (GeminiVersion : list string) (generate_of : string -> Fn) metadata_of :
  NoDup GeminiVersion ->
  NoDup (dm_name <$> GoogleGenai_initialize GeminiVersion generate_of metadata_of)
  /\ dm_name <$> GoogleGenai_initialize GeminiVersion generate_of metadata_of
     = google_genai_name <$> GeminiVersion.
Proof.
  intros Hnd. unfold GoogleGenai_initialize.
  assert (Heq : dm_name <$> map (fun version =>
                   {| dm_name := google_genai_name version;
                      dm_fn := generate_of version;
                      dm_metadata := metadata_of version |}) GeminiVersion
                = google_genai_name <$> GeminiVersion).
  { induction GeminiVersion as [|v vs IH]; [done|].
    simpl. f_equal. apply IH. by apply NoDup_cons in Hnd as [_ ?]. }
  split; [|done]. rewrite Heq.
  apply NoDup_fmap_2; [|done]. intros n1 n2. apply google_genai_name_inj.
Qed.

Section Init.
Context {Credentials DebugConfig HttpOptions Client : Type}.
Implicit Types (credentials : option Credentials)
  (debug_config : option DebugConfig) (http_options : option HttpOptions)
  (Client_new : ClientArgs Credentials DebugConfig HttpOptions -> Outcome Client).

(** X24: when Vertex AI is not asked for and no API key is to be had,
    neither from the argument nor from the environment (an empty string
    counts as none), the constructor of the plugin raises the [ValueError]
    of line 60, whatever the client constructor would do: it is not called.
    In every other case the client constructor is called, with the
    arguments of lines 66-72, and the constructor of the plugin ends as that
    call does: with its client, or with the exception it raised. *)
Theorem GoogleGenai_init_error Client_new getenv vertexai api_key credentials
    project location debug_config http_options :
  (truthy_bool vertexai = false /\ truthy_str api_key = false /\
   truthy_str getenv = false ->
   forall Client_new',
     GoogleGenai_init Client_new' getenv vertexai api_key credentials project
       location debug_config http_options
     = Err (ValueError
              ("Gemini api key should be passed in plugin params "
               +:+ "or as a GEMINI_API_KEY environment variable"))) /\
  (truthy_bool vertexai = true \/ truthy_str api_key = true \/
   truthy_str getenv = true ->
   exists args,
     GoogleGenai_init Client_new getenv vertexai api_key credentials project
       location debug_config http_options
     = of_outcome (Client_new args) /\
     ca_vertexai args = vertexai /\
     ca_credentials args = credentials /\
     ca_project args = project /\ ca_location args = location /\
     ca_debug_config args = debug_config /\
     ca_http_options args = http_options /\
     ca_api_key args
     = if truthy_bool vertexai then None
       else if truthy_str api_key then api_key else getenv).
Proof.
  unfold GoogleGenai_init. split.
  - intros (Hv & Hk & He) Client_new'. rewrite Hv, Hk. simpl. by rewrite He.
  - intros Hsome.
    destruct (truthy_bool vertexai), (truthy_str api_key) eqn:Hk,
      (truthy_str getenv) eqn:He; simpl; rewrite ?Hk, ?He; simpl;
      try (by eexists; split_and!).
    by destruct Hsome as [?|[?|?]].
Qed.

(** X25: when the constructor goes through, the client is the one the
    client constructor made, with [vertexai] as given; with Vertex AI it is
    given no API key, even if one was passed; without Vertex AI it is given
    a non-empty key: the key passed when that is non-empty, the one of the
    environment otherwise. *)
Theorem GoogleGenai_init_api_key Client_new getenv vertexai api_key credentials
    project location debug_config http_options client :
  GoogleGenai_init Client_new getenv vertexai api_key credentials project
    location debug_config http_options = Ok client ->
  exists args,
    Client_new args = Done client /\
    ca_vertexai args = vertexai /\
    (truthy_bool vertexai = true -> ca_api_key args = None) /\
    (truthy_bool vertexai = false ->
     truthy_str (ca_api_key args) = true /\
     (truthy_str api_key = true -> ca_api_key args = api_key) /\
     (truthy_str api_key = false -> ca_api_key args = getenv)).
Proof.
  unfold GoogleGenai_init.
  destruct (truthy_bool vertexai), (truthy_str api_key) eqn:Hk,
    (truthy_str getenv) eqn:He; simpl; rewrite ?Hk, ?He; simpl; try done;
    (match goal with
     | |- of_outcome (Client_new ?a) = _ -> _ =>
         destruct (Client_new a) as [c|origin] eqn:Hnew; simpl; [|done];
         intros [= <-]; exists a; rewrite Hnew; simpl; by split_and!
     end).
Qed.
End Init.

(** * The further properties at concrete inputs *)

(** X3 at the tool registered as [mathPlugin/add]. *)
Lemma to_tool_definition_last_segment_witness :
  td_name (to_tool_definition Scenario.add_tool) = "add" /\
  td_metadata (to_tool_definition Scenario.add_tool)
    = Some {[ "originalName" := "mathPlugin/add" ]}.
Proof.
  apply (to_tool_definition_last_segment Scenario.add_tool "mathPlugin" "add");
    reflexivity.
Defined.

(** X4 at a request that names no model, one tool and the format [jsonl]. *)
Lemma resolve_parameters_resolves_in_order_witness :
  (exists name,
     chosen_model (Examples.weather_registry Scenario.weather_model)
       Examples.jsonl_request = Some name /\ name <> "" /\
     lookup_action (Examples.weather_registry Scenario.weather_model) MODEL name
       = Some Scenario.weather_model) /\
  Forall2 (fun name tool =>
             lookup_action (Examples.weather_registry Scenario.weather_model)
               TOOL name = Some tool)
    ["getWeather"] [Scenario.weather_tool].
Proof.
  destruct (resolve_parameters_resolves_in_order
              (Examples.weather_registry Scenario.weather_model)
              Examples.jsonl_request Scenario.weather_model
              [Scenario.weather_tool] (Some Scenario.jsonl_format))
    as (Hmodel & Htools & _).
  - reflexivity.
  - split; [exact Hmodel|exact Htools].
Defined.

(** X6 at a request for three tools of which the registry holds the first
    only: the second is the one reported. *)
Lemma resolve_parameters_first_unknown_tool_witness :
  resolve_parameters (Examples.weather_registry Scenario.answering_model)
    (Scenario.request_with (Some ["getWeather"; "getTime"; "getDate"]) None None)
  = Err (Exception "Unable to resolve tool getTime").
Proof.
  apply (resolve_parameters_first_unknown_tool
           (Examples.weather_registry Scenario.answering_model)
           (Scenario.request_with (Some ["getWeather"; "getTime"; "getDate"])
              None None)
           "m" Scenario.answering_model ["getWeather"] "getTime" ["getDate"]).
  - reflexivity.
  - discriminate.
  - reflexivity.
  - reflexivity.
  - apply Forall_singleton. exists Scenario.weather_tool. reflexivity.
  - reflexivity.
Defined.

(** X8 at the request for [jsonl] output: the tools and the turn bound of
    the request are kept. *)
Lemma apply_format_frame_witness :
  exists out_request formatter,
    apply_format Scenario.keep_messages Examples.jsonl_request
      (Some Scenario.jsonl_format) = Ok (out_request, formatter) /\
    opt_tools out_request = Some ["getWeather"] /\
    opt_max_turns out_request = None.
Proof.
  destruct (apply_format Scenario.keep_messages Examples.jsonl_request
              (Some Scenario.jsonl_format)) as [[out_request formatter]|e]
    eqn:Hfmt; [|vm_compute in Hfmt; discriminate].
  destruct (apply_format_frame Scenario.keep_messages Examples.jsonl_request
              (Some Scenario.jsonl_format) out_request formatter Hfmt)
    as (_ & Htools & _ & _ & _ & _ & Hmax & _).
  exists out_request, formatter. split; [reflexivity|].
  split; [exact Htools|exact Hmax].
Defined.

(** X9 at a model message that asks for [getWeather]. *)
Lemma resolve_tool_requests_answers_in_order_witness :
  exists tool_msg w',
    resolve_tool_requests Scenario.same_json
      (Examples.weather_registry Scenario.answering_model)
      Examples.weather_request (Scenario.calling ["getWeather"])
      (initial_world []) = (Ok (None, tool_msg, None), w') /\
    msg_role tool_msg = RoleTool.
Proof.
  destruct (resolve_tool_requests Scenario.same_json
              (Examples.weather_registry Scenario.answering_model)
              Examples.weather_request (Scenario.calling ["getWeather"])
              (initial_world [])) as [[[[revised tool_msg] preamble]|e] w']
    eqn:Hrun; [|vm_compute in Hrun; discriminate].
  destruct (resolve_tool_requests_answers_in_order Scenario.same_json
              (Examples.weather_registry Scenario.answering_model)
              Examples.weather_request (Scenario.calling ["getWeather"])
              (initial_world []) revised tool_msg preamble w' Hrun)
    as (Hrev & Hpre & Hrole & _).
  exists tool_msg, w'. rewrite Hrev, Hpre. split; [reflexivity|exact Hrole].
Defined.

(** X10 at a model message that asks for [getWeather] and for [getTime],
    which is not a tool of the request: the error is of one of the three
    kinds. *)
Lemma resolve_tool_requests_errors_witness :
  exists e w',
    resolve_tool_requests Scenario.same_json
      (Examples.weather_registry Scenario.answering_model)
      Examples.weather_request (Scenario.calling ["getWeather"; "getTime"])
      (initial_world []) = (Err e, w') /\
    e <> AttributeError "'NoneType' object has no attribute 'arun_raw'".
Proof.
  destruct (resolve_tool_requests Scenario.same_json
              (Examples.weather_registry Scenario.answering_model)
              Examples.weather_request
              (Scenario.calling ["getWeather"; "getTime"])
              (initial_world [])) as [[ok|e] w'] eqn:Hrun;
    [vm_compute in Hrun; discriminate|].
  exists e, w'. split; [reflexivity|].
  destruct (resolve_tool_requests_errors Scenario.same_json
              (Examples.weather_registry Scenario.answering_model)
              Examples.weather_request
              (Scenario.calling ["getWeather"; "getTime"])
              (initial_world []) e w' Scenario.answering_model
              [Scenario.weather_tool] None eq_refl Hrun)
    as [(_ & ->)|[(tr & _ & _ & ->)|(tr & tool & origin & _ & _ & _ & _ & ->)]];
    discriminate.
Defined.

(** X11 at a model that asks for [getWeather] on every call, with
    [max_turns = 1]: two dispatches at most. *)
Lemma dispatches_are_bounded_witness :
  exists res w' ds,
    Scenario.run 5%nat (Examples.weather_registry Scenario.insisting_model)
      (Scenario.request_with (Some ["getWeather"]) None (Some 1))
      false 0 0 None None (initial_world []) = Some (res, w') /\
    w_dispatched w' = ds /\ Z.of_nat (length ds) <= 2.
Proof.
  destruct (dispatches_are_bounded
              Scenario.keep_messages (Scenario.with_note "context")
              Scenario.always_valid Scenario.always_valid Scenario.same_json
              (Examples.weather_registry Scenario.insisting_model)
              (Scenario.request_with (Some ["getWeather"]) None (Some 1))
              false 0 0 None None (initial_world []) 5%nat)
    as (res & w' & ds & Hrun & Hds & Hlen & _).
  - vm_compute. lia.
  - exists res, w', ds. split; [exact Hrun|]. split; [exact Hds|exact Hlen].
Defined.

(** X12 at a run of two turns: each model call is a call of the model
    registered as [m]. *)
Lemma model_calls_go_to_the_resolved_model_witness :
  exists res w',
    Scenario.run 7%nat (Examples.weather_registry Scenario.weather_model)
      Examples.weather_request false 0 0 None None (initial_world [])
      = Some (res, w') /\
    Forall (fun c => mc_model c = "m") (w_model_calls w').
Proof.
  destruct (model_calls_go_to_the_resolved_model
              Scenario.keep_messages (Scenario.with_note "context")
              Scenario.always_valid Scenario.always_valid Scenario.same_json
              (Examples.weather_registry Scenario.weather_model)
              Examples.weather_request false 0 0 None None (initial_world [])
              7%nat Scenario.weather_model [Scenario.weather_tool] None)
    as (res & w' & calls & Hrun & Hcalls & Hall).
  - reflexivity.
  - vm_compute. lia.
  - exists res, w'. split; [exact Hrun|]. rewrite Hcalls. exact Hall.
Defined.

(** X13 at a model that asks for [getWeather] and then answers, run
    without a callback. *)
Lemma no_callback_is_never_called_witness :
  exists res w',
    Scenario.run 7%nat (Examples.weather_registry Scenario.weather_model)
      Examples.weather_request false 0 0 None None (initial_world [])
      = Some (res, w') /\
    res <> Err (TypeError "'NoneType' object is not callable") /\
    Forall (fun c => mc_streams c = false) (w_model_calls w').
Proof.
  destruct (no_callback_is_never_called
              Scenario.keep_messages (Scenario.with_note "context")
              Scenario.always_valid Scenario.always_valid Scenario.same_json
              (Examples.weather_registry Scenario.weather_model)
              Examples.weather_request 0 0 None None (initial_world []) 7%nat)
    as (res & w' & calls & Hrun & Hne & Hcalls & Hall).
  - apply with_note_transparent.
  - apply Forall_nil_2.
  - vm_compute. lia.
  - exists res, w'. split; [exact Hrun|]. split; [exact Hne|].
    rewrite Hcalls. exact Hall.
Defined.

(** X14 at a run that executes [getWeather] once. *)
Lemma tools_run_are_declared_tools_witness :
  exists res w',
    Scenario.run 7%nat (Examples.weather_registry Scenario.weather_model)
      Examples.weather_request false 0 0 None None (initial_world [])
      = Some (res, w') /\
    Forall (serves_declared_tool
              (Examples.weather_registry Scenario.weather_model)
              Examples.weather_request)
           (w_tool_calls w').
Proof.
  destruct (tools_run_are_declared_tools
              Scenario.keep_messages (Scenario.with_note "context")
              Scenario.always_valid Scenario.always_valid Scenario.same_json
              (Examples.weather_registry Scenario.weather_model)
              Examples.weather_request false 0 0 None None (initial_world [])
              7%nat)
    as (res & w' & served & Hrun & Hserved & Hall).
  - vm_compute. lia.
  - exists res, w'. split; [exact Hrun|]. rewrite Hserved. exact Hall.
Defined.

(** X15 at a model that asks for [getWeather] on every call and a request
    with [return_tool_requests] set: no tool is run. *)
Lemma return_tool_requests_runs_no_tool_witness :
  exists res w',
    Scenario.run 1%nat (Examples.weather_registry Scenario.insisting_model)
      (Examples.returning_tool_requests Examples.weather_request)
      false 0 0 None None (initial_world []) = Some (res, w') /\
    w_tool_calls w' = [].
Proof.
  destruct (return_tool_requests_runs_no_tool
              Scenario.keep_messages (Scenario.with_note "context")
              Scenario.always_valid Scenario.always_valid Scenario.same_json
              (Examples.weather_registry Scenario.insisting_model)
              (Examples.returning_tool_requests Examples.weather_request)
              false 0 0 None None (initial_world []) 0%nat)
    as (res & w' & ds & Hrun & _ & Htools & _).
  - reflexivity.
  - exists res, w'. split; [exact Hrun|exact Htools].
Defined.

(** X16 at a run of two turns that ends with an answer. *)
Lemma returned_response_is_validated_witness :
  exists res w',
    Scenario.run 7%nat (Examples.weather_registry Scenario.weather_model)
      Examples.weather_request false 0 0 None None (initial_world [])
      = Some (res, w') /\
    forall response, res = Ok response ->
      Scenario.always_valid response = Done tt.
Proof.
  destruct (returned_response_is_validated
              Scenario.keep_messages (Scenario.with_note "context")
              Scenario.always_valid Scenario.always_valid Scenario.same_json
              (Examples.weather_registry Scenario.weather_model)
              Examples.weather_request false 0 0 None None (initial_world [])
              7%nat)
    as (res & w' & Hrun & Hvalid).
  - vm_compute. lia.
  - exists res, w'. split; [exact Hrun|].
    intros response Hres. destruct (Hvalid response Hres) as (Hv & _).
    exact Hv.
Defined.

(** X17 at a model that asks for [getWeather] on every call, with
    [max_turns = 1]. *)
Lemma abort_error_contents_witness :
  exists res w',
    Scenario.run 5%nat (Examples.weather_registry Scenario.insisting_model)
      (Scenario.request_with (Some ["getWeather"]) None (Some 1))
      false 0 0 None None (initial_world []) = Some (res, w') /\
    forall response message status details_request,
      res = Err (GenerationResponseError response message status
                   details_request) ->
      message = "Exceeded maximum tool call iterations (1)" /\
      status = "ABORTED".
Proof.
  destruct (abort_error_contents
              Scenario.keep_messages (Scenario.with_note "context")
              Scenario.always_valid Scenario.always_valid Scenario.same_json
              (Examples.weather_registry Scenario.insisting_model)
              (Scenario.request_with (Some ["getWeather"]) None (Some 1))
              false 0 0 None None (initial_world []) 5%nat)
    as (res & w' & Hrun & Habort).
  - apply with_note_transparent.
  - apply Forall_nil_2.
  - vm_compute. lia.
  - exists res, w'. split; [exact Hrun|].
    intros response message status details_request Hres.
    destruct (Habort response message status details_request Hres)
      as (Hmsg & Hstatus & _).
    split; [exact Hmsg|exact Hstatus].
Defined.

(** X18 at the first turn of a model that asks for [getWeather]: the next
    request ends with the model's reply and the tool message. *)
Lemma next_turn_request_witness :
  exists next_request mi' ct' w' generated_msg tool_msg,
    generate_action_turn Scenario.keep_messages (Scenario.with_note "context")
      Scenario.always_valid Scenario.always_valid Scenario.same_json
      (Examples.weather_registry Scenario.weather_model)
      Examples.weather_request false 0 0 None None (initial_world [])
    = (Ok (Recurse next_request mi' ct'), w') /\
    asks_for_tools generated_msg /\
    msg_role tool_msg = RoleTool /\
    ct' = 1.
Proof.
  destruct (generate_action_turn Scenario.keep_messages
              (Scenario.with_note "context")
              Scenario.always_valid Scenario.always_valid Scenario.same_json
              (Examples.weather_registry Scenario.weather_model)
              Examples.weather_request false 0 0 None None (initial_world []))
    as [[[response|next_request mi' ct']|e] w'] eqn:Hturn;
    [vm_compute in Hturn; discriminate| |vm_compute in Hturn; discriminate].
  destruct (next_turn_request
              Scenario.keep_messages (Scenario.with_note "context")
              Scenario.always_valid Scenario.always_valid Scenario.same_json
              (Examples.weather_registry Scenario.weather_model)
              Examples.weather_request false 0 0 None None (initial_world [])
              next_request mi' ct' w' Hturn)
    as (model & tools & fd & raw1 & fmt & generated_msg & tool_msg & _ & _ & _
        & Hasks & Hrole & _ & Hct & _).
  exists next_request, mi', ct', w', generated_msg, tool_msg.
  split; [reflexivity|]. split; [exact Hasks|]. split; [exact Hrole|exact Hct].
Defined.

(** X19 at a request for the format [jsonl], whose Format gives the hint
    [json], with a registry that holds [jsonl] only: the second turn ends in
    the [ValueError]. *)
Lemma later_turn_resolves_the_format_hint_witness :
  exists next_request mi' ct' w',
    generate_action_turn Scenario.keep_messages (Scenario.with_note "context")
      Scenario.always_valid Scenario.always_valid Scenario.same_json
      (Examples.weather_registry Scenario.weather_model)
      Examples.jsonl_request false 0 0 None None (initial_world [])
    = (Ok (Recurse next_request mi' ct'), w') /\
    Scenario.run 1%nat (Examples.weather_registry Scenario.weather_model)
      next_request false mi' ct' None None w'
    = Some (Err (ValueError "Unable to resolve format json"), w').
Proof.
  destruct (generate_action_turn Scenario.keep_messages
              (Scenario.with_note "context")
              Scenario.always_valid Scenario.always_valid Scenario.same_json
              (Examples.weather_registry Scenario.weather_model)
              Examples.jsonl_request false 0 0 None None (initial_world []))
    as [[[response|next_request mi' ct']|e] w'] eqn:Hturn;
    [vm_compute in Hturn; discriminate| |vm_compute in Hturn; discriminate].
  destruct (later_turn_resolves_the_format_hint
              Scenario.keep_messages (Scenario.with_note "context")
              Scenario.always_valid Scenario.always_valid Scenario.same_json
              (Examples.weather_registry Scenario.weather_model)
              Examples.jsonl_request false 0 0 None None (initial_world [])
              next_request mi' ct' w' Scenario.weather_model
              [Scenario.weather_tool] Scenario.jsonl_format "json" Hturn)
    as (_ & _ & Hrun).
  - reflexivity.
  - reflexivity.
  - discriminate.
  - exists next_request, mi', ct', w'. split; [reflexivity|].
    apply (Hrun eq_refl 0%nat).
Defined.


(** X21 at a request for [getWeather]: the model is told of one tool. *)
Lemma first_dispatch_lists_the_resolved_tools_witness :
  exists res w' d later,
    Scenario.run 7%nat (Examples.weather_registry Scenario.weather_model)
      Examples.weather_request false 0 0 None None (initial_world [])
      = Some (res, w') /\
    w_dispatched w' = d :: later /\
    registered_name <$> req_tools (dp_request d) = ["getWeather"].
Proof.
  destruct (first_dispatch_lists_the_resolved_tools
              Scenario.keep_messages (Scenario.with_note "context")
              Scenario.always_valid Scenario.always_valid Scenario.same_json
              (Examples.weather_registry Scenario.weather_model)
              Examples.weather_request false 0 0 None None (initial_world [])
              7%nat Scenario.weather_model [Scenario.weather_tool] None)
    as (res & w' & d & later & Hrun & Hd & Hnames & _).
  - reflexivity.
  - vm_compute. lia.
  - exists res, w', d, later. split; [exact Hrun|]. split; [exact Hd|].
    exact Hnames.
Defined.

(** X22 at the first turn of a streaming run that asks for [getWeather]. *)
Lemma tool_chunk_is_the_tool_message_witness :
  exists next_request mi' ct' w' c tool_msg,
    generate_action_turn Scenario.keep_messages (Scenario.with_note "context")
      Scenario.always_valid Scenario.always_valid Scenario.same_json
      (Examples.weather_registry Scenario.weather_model)
      Examples.weather_request true 0 0 None None (initial_world [])
    = (Ok (Recurse next_request mi' ct'), w') /\
    last (w_emitted w') = Some c /\
    last (opt_messages next_request) = Some tool_msg /\
    ch_content (cw_chunk c) = msg_content tool_msg.
Proof.
  destruct (generate_action_turn Scenario.keep_messages
              (Scenario.with_note "context")
              Scenario.always_valid Scenario.always_valid Scenario.same_json
              (Examples.weather_registry Scenario.weather_model)
              Examples.weather_request true 0 0 None None (initial_world []))
    as [[[response|next_request mi' ct']|e] w'] eqn:Hturn;
    [vm_compute in Hturn; discriminate| |vm_compute in Hturn; discriminate].
  destruct (tool_chunk_is_the_tool_message
              Scenario.keep_messages (Scenario.with_note "context")
              Scenario.always_valid Scenario.always_valid Scenario.same_json
              (Examples.weather_registry Scenario.weather_model)
              Examples.weather_request 0 0 None None (initial_world [])
              next_request mi' ct' w' Hturn)
    as (c & tool_msg & Hlast & Hnext & _ & Hc).
  exists next_request, mi', ct', w', c, tool_msg.
  split; [reflexivity|]. split; [exact Hlast|]. split; [exact Hnext|].
  rewrite Hc. reflexivity.
Defined.

(** X23 at three versions. *)
Lemma GoogleGenai_initialize_distinct_names_witness :
  dm_name <$> GoogleGenai_initialize Examples.gemini_versions
                (fun _ => tt) (fun _ => None)
  = ["google_genai/gemini-1.5-pro"; "google_genai/gemini-1.5-flash";
     "google_genai/gemini-2.0-flash"].
Proof.
  destruct (GoogleGenai_initialize_distinct_names Examples.gemini_versions
              (fun _ => tt) (fun _ => None)) as (_ & Hnames).
  - apply (bool_decide_unpack _). vm_compute. exact I.
  - rewrite Hnames. reflexivity.
Defined.

(** X25 at a call without Vertex AI and with an empty key, the environment
    holding a key, and a client constructor that keeps its arguments: the
    client gets the key of the environment. *)
Lemma GoogleGenai_init_api_key_witness :
  exists args : ClientArgs unit unit unit,
    GoogleGenai_init Done (Some "env-key") None (Some "") None None None None
      None = Ok args /\
    ca_api_key args = Some "env-key".
Proof.
  destruct (GoogleGenai_init (Credentials := unit) (DebugConfig := unit)
              (HttpOptions := unit) Done (Some "env-key") None (Some "") None
              None None None None) as [client|e] eqn:Hinit;
    [|vm_compute in Hinit; discriminate].
  destruct (GoogleGenai_init_api_key Done (Some "env-key") None (Some "") None
              None None None None client Hinit)
    as (args & Hnew & _ & _ & Hkey).
  destruct (Hkey eq_refl) as (_ & _ & Henv).
  injection Hnew as ->.
  exists client. split; [reflexivity|]. apply Henv. reflexivity.
Defined.
